(** * FastDaraja: token cache, callback normalisation, subscriber hub, replay guard

    A shallow embedding of the M-Pesa integration service (package [api]) and
    the properties its specification states about it.  Each Python module is
    a Rocq [Module] of the same name; functions keep their Python names.

    Conventions of the embedding
    - Python exceptions are values of [exn]; a computation that may raise
      returns a [result]; code that also reads or writes process-wide state
      (the token cache, the list of websocket clients, the clock, stdout) is
      a function [S -> result A * S]: the state reached when an exception is
      raised is kept, as in Python.
    - A [str] is a [string] whose characters are read as the code points
      0..255.  On these code points the regular-expression class [\d] is
      exactly the ten ASCII digits.
    - Values decoded from JSON are [pyval]s; a [dict] is an association list
      in insertion order whose first binding of a key is the one [get] sees.
    - A [datetime] is a number of microseconds; a [float] is an IEEE-754
      binary64 value ([spec_float]).
    - Handlers run to completion: the interleaving of coroutines at [await]
      points is not part of the model. *)

From Stdlib Require Import ZArith String Ascii List Lia Bool.
From Stdlib Require Import Floats.SpecFloat Numbers.DecimalString.
From stdpp Require Import base option list gmap strings.

Local Open Scope string_scope.
Local Open Scope list_scope.
Local Open Scope Z_scope.
Local Set Warnings "-register-all".
(* string concatenation unfolds on a literal first argument *)
Local Arguments String.append !_ _ / : simpl nomatch.

(** ** Python values, exceptions and effects *)

Module Py.

(** Values as [json.loads] builds them (and as the handlers pass them on). *)
Inductive pyval : Type :=
| VNone
| VBool (b : bool)
| VInt (z : Z)
| VFloat (f : spec_float)
| VStr (s : string)
| VList (l : list pyval)
| VDict (d : list (string * pyval)).

(** The exceptions the modelled code raises or catches.  All of them are
    subclasses of [Exception].  [SendError] stands for whatever the websocket
    transport raises when a frame is sent on a closed connection. *)
Inductive exn : Type :=
| AttributeError
| KeyError
| TypeError
| ValueError
| OverflowError
| JSONDecodeError
| ValidationError
| SendError
| TimeoutException
| TransportError
| HTTPException (status_code : Z) (detail : pyval).

Inductive result (A : Type) : Type :=
| Return (a : A)
| Raise (e : exn).
Arguments Return {A} a.
Arguments Raise {A} e.

Definition rbind {A B} (r : result A) (k : A -> result B) : result B :=
  match r with
  | Return a => k a
  | Raise e => Raise e
  end.

(** Stateful computations: the state is threaded through, and survives a
    raised exception. *)
Definition M (S A : Type) : Type := S -> result A * S.

Definition ret {S A} (a : A) : M S A := fun s => (Return a, s).
Definition raise {S A} (e : exn) : M S A := fun s => (Raise e, s).
Definition lift {S A} (r : result A) : M S A := fun s => (r, s).
Definition bind {S A B} (m : M S A) (k : A -> M S B) : M S B :=
  fun s => match m s with
           | (Return a, s') => k a s'
           | (Raise e, s') => (Raise e, s')
           end.
Definition get_state {S} : M S S := fun s => (Return s, s).
Definition modify {S} (f : S -> S) : M S unit := fun s => (Return tt, f s).

(** [try: body  except Exception as e: handler e] *)
Definition try_except {S A} (body : M S A) (handler : exn -> M S A) : M S A :=
  fun s => match body s with
           | (Return a, s') => (Return a, s')
           | (Raise e, s') => handler e s'
           end.

(** Truthiness, as [if v:] and [not v] test it. *)
Definition float_is_zero (f : spec_float) : bool :=
  match f with S754_zero _ => true | _ => false end.

Definition truthy (v : pyval) : bool :=
  match v with
  | VNone => false
  | VBool b => b
  | VInt z => negb (z =? 0)
  | VFloat f => negb (float_is_zero f)
  | VStr s => negb (String.eqb s "")
  | VList l => match l with [] => false | _ => true end
  | VDict d => match d with [] => false | _ => true end
  end.

(** [d.get(key)] on the association list of a dict. *)
Fixpoint assoc (key : string) (d : list (string * pyval)) : option pyval :=
  match d with
  | [] => None
  | (k, v) :: rest => if String.eqb k key then Some v else assoc key rest
  end.

(** [v.get(key, default)]: only a dict has the method. *)
Definition py_get (v : pyval) (key : string) (default : pyval) : result pyval :=
  match v with
  | VDict d => Return (match assoc key d with Some x => x | None => default end)
  | _ => Raise AttributeError
  end.

(** [datetime]: microseconds since [datetime.min] (0001-01-01T00:00:00).  A
    naive value carries no offset; an aware value is kept as its UTC instant. *)
Inductive datetime : Type :=
| Naive (us : Z)
| Aware (utc_us : Z).

(** Behaviour of the interpreter and of third-party libraries that the
    repository calls but does not define.  Everything below holds for any
    implementation of this interface.
    - [int_of_str s]: [int(s)] on a [str] ([None]: [ValueError]);
    - [float_of_str s]: [float(s)] on a [str] ([None]: [ValueError]);
    - [repr v]: [str(v)] for a float, a list or a dict;
    - [lax_int v]: what pydantic's lax [int] validation makes of a value
      that is not an [int] ([None]: the validation fails);
    - [fromisoformat s]: [datetime.fromisoformat(s)] ([None]: it raises);
    - [exn_str e]: [str(e)] for a caught exception.  An exception is
      modelled by its class, without its message (the interpreter's, a
      library's, or the text the repository gives to the exceptions it
      raises itself), so the text of [str(e)] is left open: where an answer
      carries it, the statements below have [exn_str e] as it is, or some
      message. *)
Class Runtime : Type := {
  int_of_str : string -> option Z;
  float_of_str : string -> option spec_float;
  repr : pyval -> string;
  lax_int : pyval -> option Z;
  fromisoformat : string -> option datetime;
  exn_str : exn -> string
}.

(** [float(z)] for an [int]: round to nearest, ties to even; an [int] beyond
    the range of binary64 raises. *)
Definition float_of_Z (z : Z) : result spec_float :=
  match binary_normalize 53 1024 z 0 false with
  | S754_infinity _ => Raise OverflowError
  | f => Return f
  end.

(** [int(f)] for a [float]: truncation towards zero. *)
Definition Z_of_float (f : spec_float) : result Z :=
  match f with
  | S754_zero _ => Return 0
  | S754_infinity _ => Raise OverflowError
  | S754_nan => Raise ValueError
  | S754_finite s m e =>
      let mag := Z.shiftl (Z.pos m) e in
      Return (if s then - mag else mag)
  end.

Definition Z_of_bool (b : bool) : Z := if b then 1 else 0.

(** [int(v)] *)
Definition py_int {RT : Runtime} (v : pyval) : result Z :=
  match v with
  | VInt z => Return z
  | VBool b => Return (Z_of_bool b)
  | VFloat f => Z_of_float f
  | VStr s => match int_of_str s with Some z => Return z | None => Raise ValueError end
  | VNone | VList _ | VDict _ => Raise TypeError
  end.

(** [float(v)] *)
Definition py_float {RT : Runtime} (v : pyval) : result spec_float :=
  match v with
  | VFloat f => Return f
  | VInt z => float_of_Z z
  | VBool b => float_of_Z (Z_of_bool b)
  | VStr s => match float_of_str s with Some f => Return f | None => Raise ValueError end
  | VNone | VList _ | VDict _ => Raise TypeError
  end.

(** [str(z)] for an [int]. *)
Definition str_of_Z (z : Z) : string := NilZero.string_of_int (Z.to_int z).

(** [str(v)] *)
Definition py_str {RT : Runtime} (v : pyval) : string :=
  match v with
  | VStr s => s
  | VNone => "None"
  | VBool true => "True"
  | VBool false => "False"
  | VInt z => str_of_Z z
  | VFloat _ | VList _ | VDict _ => repr v
  end.

Declare Scope py_scope.
Delimit Scope py_scope with py.
Notation "'let!' x := c 'in' k" := (bind c (fun x => k))
  (at level 10, x name, c at level 100, k at level 200) : py_scope.
Notation "'do!' c 'in' k" := (bind c (fun _ => k))
  (at level 10, c at level 100, k at level 200) : py_scope.

End Py.

(** ** Text as code points

    Where the code looks at the characters of a [str] (a regular expression,
    [str.isdigit], [str.strip], [len]), the characters are code points of
    Unicode, and the classes below decide what it does.  The tables are those
    of Unicode 14.0, which Python 3.11 carries; they are given as the
    inclusive ranges of code points of each class. *)

Module unicodedata.

(** A [str] as the list of its code points. *)
Definition str : Type := list Z.

(** The [str] a literal of the code points 0..255 stands for. *)
Fixpoint code_points (s : string) : str :=
  match s with
  | EmptyString => []
  | String c rest => Z.of_nat (nat_of_ascii c) :: code_points rest
  end.

Definition in_table (table : list (Z * Z)) (c : Z) : bool :=
  existsb (fun r => ((fst r <=? c) && (c <=? snd r))%bool) table.

(** The decimal digits (category Nd): what [\d] matches in a pattern on a
    [str], and what [str.isdecimal] accepts. *)
Definition Nd : list (Z * Z) :=
  [(48, 57); (1632, 1641); (1776, 1785); (1984, 1993); (2406, 2415);
   (2534, 2543); (2662, 2671); (2790, 2799); (2918, 2927); (3046, 3055);
   (3174, 3183); (3302, 3311); (3430, 3439); (3558, 3567); (3664, 3673);
   (3792, 3801); (3872, 3881); (4160, 4169); (4240, 4249); (6112, 6121);
   (6160, 6169); (6470, 6479); (6608, 6617); (6784, 6793); (6800, 6809);
   (6992, 7001); (7088, 7097); (7232, 7241); (7248, 7257); (42528, 42537);
   (43216, 43225); (43264, 43273); (43472, 43481); (43504, 43513);
   (43600, 43609); (44016, 44025); (65296, 65305); (66720, 66729);
   (68912, 68921); (69734, 69743); (69872, 69881); (69942, 69951);
   (70096, 70105); (70384, 70393); (70736, 70745); (70864, 70873);
   (71248, 71257); (71360, 71369); (71472, 71481); (71904, 71913);
   (72016, 72025); (72784, 72793); (73040, 73049); (73120, 73129);
   (92768, 92777); (92864, 92873); (93008, 93017); (120782, 120831);
   (123200, 123209); (123632, 123641); (125264, 125273); (130032, 130041)].

Definition decimal (c : Z) : bool := in_table Nd c.

(** The characters [str.isdigit] accepts: the decimal digits, and the other
    characters that stand for a digit (superscripts, subscripts, circled
    digits and the like). *)
Definition Digit : list (Z * Z) :=
  [(48, 57); (178, 179); (185, 185); (1632, 1641); (1776, 1785);
   (1984, 1993); (2406, 2415); (2534, 2543); (2662, 2671); (2790, 2799);
   (2918, 2927); (3046, 3055); (3174, 3183); (3302, 3311); (3430, 3439);
   (3558, 3567); (3664, 3673); (3792, 3801); (3872, 3881); (4160, 4169);
   (4240, 4249); (4969, 4977); (6112, 6121); (6160, 6169); (6470, 6479);
   (6608, 6618); (6784, 6793); (6800, 6809); (6992, 7001); (7088, 7097);
   (7232, 7241); (7248, 7257); (8304, 8304); (8308, 8313); (8320, 8329);
   (9312, 9320); (9332, 9340); (9352, 9360); (9450, 9450); (9461, 9469);
   (9471, 9471); (10102, 10110); (10112, 10120); (10122, 10130);
   (42528, 42537); (43216, 43225); (43264, 43273); (43472, 43481);
   (43504, 43513); (43600, 43609); (44016, 44025); (65296, 65305);
   (66720, 66729); (68160, 68163); (68912, 68921); (69216, 69224);
   (69714, 69722); (69734, 69743); (69872, 69881); (69942, 69951);
   (70096, 70105); (70384, 70393); (70736, 70745); (70864, 70873);
   (71248, 71257); (71360, 71369); (71472, 71481); (71904, 71913);
   (72016, 72025); (72784, 72793); (73040, 73049); (73120, 73129);
   (92768, 92777); (92864, 92873); (93008, 93017); (120782, 120831);
   (123200, 123209); (123632, 123641); (125264, 125273); (127232, 127242);
   (130032, 130041)].

Definition isdigit (c : Z) : bool := in_table Digit c.

(** The characters [str.isspace] accepts, which [str.strip] removes. *)
Definition White_Space : list (Z * Z) :=
  [(9, 13); (28, 32); (133, 133); (160, 160); (5760, 5760); (8192, 8202);
   (8232, 8233); (8239, 8239); (8287, 8287); (12288, 12288)].

Definition isspace (c : Z) : bool := in_table White_Space c.

End unicodedata.

(** ** api/core/utils.py *)

Module utils.
Import Py.

(** One of the characters 0-9: what [\d] matches among the code points
    0..255.  (The module [wide] below has the functions of this file on a
    [str] of any code points, where [\d] matches more.) *)
Definition is_digit (c : ascii) : bool :=
  let n := nat_of_ascii c in (Nat.leb 48 n && Nat.leb n 57)%bool.

Definition is_plus (c : ascii) : bool := Ascii.eqb c "+"%char.

(** [re.sub(r'[^\d+]', '', s)]: every character that is neither a digit nor
    ['+'] is deleted. *)
Fixpoint re_sub_not_digit_plus (s : string) : string :=
  match s with
  | EmptyString => EmptyString
  | String c rest =>
      if (is_digit c || is_plus c)%bool
      then String c (re_sub_not_digit_plus rest)
      else re_sub_not_digit_plus rest
  end.

(** [s.startswith(p)] *)
Fixpoint startswith (s p : string) {struct p} : bool :=
  match p with
  | EmptyString => true
  | String a p' =>
      match s with
      | String c s' => (Ascii.eqb a c && startswith s' p')%bool
      | EmptyString => false
      end
  end.

(** [s[1:]] *)
Definition slice_from_1 (s : string) : string :=
  match s with
  | EmptyString => EmptyString
  | String _ rest => rest
  end.

(** [\d{n}] at the head of [s]: the rest of [s] after [n] digits. *)
Fixpoint match_digits (n : nat) (s : string) : option string :=
  match n with
  | O => Some s
  | S n' =>
      match s with
      | String c rest => if is_digit c then match_digits n' rest else None
      | EmptyString => None
      end
  end.

(** A literal prefix of the pattern: the rest of [s] after [p]. *)
Fixpoint match_literal (p s : string) : option string :=
  match p with
  | EmptyString => Some s
  | String a p' =>
      match s with
      | String c rest => if Ascii.eqb a c then match_literal p' rest else None
      | EmptyString => None
      end
  end.

Definition newline : string := String (ascii_of_nat 10) EmptyString.

(** [$] without [re.MULTILINE]: the end of the string, or just before a
    newline that ends the string. *)
Definition match_end (s : string) : bool :=
  (String.eqb s EmptyString || String.eqb s newline)%bool.

(** [re.match(r'^254\d{9}$', s)] as a truth value. *)
Definition re_match_254_9_digits (s : string) : bool :=
  match match_literal "254" s with
  | Some rest =>
      match match_digits 9 rest with
      | Some rest' => match_end rest'
      | None => false
      end
  | None => false
  end.

Definition format_phone_number (phone_number : string) : result string :=
  let cleaned := re_sub_not_digit_plus phone_number in
  let cleaned :=
    if startswith cleaned "+" then slice_from_1 cleaned else cleaned in
  let cleaned :=
    if startswith cleaned "0" then "254" +:+ slice_from_1 cleaned
    else if negb (startswith cleaned "254") then "254" +:+ cleaned
    else cleaned in
  if negb (re_match_254_9_digits cleaned) then Raise ValueError
  else Return cleaned.

(** *** [generate_password] *)

(** [s.encode()], UTF-8, on the code points 0..255: one byte below 128, two
    bytes from 128 on. *)
Definition encode_char (c : ascii) : list Z :=
  let n := Z.of_nat (nat_of_ascii c) in
  if n <? 128 then [n] else [192 + n / 64; 128 + n mod 64].

Fixpoint encode (s : string) : list Z :=
  match s with
  | EmptyString => []
  | String c rest => encode_char c ++ encode rest
  end.

Definition b64_alphabet : string :=
  "ABCDEFGHIJKLMNOPQRSTUVWXYZabcdefghijklmnopqrstuvwxyz0123456789+/".

Definition b64_char (i : Z) : ascii :=
  match String.get (Z.to_nat i) b64_alphabet with
  | Some c => c
  | None => "="%char
  end.

(** [base64.b64encode(bs).decode('utf-8')]: three bytes give four characters
    of the alphabet; one or two bytes left over give two or three, filled up
    with ['=']. *)
Fixpoint b64encode (bs : list Z) : string :=
  match bs with
  | [] => EmptyString
  | [a] =>
      let n := a * 65536 in
      String (b64_char (n / 262144))
        (String (b64_char (n / 4096 mod 64)) "==")
  | [a; b] =>
      let n := a * 65536 + b * 256 in
      String (b64_char (n / 262144))
        (String (b64_char (n / 4096 mod 64))
           (String (b64_char (n / 64 mod 64)) "="))
  | a :: b :: c :: rest =>
      let n := a * 65536 + b * 256 + c in
      String (b64_char (n / 262144))
        (String (b64_char (n / 4096 mod 64))
           (String (b64_char (n / 64 mod 64))
              (String (b64_char (n mod 64)) (b64encode rest))))
  end.

Definition generate_password (business_short_code passkey timestamp : string)
  : string :=
  let data_to_encode := business_short_code +:+ passkey +:+ timestamp in
  b64encode (encode data_to_encode).

(** *** [get_timestamp] *)

(** The calendar of [datetime]: [_DAYS_BEFORE_MONTH] and [_DAYS_IN_MONTH] of
    a common year, and [_ord2ymd], which turns the number of a day (day 1
    is 0001-01-01) into year, month and day. *)
Definition DAYS_BEFORE_MONTH (month : Z) : Z :=
  match month with
  | 1 => 0 | 2 => 31 | 3 => 59 | 4 => 90 | 5 => 120 | 6 => 151
  | 7 => 181 | 8 => 212 | 9 => 243 | 10 => 273 | 11 => 304 | _ => 334
  end.

Definition DAYS_IN_MONTH (month : Z) : Z :=
  match month with
  | 2 => 28
  | 4 | 6 | 9 | 11 => 30
  | _ => 31
  end.

Definition ord2ymd (ordinal : Z) : Z * Z * Z :=
  let n := ordinal - 1 in
  let n400 := n / 146097 in
  let n := n mod 146097 in
  let year := n400 * 400 + 1 in
  let n100 := n / 36524 in
  let n := n mod 36524 in
  let n4 := n / 1461 in
  let n := n mod 1461 in
  let n1 := n / 365 in
  let n := n mod 365 in
  let year := year + n100 * 100 + n4 * 4 + n1 in
  if ((n1 =? 4) || (n100 =? 4))%bool then (year - 1, 12, 31)
  else
    let leapyear := ((n1 =? 3) && (negb (n4 =? 24) || (n100 =? 3)))%bool in
    let month := (n + 50) / 32 in
    let preceding :=
      DAYS_BEFORE_MONTH month + (if ((2 <? month) && leapyear)%bool then 1 else 0) in
    if n <? preceding then
      let month := month - 1 in
      let preceding :=
        preceding
        - (DAYS_IN_MONTH month + (if ((month =? 2) && leapyear)%bool then 1 else 0)) in
      (year, month, n - preceding + 1)
    else (year, month, n - preceding + 1).

(** One decimal digit. *)
Definition digit (d : Z) : ascii := ascii_of_nat (48 + Z.to_nat d).

(** [%m], [%d], [%H], [%M], [%S]: two digits. *)
Definition two_digits (z : Z) : string :=
  String (digit (z / 10)) (String (digit (z mod 10)) EmptyString).

(** [%Y]: four digits.  (Whether a year below 1000 is filled up with zeros
    is left to the C library; from the year 1000 on all agree.) *)
Definition four_digits (z : Z) : string :=
  String (digit (z / 1000))
    (String (digit (z / 100 mod 10))
       (String (digit (z / 10 mod 10))
          (String (digit (z mod 10)) EmptyString))).

(** [t.strftime('%Y%m%d%H%M%S')] for a datetime [t], in microseconds since
    [datetime.min]. *)
Definition strftime_YmdHMS (t : Z) : string :=
  let day := 86400 * 1000000 in
  let '(year, month, d) := ord2ymd (t / day + 1) in
  let seconds := t mod day / 1000000 in
  four_digits year +:+ two_digits month +:+ two_digits d
  +:+ two_digits (seconds / 3600) +:+ two_digits (seconds / 60 mod 60)
  +:+ two_digits (seconds mod 60).

(** [get_timestamp()], [now] being what [datetime.now()] returns. *)
Definition get_timestamp (now : Z) : string := strftime_YmdHMS now.

(** *** [format_phone_number] on a [str] of any code points

    The definitions above carry a [str] as a string of the code points
    0..255, as the rest of the model does; those below are the same
    statements on a [str] of any code points, where [\d] matches every
    decimal digit of Unicode.  The two agree on the code points 0..255
    (lemma [format_phone_number_agrees]). *)

Module wide.
Import unicodedata.

(** [re.sub(r'[^\d+]', '', s)] *)
Fixpoint re_sub_not_digit_plus (s : str) : str :=
  match s with
  | [] => []
  | c :: rest =>
      if (decimal c || (c =? 43))%bool
      then c :: re_sub_not_digit_plus rest
      else re_sub_not_digit_plus rest
  end.

(** [s.startswith(p)] *)
Fixpoint startswith (s p : str) {struct p} : bool :=
  match p with
  | [] => true
  | a :: p' =>
      match s with
      | c :: s' => ((a =? c) && startswith s' p')%bool
      | [] => false
      end
  end.

(** [s[1:]] *)
Definition slice_from_1 (s : str) : str :=
  match s with
  | [] => []
  | _ :: rest => rest
  end.

(** [\d{n}] at the head of [s]: the rest of [s] after [n] digits. *)
Fixpoint match_digits (n : nat) (s : str) : option str :=
  match n with
  | O => Some s
  | S n' =>
      match s with
      | c :: rest => if decimal c then match_digits n' rest else None
      | [] => None
      end
  end.

(** A literal prefix of the pattern: the rest of [s] after [p]. *)
Fixpoint match_literal (p s : str) : option str :=
  match p with
  | [] => Some s
  | a :: p' =>
      match s with
      | c :: rest => if a =? c then match_literal p' rest else None
      | [] => None
      end
  end.

(** [$] without [re.MULTILINE]: the end of the string, or just before a
    newline that ends the string. *)
Definition match_end (s : str) : bool :=
  match s with
  | [] => true
  | [c] => c =? 10
  | _ => false
  end.

(** [re.match(r'^254\d{9}$', s)] as a truth value. *)
Definition re_match_254_9_digits (s : str) : bool :=
  match match_literal (code_points "254") s with
  | Some rest =>
      match match_digits 9 rest with
      | Some rest' => match_end rest'
      | None => false
      end
  | None => false
  end.

Definition format_phone_number (phone_number : str) : result str :=
  let cleaned := re_sub_not_digit_plus phone_number in
  let cleaned :=
    if startswith cleaned (code_points "+") then slice_from_1 cleaned
    else cleaned in
  let cleaned :=
    if startswith cleaned (code_points "0")
    then code_points "254" ++ slice_from_1 cleaned
    else if negb (startswith cleaned (code_points "254"))
         then code_points "254" ++ cleaned
         else cleaned in
  if negb (re_match_254_9_digits cleaned) then Raise ValueError
  else Return cleaned.

End wide.

End utils.

(** ** api/services/auth_service.py *)

Module auth_service.
Import Py.
Local Open Scope py_scope.

(** *** Dates and durations of the standard library *)

Definition US_PER_SECOND : Z := 1000000.
Definition SECONDS_PER_DAY : Z := 86400.

(** [timedelta(seconds=n)], in microseconds.  A [timedelta] holds at most
    999999999 days in either direction. *)
Definition timedelta_seconds (n : Z) : result Z :=
  let days := n / SECONDS_PER_DAY in
  if ((-999999999 <=? days) && (days <=? 999999999))%bool
  then Return (n * US_PER_SECOND)
  else Raise OverflowError.

(** Microseconds from [datetime.min] to the first instant after
    [datetime.max] (9999-12-31T23:59:59.999999, day number 3652059). *)
Definition DATETIME_END : Z := 3652059 * SECONDS_PER_DAY * US_PER_SECOND.

(** [t + td] on a [datetime]: the sum must be a representable date. *)
Definition datetime_add (t td : Z) : result Z :=
  if ((0 <=? t + td) && (t + td <? DATETIME_END))%bool
  then Return (t + td)
  else Raise OverflowError.

(** *** Configuration (api/core/config.py), the fields this module reads *)

Record Settings : Type := {
  CONSUMER_KEY : string;
  CONSUMER_SECRET : string;
  BASE_URL : string;
  API_TIMEOUT : Z
}.

Definition oauth_url (settings : Settings) : string :=
  BASE_URL settings +:+ "/oauth/v1/generate?grant_type=client_credentials".

(** *** State *)

(** The class attributes of [TokenCache]; [_token = None] is [VNone]. *)
Record TokenCache : Type := {
  _token : pyval;
  _expiry : option Z
}.

(** What the outside world can observe of this module: outbound requests to
    the OAuth endpoint and calls of the cache's mutators.  The trace is
    bookkeeping of the model; the code keeps no such log. *)
Inductive event : Type :=
| OAuthRequest (url : string) (basic_credentials : string) (timeout : Z)
| SetToken (token : pyval) (expires_in : Z)
| ClearToken.

Record world : Type := {
  cache : TokenCache;
  clock : Z;
  trace : list event
}.

Definition initial_cache : TokenCache := {| _token := VNone; _expiry := None |}.

Definition with_cache (f : TokenCache -> TokenCache) (w : world) : world :=
  {| cache := f (cache w); clock := clock w; trace := trace w |}.

Definition emit (e : event) : M world unit :=
  modify (fun w => {| cache := cache w; clock := clock w; trace := trace w ++ [e] |}).

(** [datetime.now()] *)
Definition datetime_now : M world Z := fun w => (Return (clock w), w).

(** Time passing between two calls. *)
Definition sleep (d : Z) (w : world) : world :=
  {| cache := cache w; clock := clock w + d; trace := trace w |}.

(** *** TokenCache *)

Definition set_token (token : pyval) (expires_in : Z) : M world unit :=
  do! emit (SetToken token expires_in) in
  do! modify (with_cache (fun c => {| _token := token; _expiry := _expiry c |})) in
  let! now := datetime_now in
  let! td := lift (timedelta_seconds (expires_in - 60)) in
  let! expiry := lift (datetime_add now td) in
  modify (with_cache (fun c => {| _token := _token c; _expiry := Some expiry |})).

Definition get_token : M world pyval :=
  fun w =>
    let c := cache w in
    if truthy (_token c) then
      match _expiry c with
      | Some expiry =>
          if clock w <? expiry then (Return (_token c), w) else (Return VNone, w)
      | None => (Return VNone, w)
      end
    else (Return VNone, w).

Definition clear_token : M world unit :=
  do! emit ClearToken in
  modify (with_cache (fun _ => initial_cache)).

(** *** AuthService *)

(** What [httpx] hands back for one request. *)
Record response : Type := {
  status_code : Z;
  text : string;
  json : option pyval   (* [response.json()]; [None]: the body is not JSON *)
}.

Inductive http_outcome : Type :=
| Responded (r : response)
| Failed (e : exn).       (* [TimeoutException], or another transport error *)

(** [await client.get(url, headers=..., timeout=...)]: the request goes out,
    [latency] microseconds pass, the outcome arrives. *)
Definition http_get (settings : Settings) (outcome : http_outcome) (latency : Z)
  : M world response :=
  do! emit (OAuthRequest (oauth_url settings)
                         (CONSUMER_KEY settings +:+ ":" +:+ CONSUMER_SECRET settings)
                         (API_TIMEOUT settings)) in
  do! modify (sleep latency) in
  match outcome with
  | Responded r => ret r
  | Failed e => raise e
  end.

Definition response_json (r : response) : result pyval :=
  match json r with
  | Some v => Return v
  | None => Raise JSONDecodeError
  end.

(** The body of the [try] block. *)
Definition refresh {RT : Runtime} (settings : Settings) (outcome : http_outcome)
    (latency : Z) : M world pyval :=
  let! response := http_get settings outcome latency in
  if negb (status_code response =? 200) then
    let! error_data :=
      lift (if negb (String.eqb (text response) "")
            then response_json response else Return (VDict [])) in
    let! error_code := lift (py_get error_data "errorCode" (VStr "AUTH_ERROR")) in
    let! error_message :=
      lift (py_get error_data "errorMessage" (VStr (text response))) in
    raise (HTTPException (status_code response)
             (VDict [("error", VStr "Failed to generate access token");
                     ("error_code", error_code);
                     ("error_message", error_message)]))
  else
    let! data := lift (response_json response) in
    let! access_token := lift (py_get data "access_token" VNone) in
    if negb (truthy access_token) then
      raise (HTTPException 500 (VStr "Access token not found in response"))
    else
      let! expires_in_raw := lift (py_get data "expires_in" (VInt 3600)) in
      let! expires_in := lift (py_int expires_in_raw) in
      do! set_token access_token expires_in in
      ret access_token.

(** The three [except] clauses, in order. *)
Definition on_refresh_error {RT : Runtime} (e : exn) : M world pyval :=
  match e with
  | HTTPException _ _ => raise e
  | TimeoutException =>
      raise (HTTPException 504 (VStr "Timeout while generating access token"))
  | _ =>
      raise (HTTPException 500
               (VStr ("Error generating access token: " +:+ exn_str e)))
  end.

Definition get_access_token {RT : Runtime} (settings : Settings)
    (force_refresh : bool) (outcome : http_outcome) (latency : Z)
  : M world pyval :=
  let fetch := try_except (refresh settings outcome latency) on_refresh_error in
  if negb force_refresh then
    let! cached_token := get_token in
    if truthy cached_token then ret cached_token else fetch
  else fetch.

Definition verify_credentials {RT : Runtime} (settings : Settings)
    (outcome : http_outcome) (latency : Z) : M world bool :=
  do! get_access_token settings true outcome latency in
  ret true.

Definition clear_cache : M world unit := clear_token.

(** The number of requests sent to the OAuth endpoint, and of calls of the
    cache's mutators, recorded in a trace. *)
Fixpoint oauth_calls (t : list event) : nat :=
  match t with
  | [] => 0
  | OAuthRequest _ _ _ :: rest => S (oauth_calls rest)
  | _ :: rest => oauth_calls rest
  end.

Fixpoint cache_mutations (t : list event) : nat :=
  match t with
  | [] => 0
  | OAuthRequest _ _ _ :: rest => cache_mutations rest
  | _ :: rest => S (cache_mutations rest)
  end.

End auth_service.

(** ** api/routers/websocket.py *)

Module websocket.
Import Py.
Local Open Scope py_scope.

(** A [WebSocket] object is known by its identity, a number given when the
    connection is accepted.  [clients] is the module-level list; [inbox] holds
    what each connection has been sent; [closed] are the connections whose
    peer has gone away. *)
Record hub : Type := {
  clients : list nat;
  inbox : gmap nat (list pyval);
  closed : gset nat;
  next_ws : nat
}.

Definition initial : hub :=
  {| clients := []; inbox := ∅; closed := ∅; next_ws := 0%nat |}.

(** The frames sent to connection [c] so far, oldest first. *)
Definition received (h : hub) (c : nat) : list pyval := default [] (inbox h !! c).

(** [await client.send_json(data)]: raises on a closed connection. *)
Definition send_json (c : nat) (data : pyval) : M hub unit :=
  fun h =>
    if decide (c ∈ closed h) then (Raise SendError, h)
    else (Return tt,
          {| clients := clients h;
             inbox := <[c := received h c ++ [data]]> (inbox h);
             closed := closed h;
             next_ws := next_ws h |}).

(** [for client in cs: await client.send_json(data)] *)
Fixpoint send_to_each (cs : list nat) (data : pyval) : M hub unit :=
  match cs with
  | [] => ret tt
  | client :: rest => do! send_json client data in send_to_each rest data
  end.

Definition broadcast_payment_status (data : pyval) : M hub unit :=
  fun h => send_to_each (clients h) data h.

(** [websocket_endpoint] up to its receive loop: the connection is accepted
    (a new object) and appended to [clients]. *)
Definition websocket_endpoint_accept : M hub nat :=
  fun h =>
    let websocket := next_ws h in
    (Return websocket,
     {| clients := clients h ++ [websocket];
        inbox := inbox h;
        closed := closed h;
        next_ws := S websocket |}).

(** [l.remove(x)]: the first occurrence goes; [ValueError] when there is none. *)
Fixpoint list_remove (x : nat) (l : list nat) : result (list nat) :=
  match l with
  | [] => Raise ValueError
  | y :: rest =>
      if decide (x = y) then Return rest
      else rbind (list_remove x rest) (fun rest' => Return (y :: rest'))
  end.

(** The [except WebSocketDisconnect] clause of [websocket_endpoint]. *)
Definition websocket_endpoint_disconnect (websocket : nat) : M hub unit :=
  fun h =>
    match list_remove websocket (clients h) with
    | Return cs =>
        (Return tt,
         {| clients := cs; inbox := inbox h; closed := closed h;
            next_ws := next_ws h |})
    | Raise e => (Raise e, h)
    end.

(** The peer of connection [c] goes away.  The next [receive_text] of the
    connection's handler will raise [WebSocketDisconnect]. *)
Definition peer_close (c : nat) (h : hub) : hub :=
  {| clients := clients h; inbox := inbox h; closed := {[c]} ∪ closed h;
     next_ws := next_ws h |}.

(** What can happen to the hub, one handler at a time. *)
Inductive step : hub -> hub -> Prop :=
| step_accept h c h' :
    websocket_endpoint_accept h = (Return c, h') -> step h h'
| step_peer_close h c :
    c ∈ clients h -> step h (peer_close c h)
| step_disconnect h c r h' :
    c ∈ closed h -> websocket_endpoint_disconnect c h = (r, h') -> step h h'
| step_broadcast h data r h' :
    broadcast_payment_status data h = (r, h') -> step h h'.

Definition reachable (h : hub) : Prop := rtc step initial h.

End websocket.

(** ** Field validation of the pydantic models *)

Module pydantic.
Import Py.

(** A model's constructor validates every field and raises one
    [ValidationError] when any of them fails.  A [str] field takes a [str]
    only; an [int] field takes an [int], and in lax mode whatever
    [lax_int] converts; an [Optional] field also takes [None]. *)
Definition validate_str (v : pyval) : result string :=
  match v with
  | VStr s => Return s
  | _ => Raise ValidationError
  end.

Definition validate_int {RT : Runtime} (v : pyval) : result Z :=
  match v with
  | VInt z => Return z
  | _ => match lax_int v with Some z => Return z | None => Raise ValidationError end
  end.

Definition validate_optional_str (v : pyval) : result (option string) :=
  match v with
  | VNone => Return None
  | VStr s => Return (Some s)
  | _ => Raise ValidationError
  end.

Definition validate_optional_dict (v : pyval)
  : result (option (list (string * pyval))) :=
  match v with
  | VNone => Return None
  | VDict d => Return (Some d)
  | _ => Raise ValidationError
  end.

Definition dump_optional_str (o : option string) : pyval :=
  match o with Some s => VStr s | None => VNone end.

Definition dump_optional_dict (o : option (list (string * pyval))) : pyval :=
  match o with Some d => VDict d | None => VNone end.

End pydantic.

(** ** api/models/stk_schemas.py *)

Module stk_schemas.
Import Py pydantic.

Record STKPushCallback : Type := {
  merchant_request_id : string;
  checkout_request_id : string;
  result_code : Z;
  result_desc : string;
  callback_metadata : option (list (string * pyval))
}.

(** [STKPushCallback(merchant_request_id=..., ...)] *)
Definition STKPushCallback_init {RT : Runtime}
    (merchant_request_id checkout_request_id result_code result_desc
       callback_metadata : pyval) : result STKPushCallback :=
  rbind (validate_str merchant_request_id) (fun m =>
  rbind (validate_str checkout_request_id) (fun c =>
  rbind (validate_int result_code) (fun rc =>
  rbind (validate_str result_desc) (fun rd =>
  rbind (validate_optional_dict callback_metadata) (fun md =>
  Return {| merchant_request_id := m; checkout_request_id := c;
            result_code := rc; result_desc := rd;
            callback_metadata := md |}))))).

Definition model_dump (cb : STKPushCallback) : pyval :=
  VDict [("merchant_request_id", VStr (merchant_request_id cb));
         ("checkout_request_id", VStr (checkout_request_id cb));
         ("result_code", VInt (result_code cb));
         ("result_desc", VStr (result_desc cb));
         ("callback_metadata", dump_optional_dict (callback_metadata cb))].

Definition is_successful (cb : STKPushCallback) : bool := result_code cb =? 0.

(** [for item in v]: a list yields its elements, a [str] its characters, a
    dict its keys; nothing else can be iterated. *)
Definition py_iter (v : pyval) : result (list pyval) :=
  match v with
  | VList l => Return l
  | VStr s => Return (map (fun c => VStr (String c EmptyString)) (list_ascii_of_string s))
  | VDict d => Return (map (fun kv => VStr (fst kv)) d)
  | VNone | VBool _ | VInt _ | VFloat _ => Raise TypeError
  end.

(** [v == name] for a [str] literal [name]. *)
Definition eq_str (v : pyval) (name : string) : bool :=
  match v with
  | VStr s => String.eqb s name
  | _ => false
  end.

(** The loop the four properties share:
    [for item in items: if item.get('Name') == name: return extract(item)]
    followed by [return None]. *)
Fixpoint first_named {A} (name : string) (extract : pyval -> result A)
    (items : list pyval) : result (option A) :=
  match items with
  | [] => Return None
  | item :: rest =>
      rbind (py_get item "Name" VNone) (fun n =>
      if eq_str n name
      then rbind (extract item) (fun x => Return (Some x))
      else first_named name extract rest)
  end.

(** The common frame of the four properties: nothing without metadata (or
    with an empty one), else the loop over [callback_metadata.get('Item', [])]. *)
Definition scan_metadata {A} (cb : STKPushCallback) (name : string)
    (extract : pyval -> result A) : result (option A) :=
  match callback_metadata cb with
  | None | Some [] => Return None
  | Some md =>
      let items := match assoc "Item" md with Some v => v | None => VList [] end in
      rbind (py_iter items) (first_named name extract)
  end.

(** [float(item.get('Value', 0))] *)
Definition float_value {RT : Runtime} (item : pyval) : result spec_float :=
  rbind (py_get item "Value" (VInt 0)) py_float.

(** [str(item.get('Value'))] *)
Definition str_value {RT : Runtime} (item : pyval) : result string :=
  rbind (py_get item "Value" VNone) (fun v => Return (py_str v)).

Definition amount {RT : Runtime} (cb : STKPushCallback) : result (option spec_float) :=
  scan_metadata cb "Amount" float_value.

Definition mpesa_receipt_number {RT : Runtime} (cb : STKPushCallback)
  : result (option string) :=
  scan_metadata cb "MpesaReceiptNumber" str_value.

Definition transaction_date {RT : Runtime} (cb : STKPushCallback)
  : result (option string) :=
  scan_metadata cb "TransactionDate" str_value.

Definition phone_number {RT : Runtime} (cb : STKPushCallback)
  : result (option string) :=
  scan_metadata cb "PhoneNumber" str_value.

(** [Optional[float]] as a value. *)
Definition float_or_none (o : option spec_float) : pyval :=
  match o with Some f => VFloat f | None => VNone end.

(** [getattr(cb, name)] for the data attributes of the model: its five
    fields and its five properties.  [None]: the class declares no such
    attribute (the methods it inherits from [BaseModel] are left out). *)
Definition getattr {RT : Runtime} (cb : STKPushCallback) (name : string)
  : option (result pyval) :=
  if String.eqb name "merchant_request_id" then
    Some (Return (VStr (merchant_request_id cb)))
  else if String.eqb name "checkout_request_id" then
    Some (Return (VStr (checkout_request_id cb)))
  else if String.eqb name "result_code" then
    Some (Return (VInt (result_code cb)))
  else if String.eqb name "result_desc" then
    Some (Return (VStr (result_desc cb)))
  else if String.eqb name "callback_metadata" then
    Some (Return (dump_optional_dict (callback_metadata cb)))
  else if String.eqb name "is_successful" then
    Some (Return (VBool (is_successful cb)))
  else if String.eqb name "amount" then
    Some (rbind (amount cb) (fun o => Return (float_or_none o)))
  else if String.eqb name "mpesa_receipt_number" then
    Some (rbind (mpesa_receipt_number cb) (fun o => Return (dump_optional_str o)))
  else if String.eqb name "transaction_date" then
    Some (rbind (transaction_date cb) (fun o => Return (dump_optional_str o)))
  else if String.eqb name "phone_number" then
    Some (rbind (phone_number cb) (fun o => Return (dump_optional_str o)))
  else None.

(** *** [STKPushRequest]: the validator of [phone_number] *)

Module STKPushRequest.
Import unicodedata.

(** [''.join(filter(str.isdigit, v))] *)
Fixpoint filter_isdigit (v : str) : str :=
  match v with
  | [] => []
  | c :: rest =>
      if isdigit c then c :: filter_isdigit rest else filter_isdigit rest
  end.

Definition validate_phone_number (v : str) : result str :=
  let cleaned := filter_isdigit v in
  if (Nat.ltb (length cleaned) 9 || Nat.ltb 12 (length cleaned))%bool
  then Raise ValueError
  else Return v.

End STKPushRequest.

End stk_schemas.

(** ** api/models/b2c_schemas.py *)

Module b2c_schemas.
Import Py pydantic.

Record B2CCallback : Type := {
  conversation_id : option string;
  originator_conversation_id : option string;
  transaction_id : option string;
  result_code : Z;
  result_desc : string;
  result_type : Z;
  result_parameters : option (list (string * pyval));
  reference_data : option (list (string * pyval))
}.

(** [B2CCallback(conversation_id=..., ...)] with every field passed by the
    caller, as the router does (so the default of [result_type] never
    applies). *)
Definition B2CCallback_init {RT : Runtime}
    (conversation_id originator_conversation_id transaction_id result_code
       result_desc result_type result_parameters reference_data : pyval)
  : result B2CCallback :=
  rbind (validate_optional_str conversation_id) (fun ci =>
  rbind (validate_optional_str originator_conversation_id) (fun oi =>
  rbind (validate_optional_str transaction_id) (fun ti =>
  rbind (validate_int result_code) (fun rc =>
  rbind (validate_str result_desc) (fun rd =>
  rbind (validate_int result_type) (fun rt =>
  rbind (validate_optional_dict result_parameters) (fun rp =>
  rbind (validate_optional_dict reference_data) (fun rf =>
  Return {| conversation_id := ci; originator_conversation_id := oi;
            transaction_id := ti; result_code := rc; result_desc := rd;
            result_type := rt; result_parameters := rp;
            reference_data := rf |})))))))).

Definition model_dump (cb : B2CCallback) : pyval :=
  VDict [("conversation_id", dump_optional_str (conversation_id cb));
         ("originator_conversation_id",
            dump_optional_str (originator_conversation_id cb));
         ("transaction_id", dump_optional_str (transaction_id cb));
         ("result_code", VInt (result_code cb));
         ("result_desc", VStr (result_desc cb));
         ("result_type", VInt (result_type cb));
         ("result_parameters", dump_optional_dict (result_parameters cb));
         ("reference_data", dump_optional_dict (reference_data cb))].

(** [getattr(cb, name)] for the data attributes of the model: its eight
    fields; the class declares no property.  [None]: there is no such
    attribute. *)
Definition getattr (cb : B2CCallback) (name : string) : option (result pyval) :=
  if String.eqb name "conversation_id" then
    Some (Return (dump_optional_str (conversation_id cb)))
  else if String.eqb name "originator_conversation_id" then
    Some (Return (dump_optional_str (originator_conversation_id cb)))
  else if String.eqb name "transaction_id" then
    Some (Return (dump_optional_str (transaction_id cb)))
  else if String.eqb name "result_code" then
    Some (Return (VInt (result_code cb)))
  else if String.eqb name "result_desc" then
    Some (Return (VStr (result_desc cb)))
  else if String.eqb name "result_type" then
    Some (Return (VInt (result_type cb)))
  else if String.eqb name "result_parameters" then
    Some (Return (dump_optional_dict (result_parameters cb)))
  else if String.eqb name "reference_data" then
    Some (Return (dump_optional_dict (reference_data cb)))
  else None.

(** *** [B2CPaymentRequest]: the validator of [phone_number] *)

Module B2CPaymentRequest.

(** [str.isspace] on one of the code points 0..255. *)
Definition isspace (c : ascii) : bool :=
  let n := nat_of_ascii c in
  ((Nat.leb 9 n && Nat.leb n 13) || (Nat.leb 28 n && Nat.leb n 32)
   || Nat.eqb n 133 || Nat.eqb n 160)%bool.

Fixpoint lstrip (s : string) : string :=
  match s with
  | EmptyString => EmptyString
  | String c rest => if isspace c then lstrip rest else s
  end.

Fixpoint rstrip (s : string) : string :=
  match s with
  | EmptyString => EmptyString
  | String c rest =>
      match rstrip rest with
      | EmptyString => if isspace c then EmptyString else String c EmptyString
      | kept => String c kept
      end
  end.

(** [s.strip()] *)
Definition strip (s : string) : string := rstrip (lstrip s).

(** [s.replace(x, "")] for a one-character [x]. *)
Fixpoint remove_char (x : ascii) (s : string) : string :=
  match s with
  | EmptyString => EmptyString
  | String c rest =>
      if Ascii.eqb c x then remove_char x rest else String c (remove_char x rest)
  end.

Definition validate_phone (v : string) : result string :=
  let v := remove_char "+" (remove_char "-" (remove_char " " (strip v))) in
  let v := if utils.startswith v "0" then "254" +:+ utils.slice_from_1 v else v in
  if negb (utils.startswith v "254") then Raise ValueError
  else if negb (Nat.eqb (String.length v) 12) then Raise ValueError
  else Return v.

(** [validate_phone] on a [str] of any code points (see
    [utils.wide]). *)
Module wide.
Import unicodedata.

Fixpoint lstrip (s : str) : str :=
  match s with
  | [] => []
  | c :: rest => if unicodedata.isspace c then lstrip rest else s
  end.

Fixpoint rstrip (s : str) : str :=
  match s with
  | [] => []
  | c :: rest =>
      match rstrip rest with
      | [] => if unicodedata.isspace c then [] else [c]
      | kept => c :: kept
      end
  end.

(** [s.strip()] *)
Definition strip (s : str) : str := rstrip (lstrip s).

(** [s.replace(x, "")] for a one-character [x]. *)
Fixpoint remove_char (x : Z) (s : str) : str :=
  match s with
  | [] => []
  | c :: rest =>
      if c =? x then remove_char x rest else c :: remove_char x rest
  end.

Definition validate_phone (v : str) : result str :=
  let v := remove_char 43 (remove_char 45 (remove_char 32 (strip v))) in
  let v :=
    if utils.wide.startswith v (code_points "0")
    then code_points "254" ++ utils.wide.slice_from_1 v
    else v in
  if negb (utils.wide.startswith v (code_points "254")) then Raise ValueError
  else if negb (Nat.eqb (length v) 12) then Raise ValueError
  else Return v.

End wide.

End B2CPaymentRequest.

End b2c_schemas.

(** ** api/routers/stk_push.py and api/routers/b2c.py: the callback endpoints *)

Module routers.
Import Py pydantic.
Local Open Scope py_scope.

(** What a handler prints.  The glyphs that open some of the lines are left
    out, and a printed dict is kept as its items. *)
Inductive output : Type :=
| Line (s : string)
| LineItems (s : string) (items : list (pyval * pyval))
| LineValue (s : string) (v : pyval).

(** The process state the callback endpoints touch. *)
Record app : Type := {
  hub : websocket.hub;
  stdout : list output;
  now : Z
}.

Definition print (o : output) : M app unit :=
  modify (fun a => {| hub := hub a; stdout := stdout a ++ [o]; now := now a |}).

(** [await broadcast_payment_status(data)] *)
Definition broadcast_payment_status (data : pyval) : M app unit :=
  fun a =>
    let '(r, h) := websocket.broadcast_payment_status data (hub a) in
    (r, {| hub := h; stdout := stdout a; now := now a |}).

(** [SuccessResponse] of either schema module: the same three fields. *)
Record SuccessResponse : Type := {
  message : string;
  data : option (list (string * pyval));
  timestamp : Z
}.

(** [SuccessResponse(message=..., data=...)]; [timestamp] takes its default,
    [datetime.now()]. *)
Definition SuccessResponse_init (message : string) (data : pyval)
  : M app SuccessResponse :=
  let! d := lift (validate_optional_dict data) in
  fun a => (Return {| message := message; data := d; timestamp := now a |}, a).

(** [item[key]] for a [str] key: a dict has it or raises [KeyError]; nothing
    else takes a [str] subscript. *)
Definition py_getitem (item : pyval) (key : string) : result pyval :=
  match item with
  | VDict d => match assoc key d with Some v => Return v | None => Raise KeyError end
  | _ => Raise TypeError
  end.

(** A dict key must be hashable: a list or a dict is not. *)
Definition hashable (v : pyval) : bool :=
  match v with
  | VList _ | VDict _ => false
  | _ => true
  end.

(** [{item[key]: item.get("Value") for item in items}], as the items in the
    order they are inserted. *)
Fixpoint details_of (key : string) (items : list pyval)
  : result (list (pyval * pyval)) :=
  match items with
  | [] => Return []
  | item :: rest =>
      rbind (py_getitem item key) (fun k =>
      rbind (py_get item "Value" VNone) (fun v =>
      if hashable k
      then rbind (details_of key rest) (fun more => Return ((k, v) :: more))
      else Raise TypeError))
  end.

(** The value a dict built from [details] holds under the [str] [name]: that
    of the last item inserted under it. *)
Fixpoint details_lookup (name : string) (details : list (pyval * pyval))
  : option pyval :=
  match details with
  | [] => None
  | (k, v) :: rest =>
      match details_lookup name rest with
      | Some later => Some later
      | None => if stk_schemas.eq_str k name then Some v else None
      end
  end.

(** [details.get(name)] *)
Definition details_get (name : string) (details : list (pyval * pyval)) : pyval :=
  match details_lookup name details with Some v => v | None => VNone end.

(** [d.get("Item", [])] on the items of a dict. *)
Definition get_or_empty_list (d : list (string * pyval)) (key : string) : pyval :=
  match assoc key d with Some v => v | None => VList [] end.

(** *** [stk_push_callback] *)

(** The block "Process the callback based on result code". *)
Definition stk_process_result (callback_data : stk_schemas.STKPushCallback)
  : M app unit :=
  if stk_schemas.result_code callback_data =? 0 then
    do! print (Line ("STK Push successful: "
                     +:+ stk_schemas.checkout_request_id callback_data)) in
    match stk_schemas.callback_metadata callback_data with
    | None | Some [] => ret tt
    | Some md =>
        let! items := lift (stk_schemas.py_iter (get_or_empty_list md "Item")) in
        let! transaction_details := lift (details_of "Name" items) in
        print (LineItems "Transaction details: " transaction_details)
    end
  else
    print (Line ("STK Push failed: " +:+ stk_schemas.result_desc callback_data)).

Definition stk_push_callback_body {RT : Runtime} (request_json : result pyval)
  : M app SuccessResponse :=
  let! body := lift request_json in
  let! body_ := lift (py_get body "Body" (VDict [])) in
  let! stk_callback := lift (py_get body_ "stkCallback" (VDict [])) in
  let! merchant_request_id := lift (py_get stk_callback "MerchantRequestID" VNone) in
  let! checkout_request_id := lift (py_get stk_callback "CheckoutRequestID" VNone) in
  let! result_code := lift (py_get stk_callback "ResultCode" VNone) in
  let! result_desc := lift (py_get stk_callback "ResultDesc" VNone) in
  let! callback_metadata := lift (py_get stk_callback "CallbackMetadata" VNone) in
  let! callback_data :=
    lift (stk_schemas.STKPushCallback_init merchant_request_id
            checkout_request_id result_code result_desc callback_metadata) in
  do! broadcast_payment_status (stk_schemas.model_dump callback_data) in
  do! stk_process_result callback_data in
  SuccessResponse_init "Callback received successfully"
    (stk_schemas.model_dump callback_data).

Definition stk_push_callback_except {RT : Runtime} (e : exn) : M app SuccessResponse :=
  do! print (Line ("Error processing STK callback: " +:+ exn_str e)) in
  SuccessResponse_init "Callback received" (VDict [("error", VStr (exn_str e))]).

Definition stk_push_callback {RT : Runtime} (request_json : result pyval)
  : M app SuccessResponse :=
  try_except (stk_push_callback_body request_json) stk_push_callback_except.

(** *** [b2c_result_callback] *)

(** The block "Process based on result code". *)
Definition b2c_process_result (callback_data : b2c_schemas.B2CCallback)
  : M app unit :=
  if b2c_schemas.result_code callback_data =? 0 then
    do! print (LineValue "B2C Payment successful: "
                 (dump_optional_str (b2c_schemas.transaction_id callback_data))) in
    match b2c_schemas.result_parameters callback_data with
    | None | Some [] => ret tt
    | Some rp =>
        let! items :=
          lift (stk_schemas.py_iter (get_or_empty_list rp "ResultParameter")) in
        let! transaction_details := lift (details_of "Key" items) in
        do! print (Line "Transaction Details:") in
        do! print (LineValue "  - Amount: "
                     (details_get "TransactionAmount" transaction_details)) in
        do! print (LineValue "  - Receipt: "
                     (details_get "TransactionReceipt" transaction_details)) in
        do! print (LineValue "  - Recipient: "
                     (details_get "ReceiverPartyPublicName" transaction_details)) in
        do! print (LineValue "  - Completed: "
                     (details_get "TransactionCompletedDateTime" transaction_details)) in
        print (LineValue "  - Working Account Balance: "
                 (details_get "B2CWorkingAccountAvailableFunds" transaction_details))
    end
  else
    do! print (Line ("B2C Payment failed: "
                     +:+ b2c_schemas.result_desc callback_data)) in
    do! print (LineValue "  Result Code: "
                 (VInt (b2c_schemas.result_code callback_data))) in
    if b2c_schemas.result_code callback_data =? 2001
    then print (Line "  Error: Invalid initiator information")
    else ret tt.

Definition b2c_result_callback_body {RT : Runtime} (request_json : result pyval)
  : M app SuccessResponse :=
  let! body := lift request_json in
  let! result := lift (py_get body "Result" (VDict [])) in
  let! conversation_id := lift (py_get result "ConversationID" VNone) in
  let! originator_conversation_id :=
    lift (py_get result "OriginatorConversationID" VNone) in
  let! transaction_id := lift (py_get result "TransactionID" VNone) in
  let! result_code := lift (py_get result "ResultCode" VNone) in
  let! result_desc := lift (py_get result "ResultDesc" VNone) in
  let! result_type := lift (py_get result "ResultType" VNone) in
  let! result_parameters := lift (py_get result "ResultParameters" VNone) in
  let! reference_data := lift (py_get result "ReferenceData" VNone) in
  let! callback_data :=
    lift (b2c_schemas.B2CCallback_init conversation_id
            originator_conversation_id transaction_id result_code result_desc
            result_type result_parameters reference_data) in
  do! broadcast_payment_status
        (VDict [("type", VStr "b2c_result");
                ("data", b2c_schemas.model_dump callback_data)]) in
  do! b2c_process_result callback_data in
  SuccessResponse_init "Result callback received successfully"
    (b2c_schemas.model_dump callback_data).

Definition b2c_result_callback_except {RT : Runtime} (e : exn) : M app SuccessResponse :=
  do! print (Line ("Error processing B2C result callback: " +:+ exn_str e)) in
  SuccessResponse_init "Callback received" (VDict [("error", VStr (exn_str e))]).

Definition b2c_result_callback {RT : Runtime} (request_json : result pyval)
  : M app SuccessResponse :=
  try_except (b2c_result_callback_body request_json) b2c_result_callback_except.

(** *** [b2c_timeout_callback] *)

Definition b2c_timeout_callback_body (request_json : result pyval)
  : M app SuccessResponse :=
  let! body := lift request_json in
  do! print (Line "B2C Payment timeout received") in
  do! print (LineValue "Timeout data: " body) in
  do! broadcast_payment_status
        (VDict [("type", VStr "b2c_timeout"); ("data", body)]) in
  SuccessResponse_init "Timeout callback received successfully" body.

Definition b2c_timeout_callback_except {RT : Runtime} (e : exn) : M app SuccessResponse :=
  do! print (Line ("Error processing B2C timeout callback: " +:+ exn_str e)) in
  SuccessResponse_init "Callback received" (VDict [("error", VStr (exn_str e))]).

Definition b2c_timeout_callback {RT : Runtime} (request_json : result pyval)
  : M app SuccessResponse :=
  try_except (b2c_timeout_callback_body request_json) b2c_timeout_callback_except.

(** The status line FastAPI sends for what an endpoint did: 200 for a
    returned model, the exception's own status for an [HTTPException], 500
    for any other exception. *)
Definition http_status {A} (r : result A) : Z :=
  match r with
  | Return _ => 200
  | Raise (HTTPException status _) => status
  | Raise _ => 500
  end.

End routers.

(** ** api/routers/stk_push.py and api/routers/b2c.py: the initiation endpoints *)

(** What the two endpoints share: the settings they read, the provider's
    payment API, and the state they run in. *)
Module provider.
Import Py.
Local Open Scope py_scope.

(** The fields of [settings] (api/core/config.py) the endpoints read, beside
    those of the token service. *)
Record Settings : Type := {
  auth : auth_service.Settings;
  BUSINESS_SHORT_CODE : Z;
  PASSKEY : string;
  INITIATOR_NAME : string;
  INITIATOR_PASSWORD : string;
  STK_CALLBACK_URL : string;
  B2C_RESULT_URL : string;
  B2C_TIMEOUT_URL : string
}.

Definition stk_push_url (settings : Settings) : string :=
  auth_service.BASE_URL (auth settings) +:+ "/mpesa/stkpush/v1/processrequest".

(** A request posted to the provider. *)
Record payment_request : Type := {
  url : string;
  json : pyval;
  headers : list (string * string);
  timeout : Z
}.

(** The state: that of the token service, and the payment requests posted
    so far.  The list is bookkeeping of the model. *)
Record server : Type := {
  world : auth_service.world;
  sent : list payment_request
}.

(** A step of the token service, inside the server. *)
Definition in_world {A} (m : M auth_service.world A) : M server A :=
  fun s => let '(r, w) := m (world s) in (r, {| world := w; sent := sent s |}).

(** [await client.post(url, json=payload, headers=headers, timeout=...)]:
    the request goes out, [latency] microseconds pass, the outcome arrives. *)
Definition http_post (url : string) (payload : pyval)
    (headers : list (string * string)) (timeout : Z)
    (outcome : auth_service.http_outcome) (latency : Z)
  : M server auth_service.response :=
  do! modify (fun s =>
        {| world := world s;
           sent := sent s ++ [{| url := url; json := payload;
                                 headers := headers; timeout := timeout |}] |}) in
  do! in_world (modify (auth_service.sleep latency)) in
  match outcome with
  | auth_service.Responded r => ret r
  | auth_service.Failed e => raise e
  end.

(** [response.json() if response.text else {}] *)
Definition json_or_empty (response : auth_service.response) : result pyval :=
  if negb (String.eqb (auth_service.text response) "")
  then auth_service.response_json response
  else Return (VDict []).

End provider.

Module stk_push.
Import Py pydantic provider.
Local Open Scope py_scope.

Record STKPushRequest : Type := {
  phone_number : string;
  amount : Z;
  account_reference : string;
  transaction_desc : string
}.

Record STKPushResponse : Type := {
  merchant_request_id : string;
  checkout_request_id : string;
  response_code : string;
  response_description : string;
  customer_message : string
}.

Definition STKPushResponse_init
    (merchant_request_id checkout_request_id response_code
       response_description customer_message : pyval)
  : result STKPushResponse :=
  rbind (validate_str merchant_request_id) (fun m =>
  rbind (validate_str checkout_request_id) (fun c =>
  rbind (validate_str response_code) (fun rc =>
  rbind (validate_str response_description) (fun rd =>
  rbind (validate_str customer_message) (fun cm =>
  Return {| merchant_request_id := m; checkout_request_id := c;
            response_code := rc; response_description := rd;
            customer_message := cm |}))))).

(** The body of the [try] block.  The two outcomes are what the provider
    does with the token request (if one is sent) and with the payment
    request. *)
Definition initiate_stk_push_body {RT : Runtime} (settings : Settings)
    (request : STKPushRequest)
    (token_outcome : auth_service.http_outcome) (token_latency : Z)
    (post_outcome : auth_service.http_outcome) (post_latency : Z)
  : M server STKPushResponse :=
  let! access_token :=
    in_world (auth_service.get_access_token (auth settings) false
                token_outcome token_latency) in
  let! now := in_world auth_service.datetime_now in
  let timestamp := utils.get_timestamp now in
  let password :=
    utils.generate_password (str_of_Z (BUSINESS_SHORT_CODE settings))
      (PASSKEY settings) timestamp in
  let! phone_number := lift (utils.format_phone_number (phone_number request)) in
  let payload :=
    VDict [("BusinessShortCode", VInt (BUSINESS_SHORT_CODE settings));
           ("Password", VStr password);
           ("Timestamp", VStr timestamp);
           ("TransactionType", VStr "CustomerPayBillOnline");
           ("Amount", VInt (amount request));
           ("PartyA", VStr phone_number);
           ("PartyB", VInt (BUSINESS_SHORT_CODE settings));
           ("PhoneNumber", VStr phone_number);
           ("CallBackURL", VStr (STK_CALLBACK_URL settings));
           ("AccountReference", VStr (account_reference request));
           ("TransactionDesc", VStr (transaction_desc request))] in
  let headers :=
    [("Authorization", "Bearer " +:+ py_str access_token);
     ("Content-Type", "application/json")] in
  let! response :=
    http_post (stk_push_url settings) payload headers 30
      post_outcome post_latency in
  if negb (auth_service.status_code response =? 200) then
    let! error_data := lift (json_or_empty response) in
    let! error_code := lift (py_get error_data "errorCode" (VStr "UNKNOWN")) in
    let! error_message :=
      lift (py_get error_data "errorMessage"
              (VStr (auth_service.text response))) in
    raise (HTTPException (auth_service.status_code response)
             (VDict [("error_code", error_code);
                     ("error_message", error_message)]))
  else
    let! data := lift (auth_service.response_json response) in
    let! merchant_request_id := lift (routers.py_getitem data "MerchantRequestID") in
    let! checkout_request_id := lift (routers.py_getitem data "CheckoutRequestID") in
    let! response_code := lift (routers.py_getitem data "ResponseCode") in
    let! response_description :=
      lift (routers.py_getitem data "ResponseDescription") in
    let! customer_message := lift (routers.py_getitem data "CustomerMessage") in
    lift (STKPushResponse_init merchant_request_id checkout_request_id
            response_code response_description customer_message).

(** The two [except] clauses, in order. *)
Definition initiate_stk_push_except {RT : Runtime} (e : exn) : M server STKPushResponse :=
  match e with
  | HTTPException _ _ => raise e
  | _ => raise (HTTPException 500
                  (VStr ("Error initiating STK push: " +:+ exn_str e)))
  end.

Definition initiate_stk_push {RT : Runtime} (settings : Settings)
    (request : STKPushRequest)
    (token_outcome : auth_service.http_outcome) (token_latency : Z)
    (post_outcome : auth_service.http_outcome) (post_latency : Z)
  : M server STKPushResponse :=
  try_except
    (initiate_stk_push_body settings request token_outcome token_latency
       post_outcome post_latency)
    initiate_stk_push_except.

End stk_push.

Module b2c.
Import Py pydantic provider.
Local Open Scope py_scope.

Record B2CPaymentRequest : Type := {
  phone_number : string;
  amount : Z;
  command_id : string;
  remarks : string;
  occasion : option string;
  originator_conversation_id : string
}.

(** The field [originator_conversation_id] of the response is written
    [response_originator_conversation_id]: the request has one of that
    name. *)
Record B2CPaymentResponse : Type := {
  conversation_id : string;
  response_originator_conversation_id : string;
  response_code : string;
  response_description : string
}.

Definition B2CPaymentResponse_init
    (conversation_id originator_conversation_id response_code
       response_description : pyval)
  : result B2CPaymentResponse :=
  rbind (validate_str conversation_id) (fun ci =>
  rbind (validate_str originator_conversation_id) (fun oi =>
  rbind (validate_str response_code) (fun rc =>
  rbind (validate_str response_description) (fun rd =>
  Return {| conversation_id := ci; response_originator_conversation_id := oi;
            response_code := rc; response_description := rd |})))).

(** [encrypted] is what the body of the [try] makes of the certificate file
    and the cipher: the encoded ciphertext, or an exception.  Whatever is
    raised there is turned into an [HTTPException]. *)
Definition encrypt_initiator_password {RT : Runtime} (encrypted : result string) : result string :=
  match encrypted with
  | Return s => Return s
  | Raise e =>
      Raise (HTTPException 500 (VStr ("Error encrypting password: " +:+ exn_str e)))
  end.

(** [request.occasion or ""] *)
Definition occasion_or_empty (o : option string) : string :=
  match o with
  | Some s => s
  | None => ""
  end.

Definition initiate_b2c_payment_body {RT : Runtime} (settings : Settings)
    (request : B2CPaymentRequest)
    (token_outcome : auth_service.http_outcome) (token_latency : Z)
    (encrypted : result string)
    (post_outcome : auth_service.http_outcome) (post_latency : Z)
  : M server B2CPaymentResponse :=
  let! access_token :=
    in_world (auth_service.get_access_token (auth settings) false
                token_outcome token_latency) in
  let! phone_number := lift (utils.format_phone_number (phone_number request)) in
  let! security_credential := lift (encrypt_initiator_password encrypted) in
  let payload :=
    VDict [("OriginatorConversationID", VStr (originator_conversation_id request));
           ("InitiatorName", VStr (INITIATOR_NAME settings));
           ("SecurityCredential", VStr security_credential);
           ("CommandID", VStr (command_id request));
           ("Amount", VInt (amount request));
           ("PartyA", VInt (BUSINESS_SHORT_CODE settings));
           ("PartyB", VStr phone_number);
           ("Remarks", VStr (remarks request));
           ("QueueTimeOutURL", VStr (B2C_TIMEOUT_URL settings));
           ("ResultURL", VStr (B2C_RESULT_URL settings));
           ("Occasion", VStr (occasion_or_empty (occasion request)))] in
  let headers :=
    [("Authorization", "Bearer " +:+ py_str access_token);
     ("Content-Type", "application/json")] in
  let! response :=
    http_post (auth_service.BASE_URL (auth settings)
               +:+ "/mpesa/b2c/v3/paymentrequest")
      payload headers (auth_service.API_TIMEOUT (auth settings))
      post_outcome post_latency in
  if negb (auth_service.status_code response =? 200) then
    let! error_data := lift (json_or_empty response) in
    let! error_code := lift (py_get error_data "errorCode" (VStr "UNKNOWN")) in
    let! error_message :=
      lift (py_get error_data "errorMessage"
              (VStr (auth_service.text response))) in
    let! request_id := lift (py_get error_data "requestId" VNone) in
    raise (HTTPException (auth_service.status_code response)
             (VDict [("error", VStr "B2C payment request failed");
                     ("error_code", error_code);
                     ("error_message", error_message);
                     ("request_id", request_id)]))
  else
    let! data := lift (auth_service.response_json response) in
    let! conversation_id := lift (py_get data "ConversationID" VNone) in
    let! originator_conversation_id :=
      lift (py_get data "OriginatorConversationID" VNone) in
    let! response_code := lift (py_get data "ResponseCode" VNone) in
    let! response_description := lift (py_get data "ResponseDescription" VNone) in
    lift (B2CPaymentResponse_init conversation_id originator_conversation_id
            response_code response_description).

Definition initiate_b2c_payment_except {RT : Runtime} (e : exn) : M server B2CPaymentResponse :=
  match e with
  | HTTPException _ _ => raise e
  | _ => raise (HTTPException 500
                  (VStr ("Error initiating B2C payment: " +:+ exn_str e)))
  end.

Definition initiate_b2c_payment {RT : Runtime} (settings : Settings)
    (request : B2CPaymentRequest)
    (token_outcome : auth_service.http_outcome) (token_latency : Z)
    (encrypted : result string)
    (post_outcome : auth_service.http_outcome) (post_latency : Z)
  : M server B2CPaymentResponse :=
  try_except
    (initiate_b2c_payment_body settings request token_outcome token_latency
       encrypted post_outcome post_latency)
    initiate_b2c_payment_except.

End b2c.

(** ** api/security_middleware.py *)

Module security_middleware.
Import Py.
Local Open Scope py_scope.

Record merchant : Type := { domains : list string }.

Definition REGISTERED_MERCHANTS : gmap string merchant :=
  <["merchant_123" := {| domains := ["https://shop.example.com"] |}]>
  (<["merchant_456" := {| domains := ["https://store.test.io"] |}]> ∅).

Definition PROTECTED_ENDPOINTS : list string :=
  ["/api/v1/stk-push/initiate"; "/api/v1/b2c/payment"; "/api/v1/b2b/payment"].

(** [timedelta(minutes=2)], in microseconds. *)
Definition ALLOWED_TIME_SKEW : Z := 2 * 60 * 1000000.

(** The part of a request the middleware reads.  Header names are lower
    case, as the server hands them over. *)
Record Request : Type := {
  path : string;
  method : string;
  headers : list (string * string)
}.

(** [request.headers.get(name)] *)
Fixpoint headers_get (name : string) (hs : list (string * string)) : option string :=
  match hs with
  | [] => None
  | (k, v) :: rest => if String.eqb k name then Some v else headers_get name rest
  end.

(** Truthiness of a header value that may be missing. *)
Definition present (h : option string) : bool :=
  match h with
  | Some s => negb (String.eqb s "")
  | None => false
  end.

(** [path in PROTECTED_ENDPOINTS] *)
Definition is_protected (p : string) : bool :=
  existsb (String.eqb p) PROTECTED_ENDPOINTS.

(** [s.replace("Z", "+00:00")] *)
Fixpoint replace_Z (s : string) : string :=
  match s with
  | EmptyString => EmptyString
  | String c rest =>
      if Ascii.eqb c "Z"%char then "+00:00" +:+ replace_Z rest
      else String c (replace_Z rest)
  end.

(** [abs(now - req_time) > ALLOWED_TIME_SKEW], [now] being aware: the
    difference with a naive [req_time] is a [TypeError]. *)
Definition skew_exceeded (utc_now : Z) (req_time : datetime) : result bool :=
  match req_time with
  | Aware t => Return (ALLOWED_TIME_SKEW <? Z.abs (utc_now - t))
  | Naive _ => Raise TypeError
  end.

Section Middleware.
Context {RT : Runtime}.
(** The rest of the application, and what it answers. *)
Variable Response : Type.
Variable call_next : Request -> result Response.

(** The state is the log of [logger]; [utc_now] is the instant
    [datetime.now(timezone.utc)] returns. *)
Definition payment_security_middleware (utc_now : Z) (request : Request)
  : M (list string) Response :=
  if negb (utils.startswith (path request) "/api/v1/") then
    lift (call_next request)
  else if negb (is_protected (path request)) then
    lift (call_next request)
  else
    let merchant_key := headers_get "x-merchant-key" (headers request) in
    let timestamp := headers_get "x-request-timestamp" (headers request) in
    if negb (present merchant_key && present timestamp) then
      raise (HTTPException 400
               (VStr "Missing required headers: Origin, X-Merchant-ID, X-Request-Timestamp"))
    else
      let merchant_key := default "" merchant_key in
      let timestamp := default "" timestamp in
      (* every registered merchant is a non-empty dict, so [not merchant]
         holds exactly when the key is not registered *)
      match REGISTERED_MERCHANTS !! merchant_key with
      | None => raise (HTTPException 403 (VStr "Invalid merchant ID"))
      | Some _ =>
          match fromisoformat (replace_Z timestamp) with
          | None =>
              raise (HTTPException 400
                       (VStr "Invalid timestamp format (use ISO 8601)"))
          | Some req_time =>
              let! too_far := lift (skew_exceeded utc_now req_time) in
              if too_far then
                raise (HTTPException 400
                         (VStr "Request timestamp too old or in the future"))
              else
                do! modify (fun log =>
                      log ++ ["[" +:+ merchant_key +:+ "] " +:+ method request
                              +:+ " " +:+ path request +:+ " "]) in
                lift (call_next request)
          end
      end.

End Middleware.

End security_middleware.

(** ** One implementation of the runtime interface

    Used to run the model on concrete inputs.  It reads plain decimal
    numerals and the timestamps [YYYY-MM-DDTHH:MM:SS] with an optional
    [+HH:MM] or [-HH:MM] offset, which every CPython since 3.7 accepts. *)

Module sample.
Import Py.

Definition digit_value (c : ascii) : option Z :=
  if utils.is_digit c then Some (Z.of_nat (nat_of_ascii c) - 48) else None.

(** The number written by the first [n] characters, all digits, and the rest. *)
Fixpoint take_digits (n : nat) (acc : Z) (s : string) : option (Z * string) :=
  match n with
  | O => Some (acc, s)
  | S n' =>
      match s with
      | String c rest =>
          match digit_value c with
          | Some d => take_digits n' (10 * acc + d) rest
          | None => None
          end
      | EmptyString => None
      end
  end.

(** A run of digits that makes up the whole string. *)
Fixpoint all_digits (acc : Z) (s : string) : option Z :=
  match s with
  | EmptyString => Some acc
  | String c rest =>
      match digit_value c with
      | Some d => all_digits (10 * acc + d) rest
      | None => None
      end
  end.

Definition decimal (s : string) : option Z :=
  match s with
  | EmptyString => None
  | String c rest =>
      if Ascii.eqb c "-"%char
      then match rest with
           | EmptyString => None
           | _ => option_map Z.opp (all_digits 0 rest)
           end
      else all_digits 0 s
  end.

Definition expect (c : ascii) (s : string) : option string :=
  match s with
  | String c' rest => if Ascii.eqb c c' then Some rest else None
  | EmptyString => None
  end.

Definition is_leap (y : Z) : bool :=
  ((y mod 4 =? 0) && (negb (y mod 100 =? 0) || (y mod 400 =? 0)))%bool.

Definition days_in_month (y m : Z) : Z :=
  if m =? 2 then (if is_leap y then 29 else 28)
  else if ((m =? 4) || (m =? 6) || (m =? 9) || (m =? 11))%bool then 30
  else 31.

Fixpoint days_before_month (y : Z) (m : nat) : Z :=
  match m with
  | O => 0
  | S m' => days_before_month y m' + days_in_month y (Z.of_nat m)
  end.

(** Days from 0001-01-01 to the given date. *)
Definition days_since_min (y m d : Z) : Z :=
  let y' := y - 1 in
  y' * 365 + y' / 4 - y' / 100 + y' / 400
  + days_before_month y (Z.to_nat (m - 1)) + (d - 1).

Definition in_range (lo x hi : Z) : bool := ((lo <=? x) && (x <=? hi))%bool.

Definition parse_offset (s : string) : option Z :=
  match s with
  | String sign rest =>
      if (Ascii.eqb sign "+"%char || Ascii.eqb sign "-"%char)%bool then
        match take_digits 2 0 rest with
        | Some (hh, rest) =>
            match expect ":"%char rest with
            | Some rest =>
                match take_digits 2 0 rest with
                | Some (mm, EmptyString) =>
                    if (in_range 0 hh 23 && in_range 0 mm 59)%bool
                    then Some ((if Ascii.eqb sign "-"%char then -1 else 1)
                               * (hh * 3600 + mm * 60) * 1000000)
                    else None
                | _ => None
                end
            | None => None
            end
        | None => None
        end
      else None
  | EmptyString => None
  end.

(** The fields [YYYY-MM-DDTHH:MM:SS] at the head of [s], and the rest. *)
Definition parse_fields (s : string) : option (Z * Z * Z * Z * Z * Z * string) :=
  '(y, s) ← take_digits 4 0 s;
  s ← expect "-"%char s;
  '(m, s) ← take_digits 2 0 s;
  s ← expect "-"%char s;
  '(d, s) ← take_digits 2 0 s;
  s ← expect "T"%char s;
  '(hh, s) ← take_digits 2 0 s;
  s ← expect ":"%char s;
  '(mi, s) ← take_digits 2 0 s;
  s ← expect ":"%char s;
  '(ss, s) ← take_digits 2 0 s;
  Some (y, m, d, hh, mi, ss, s).

Definition iso_seconds (s : string) : option datetime :=
  match parse_fields s with
  | Some (y, m, d, hh, mi, ss, rest) =>
      if (in_range 1 y 9999 && in_range 1 m 12
          && in_range 1 d (days_in_month y m)
          && in_range 0 hh 23 && in_range 0 mi 59 && in_range 0 ss 59)%bool
      then
        let local := (days_since_min y m d * 86400 + hh * 3600 + mi * 60 + ss)
                     * 1000000 in
        match rest with
        | EmptyString => Some (Naive local)
        | _ => option_map (fun off => Aware (local - off)) (parse_offset rest)
        end
      else None
  | None => None
  end.

#[export] Instance runtime : Runtime := {|
  int_of_str := decimal;
  float_of_str := fun s =>
    match decimal s with
    | Some z => match float_of_Z z with Return f => Some f | Raise _ => None end
    | None => None
    end;
  repr := fun _ => "<repr>";
  lax_int := fun v =>
    match v with
    | VBool b => Some (Z_of_bool b)
    | VStr s => decimal s
    | _ => None
    end;
  fromisoformat := iso_seconds;
  exn_str := fun _ => "<message>"
|}.

End sample.

(** * Properties *)

(** ** Vocabulary of the statements *)

Module spec.
Import Py.

(** Every character of [s] satisfies [p]. *)
Fixpoint all_chars (p : ascii -> bool) (s : string) : bool :=
  match s with
  | EmptyString => true
  | String c rest => (p c && all_chars p rest)%bool
  end.

End spec.

(** ** Phone numbers (api/core/utils.py) *)

Section PhoneNumbers.
Import Py utils spec.

Definition digit_or_plus (c : ascii) : bool := (is_digit c || is_plus c)%bool.

Lemma all_chars_append p s t :
  all_chars p (s +:+ t) = (all_chars p s && all_chars p t)%bool.
Proof.
  induction s as [|c s IH]; simpl; [reflexivity|].
  rewrite IH. apply andb_assoc.
Qed.

Lemma re_sub_keeps_digits_and_plus s :
  all_chars digit_or_plus (re_sub_not_digit_plus s) = true.
Proof.
  induction s as [|c s IH]; simpl; [reflexivity|].
  destruct (is_digit c || is_plus c)%bool eqn:E; simpl; [|exact IH].
  unfold digit_or_plus at 1. rewrite E. exact IH.
Qed.

Lemma slice_from_1_all_chars p s :
  all_chars p s = true -> all_chars p (slice_from_1 s) = true.
Proof.
  destruct s as [|c s]; simpl; [auto|].
  intros H. apply andb_true_iff in H. tauto.
Qed.

Lemma match_literal_split p s r :
  match_literal p s = Some r -> s = p +:+ r.
Proof.
  revert s. induction p as [|a p IH]; intros s; simpl.
  - intros [= ->]. reflexivity.
  - destruct s as [|c s]; [discriminate|].
    destruct (Ascii.eqb a c) eqn:E; [|discriminate].
    apply Ascii.eqb_eq in E. subst c. intros Hm. simpl. f_equal. auto.
Qed.

Lemma match_digits_split n s r :
  match_digits n s = Some r ->
  exists d, s = d +:+ r /\ String.length d = n /\ all_chars is_digit d = true.
Proof.
  revert s. induction n as [|n IH]; intros s; simpl.
  - intros [= ->]. exists EmptyString. auto.
  - destruct s as [|c s]; [discriminate|].
    destruct (is_digit c) eqn:E; [|discriminate].
    intros Hm. destruct (IH _ Hm) as (d & -> & Hl & Hd).
    exists (String c d). simpl. rewrite E, Hl, Hd. auto.
Qed.

Lemma match_end_no_newline r :
  match_end r = true -> all_chars digit_or_plus r = true -> r = EmptyString.
Proof.
  unfold match_end. intros H Hr.
  apply orb_true_iff in H. destruct H as [H|H]; apply String.eqb_eq in H; subst r.
  - reflexivity.
  - discriminate Hr.
Qed.

Lemma string_length_append s t :
  String.length (s +:+ t) = (String.length s + String.length t)%nat.
Proof. induction s; simpl; auto. Qed.

Lemma re_match_shape s :
  all_chars digit_or_plus s = true ->
  re_match_254_9_digits s = true ->
  String.length s = 12%nat /\ all_chars is_digit s = true
  /\ startswith s "254" = true.
Proof.
  unfold re_match_254_9_digits. intros Hs Hm.
  destruct (match_literal "254" s) as [r|] eqn:Hl; [|discriminate].
  destruct (match_digits 9 r) as [r'|] eqn:Hd; [|discriminate].
  apply match_literal_split in Hl. subst s.
  destruct (match_digits_split _ _ _ Hd) as (d & -> & Hlen & Hdig).
  rewrite !all_chars_append in Hs.
  apply andb_true_iff in Hs. destruct Hs as [_ Hs].
  apply andb_true_iff in Hs. destruct Hs as [_ Hs].
  rewrite (match_end_no_newline _ Hm Hs).
  rewrite !all_chars_append, !string_length_append, Hlen, Hdig.
  repeat split; reflexivity.
Qed.

Lemma cleaned_keeps_digits_and_plus s :
  all_chars digit_or_plus s = true ->
  all_chars digit_or_plus
    (if startswith s "0" then "254" +:+ slice_from_1 s
     else if negb (startswith s "254") then "254" +:+ s else s) = true.
Proof.
  intros Hs.
  destruct (startswith s "0").
  - rewrite all_chars_append, (slice_from_1_all_chars _ _ Hs). reflexivity.
  - destruct (negb (startswith s "254")); [|exact Hs].
    rewrite all_chars_append, Hs. reflexivity.
Qed.

(** On a [str] of the code points 0..255, [format_phone_number] either
    returns a string of exactly 12 of the digits 0-9 that begins with "254",
    or raises [ValueError]; it turns "0712345678" into "254712345678". *)
Theorem format_phone_number_shape :
  (forall phone_number : string,
      match format_phone_number phone_number with
      | Return cleaned =>
          String.length cleaned = 12%nat
          /\ all_chars is_digit cleaned = true
          /\ startswith cleaned "254" = true
      | Raise e => e = ValueError
      end)
  /\ format_phone_number "0712345678" = Return "254712345678".
Proof.
  split; [|reflexivity].
  intros s. unfold format_phone_number.
  set (c0 := re_sub_not_digit_plus s).
  set (c1 := if startswith c0 "+" then slice_from_1 c0 else c0).
  assert (H1 : all_chars digit_or_plus c1 = true).
  { subst c1. pose proof (re_sub_keeps_digits_and_plus s) as H0. fold c0 in H0.
    destruct (startswith c0 "+"); [apply slice_from_1_all_chars|]; exact H0. }
  pose proof (cleaned_keeps_digits_and_plus _ H1) as H2.
  destruct (re_match_254_9_digits _) eqn:Hm; simpl.
  - apply re_match_shape; assumption.
  - reflexivity.
Qed.

End PhoneNumbers.

(** ** The token cache (api/services/auth_service.py) *)

Section TokenCacheProps.
Import Py auth_service.

(** The instant [set_token] computes for a token obtained at [now] with a
    lifetime of [expires_in] seconds. *)
Definition expiry_of (now expires_in : Z) : Z :=
  now + (expires_in - 60) * US_PER_SECOND.

(** The clock of [w] shows a date that exists. *)
Definition clock_ok (w : world) : Prop := 0 <= clock w < DATETIME_END.

Lemma timedelta_seconds_ok now n :
  0 <= now < DATETIME_END ->
  0 <= now + n * US_PER_SECOND < DATETIME_END ->
  timedelta_seconds n = Return (n * US_PER_SECOND).
Proof.
  unfold timedelta_seconds, DATETIME_END, US_PER_SECOND, SECONDS_PER_DAY.
  intros Hn Hs.
  assert (-999999999 <= n / 86400 <= 999999999) as [H1 H2].
  { split.
    - apply Z.div_le_lower_bound; lia.
    - apply Z.lt_succ_r. apply Z.div_lt_upper_bound; lia. }
  apply Z.leb_le in H1, H2. rewrite H1, H2. reflexivity.
Qed.

Lemma set_token_ok w token expires_in :
  clock_ok w ->
  0 <= expiry_of (clock w) expires_in < DATETIME_END ->
  set_token token expires_in w =
    (Return tt,
     {| cache := {| _token := token;
                    _expiry := Some (expiry_of (clock w) expires_in) |};
        clock := clock w;
        trace := trace w ++ [SetToken token expires_in] |}).
Proof.
  intros Hc He. unfold expiry_of in *.
  unfold set_token, bind, emit, modify, datetime_now, lift, with_cache. simpl.
  rewrite (timedelta_seconds_ok (clock w)) by assumption.
  unfold datetime_add.
  destruct He as [H1 H2]. apply Z.leb_le in H1. apply Z.ltb_lt in H2.
  rewrite H1, H2. reflexivity.
Qed.

(** Whatever [set_token] does afterwards, the token is stored first. *)
Lemma set_token_stores_token w token expires_in r w1 :
  set_token token expires_in w = (r, w1) -> _token (cache w1) = token.
Proof.
  unfold set_token, bind, emit, modify, datetime_now, lift, with_cache. simpl.
  destruct (timedelta_seconds _); simpl; [|intros [= <- <-]; reflexivity].
  destruct (datetime_add _ _); simpl; intros [= <- <-]; reflexivity.
Qed.

Lemma get_token_falsy w :
  truthy (_token (cache w)) = false -> get_token w = (Return VNone, w).
Proof. unfold get_token. intros ->. reflexivity. Qed.

Lemma get_token_hit w e :
  truthy (_token (cache w)) = true -> _expiry (cache w) = Some e ->
  get_token w = (Return (if clock w <? e then _token (cache w) else VNone), w).
Proof.
  unfold get_token. intros -> ->. destruct (clock w <? e); reflexivity.
Qed.

(** The statement of C4 as the specification words it: for every token. *)
Definition get_returns_every_stored_token : Prop :=
  forall (w : world) (token : string) (t : Z) (w1 : world) (later : Z),
    set_token (VStr token) t w = (Return tt, w1) ->
    fst (get_token (sleep later w1)) =
      Return (if clock w1 + later <? expiry_of (clock w) t
              then VStr token else VNone).

Definition noon : world :=
  {| cache := initial_cache; clock := 63841343400000000; trace := [] |}.

(** C4 as stated fails on the empty token: stored at [noon] for an hour, it
    is not returned one second later. *)
Lemma empty_token_is_not_returned : ~ get_returns_every_stored_token.
Proof.
  intros H.
  specialize (H noon "" 3600 _ 1000000 eq_refl).
  vm_compute in H. discriminate H.
Qed.

(** C4, amended.  For a non-empty token and a lifetime [t] whose expiry
    [now + t - 60s] is a date that exists, [set_token] returns and stores
    the token with that expiry, and from then on [get_token] returns the
    token exactly while the clock is strictly before the expiry and [None]
    from the expiry on; with no token stored [get_token] returns [None]. *)
Theorem get_token_after_set_token :
  (forall (w : world) (token : string) (t : Z),
      token <> "" ->
      clock_ok w ->
      0 <= expiry_of (clock w) t < DATETIME_END ->
      exists w1,
        set_token (VStr token) t w = (Return tt, w1)
        /\ cache w1 = {| _token := VStr token;
                         _expiry := Some (expiry_of (clock w) t) |}
        /\ clock w1 = clock w
        /\ forall later : Z,
             get_token (sleep later w1) =
               (Return (if clock w + later <? expiry_of (clock w) t
                        then VStr token else VNone),
                sleep later w1))
  /\ (forall w : world,
        _token (cache w) = VNone -> get_token w = (Return VNone, w)).
Proof.
  split.
  - intros w token t Htok Hc He.
    eexists. split; [apply set_token_ok; assumption|].
    simpl. repeat split.
    intros later.
    rewrite (get_token_hit _ (expiry_of (clock w) t)); simpl; try reflexivity.
    apply negb_true_iff. apply String.eqb_neq. exact Htok.
  - intros w Hw. apply get_token_falsy. rewrite Hw. reflexivity.
Qed.

(** A token stored at [noon] for an hour is returned 58 minutes later and
    not 59 minutes later. *)
Lemma get_token_after_set_token_witness :
  exists w1,
    set_token (VStr "abc") 3600 noon = (Return tt, w1)
    /\ fst (get_token (sleep (58 * 60 * 1000000) w1)) = Return (VStr "abc")
    /\ fst (get_token (sleep (59 * 60 * 1000000) w1)) = Return VNone.
Proof.
  destruct (proj1 get_token_after_set_token noon "abc" 3600)
    as (w1 & Hset & _ & _ & Hget).
  - discriminate.
  - unfold clock_ok. vm_compute. split; [discriminate | reflexivity].
  - vm_compute. split; [discriminate | reflexivity].
  - exists w1. split; [exact Hset|].
    rewrite !Hget. split; reflexivity.
Defined.

(** C10.  Once [set_token] has been called with the empty string, [get_token]
    returns [None] at every later time, however far away the stored expiry;
    and a [str] that [get_token] returns is never empty. *)
Theorem empty_token_reads_as_none :
  (forall (w : world) (t : Z) (r : result unit) (w1 : world) (later : Z),
      set_token (VStr "") t w = (r, w1) ->
      get_token (sleep later w1) = (Return VNone, sleep later w1))
  /\ (forall (w w' : world) (token : string),
        get_token w = (Return (VStr token), w') -> token <> "").
Proof.
  split.
  - intros w t r w1 later Hset.
    apply get_token_falsy. simpl.
    rewrite (set_token_stores_token _ _ _ _ _ Hset). reflexivity.
  - intros w w' token. unfold get_token.
    destruct (truthy (_token (cache w))) eqn:Ht; [|discriminate].
    destruct (_expiry (cache w)); [|discriminate].
    destruct (clock w <? z); [|discriminate].
    intros [= Htok _]. rewrite Htok in Ht. simpl in Ht.
    apply negb_true_iff in Ht. apply String.eqb_neq in Ht. exact Ht.
Qed.

(** The empty token stored at [noon] for an hour: the expiry is 59 minutes
    ahead, and [get_token] returns [None] one second later. *)
Lemma empty_token_reads_as_none_witness :
  exists w1,
    set_token (VStr "") 3600 noon = (Return tt, w1)
    /\ _expiry (cache w1) = Some (clock noon + 59 * 60 * 1000000)
    /\ fst (get_token (sleep 1000000 w1)) = Return VNone.
Proof.
  eexists. split; [reflexivity|]. split; [reflexivity|].
  rewrite (proj1 empty_token_reads_as_none noon 3600 _ _ 1000000 eq_refl).
  reflexivity.
Defined.

End TokenCacheProps.

(** ** Token refresh (api/services/auth_service.py) *)

Section AuthServiceProps.
Import Py auth_service.
Context {RT : Runtime}.
Variable settings : Settings.

(** The request [get_access_token] sends. *)
Definition the_request : event :=
  OAuthRequest (oauth_url settings)
    (CONSUMER_KEY settings +:+ ":" +:+ CONSUMER_SECRET settings)
    (API_TIMEOUT settings).

(** The world once the request is out and the outcome has arrived. *)
Definition after_request (latency : Z) (w : world) : world :=
  {| cache := cache w; clock := clock w + latency;
     trace := trace w ++ [the_request] |}.

(** The cache holds a token that [get_token] would return now. *)
Definition cache_valid (w : world) : Prop :=
  truthy (_token (cache w)) = true
  /\ exists e, _expiry (cache w) = Some e /\ clock w < e.

Lemma oauth_calls_app t1 t2 :
  oauth_calls (t1 ++ t2) = (oauth_calls t1 + oauth_calls t2)%nat.
Proof.
  induction t1 as [|e t1 IH]; simpl; [reflexivity|].
  destruct e; simpl; rewrite IH; reflexivity.
Qed.

Lemma cache_mutations_app t1 t2 :
  cache_mutations (t1 ++ t2) = (cache_mutations t1 + cache_mutations t2)%nat.
Proof.
  induction t1 as [|e t1 IH]; simpl; [reflexivity|].
  destruct e; simpl; rewrite IH; reflexivity.
Qed.

Lemma get_token_valid w :
  cache_valid w -> get_token w = (Return (_token (cache w)), w).
Proof.
  intros (Ht & e & He & Hlt). unfold get_token. rewrite Ht, He.
  apply Z.ltb_lt in Hlt. rewrite Hlt. reflexivity.
Qed.

Lemma get_token_invalid w :
  ~ cache_valid w -> get_token w = (Return VNone, w).
Proof.
  intros Hn. unfold get_token.
  destruct (truthy (_token (cache w))) eqn:Ht; [|reflexivity].
  destruct (_expiry (cache w)) as [e|] eqn:He; [|reflexivity].
  destruct (clock w <? e) eqn:Hlt; [|reflexivity].
  exfalso. apply Hn. split; [exact Ht|]. exists e. split; [exact He|].
  apply Z.ltb_lt. exact Hlt.
Qed.

(** What a call of [set_token] leaves behind, whether or not it returns. *)
Lemma set_token_effect w token expires_in r w1 :
  set_token token expires_in w = (r, w1) ->
  trace w1 = trace w ++ [SetToken token expires_in]
  /\ clock w1 = clock w
  /\ _token (cache w1) = token
  /\ (r = Return tt ->
      exists e, datetime_add (clock w) ((expires_in - 60) * US_PER_SECOND) = Return e
                /\ _expiry (cache w1) = Some e).
Proof.
  unfold set_token, bind, emit, modify, datetime_now, lift, with_cache. simpl.
  unfold timedelta_seconds.
  destruct (_ && _)%bool; simpl;
    [|intros [= <- <-]; simpl; repeat split; discriminate].
  destruct (datetime_add _ _) as [e|] eqn:He; simpl; intros [= <- <-]; simpl;
    repeat split; try discriminate.
  intros _. exists e. split; reflexivity.
Qed.

Lemma http_get_effect outcome latency w :
  http_get settings outcome latency w
  = (match outcome with Responded r => Return r | Failed e => Raise e end,
     after_request latency w).
Proof. destruct outcome; reflexivity. Qed.

(** [refresh] sends exactly one request; it then either raises with the
    cache untouched, or calls [set_token] once with a truthy token. *)
Lemma refresh_effect outcome latency w res w1 :
  refresh settings outcome latency w = (res, w1) ->
  (w1 = after_request latency w /\ exists e, res = Raise e)
  \/ (exists token expires_in r,
        truthy token = true
        /\ set_token token expires_in (after_request latency w) = (r, w1)
        /\ res = match r with Return _ => Return token | Raise e => Raise e end).
Proof.
  unfold refresh. unfold bind at 1. rewrite http_get_effect.
  destruct outcome as [r|e]; cbv beta iota.
  2:{ intros [= <- <-]. left. eauto. }
  destruct (status_code r =? 200); cbn [negb]; cbv beta iota.
  - unfold bind at 1, lift at 1.
    destruct (response_json r) as [data|e]; cbv beta iota;
      [|intros [= <- <-]; left; eauto].
    unfold bind at 1, lift at 1.
    destruct (py_get data "access_token" VNone) as [token|e]; cbv beta iota;
      [|intros [= <- <-]; left; eauto].
    destruct (truthy token) eqn:Ht; cbn [negb]; cbv beta iota delta [raise];
      [|intros [= <- <-]; left; eauto].
    unfold bind at 1, lift at 1.
    destruct (py_get data "expires_in" (VInt 3600)) as [raw|e]; cbv beta iota;
      [|intros [= <- <-]; left; eauto].
    unfold bind at 1, lift at 1.
    destruct (py_int raw) as [expires_in|e]; cbv beta iota;
      [|intros [= <- <-]; left; eauto].
    unfold bind at 1.
    destruct (set_token token expires_in (after_request latency w))
      as [[[]|e] w'] eqn:Hset; cbv beta iota delta [ret]; intros [= <- <-];
      right; exists token, expires_in; eauto.
  - unfold bind at 1, lift at 1.
    destruct (if negb (String.eqb (text r) "") then response_json r
              else Return (VDict [])) as [ed|e]; cbv beta iota;
      [|intros [= <- <-]; left; eauto].
    unfold bind at 1, lift at 1.
    destruct (py_get ed "errorCode" _) as [ec|e]; cbv beta iota;
      [|intros [= <- <-]; left; eauto].
    unfold bind at 1, lift at 1.
    destruct (py_get ed "errorMessage" _) as [em|e]; cbv beta iota delta [raise];
      intros [= <- <-]; left; eauto.
Qed.

(** The [except] clauses turn one exception into another and touch nothing. *)
Lemma fetch_effect outcome latency w res w1 :
  try_except (refresh settings outcome latency) on_refresh_error w = (res, w1) ->
  exists res0,
    refresh settings outcome latency w = (res0, w1)
    /\ match res0 with
       | Return token => res = Return token
       | Raise _ => exists e, res = Raise e
       end.
Proof.
  unfold try_except.
  destruct (refresh settings outcome latency w) as [[token|e] w'] eqn:Hr.
  - intros [= <- <-]. exists (Return token). split; reflexivity.
  - intros Hh. exists (Raise e). split; [f_equal|].
    + destruct e; simpl in Hh; injection Hh as _ <-; reflexivity.
    + destruct e; simpl in Hh; injection Hh as <- _; eauto.
Qed.

Lemma get_access_token_hit outcome latency w :
  cache_valid w ->
  get_access_token settings false outcome latency w
  = (Return (_token (cache w)), w).
Proof.
  intros Hv. unfold get_access_token. simpl. unfold bind.
  rewrite (get_token_valid _ Hv). destruct Hv as [-> _]. reflexivity.
Qed.

Lemma get_access_token_miss force outcome latency w :
  force = true \/ ~ cache_valid w ->
  get_access_token settings force outcome latency w
  = try_except (refresh settings outcome latency) on_refresh_error w.
Proof.
  unfold get_access_token. destruct force; simpl; [reflexivity|].
  intros [Hf|Hn]; [discriminate|].
  unfold bind. rewrite (get_token_invalid _ Hn). reflexivity.
Qed.

(** No call sends more than one request. *)
Lemma get_access_token_one_request force outcome latency w res w1 :
  get_access_token settings force outcome latency w = (res, w1) ->
  (oauth_calls (trace w1) <= oauth_calls (trace w) + 1)%nat.
Proof.
  unfold get_access_token.
  assert (Hfetch : forall res w1,
             try_except (refresh settings outcome latency) on_refresh_error w
             = (res, w1) ->
             (oauth_calls (trace w1) <= oauth_calls (trace w) + 1)%nat).
  { clear. intros res w1 Hf.
    destruct (fetch_effect _ _ _ _ _ Hf) as (res0 & Hr & _).
    destruct (refresh_effect _ _ _ _ _ Hr)
      as [[-> _]|(token & expires_in & r & _ & Hset & _)].
    - simpl. rewrite oauth_calls_app. simpl. lia.
    - destruct (set_token_effect _ _ _ _ _ Hset) as (-> & _).
      simpl. rewrite !oauth_calls_app. simpl. lia. }
  destruct force; simpl; [apply Hfetch|].
  unfold bind, get_token.
  destruct (truthy (_token (cache w))) eqn:Ht; simpl; [|apply Hfetch].
  destruct (_expiry (cache w)) as [e|]; simpl; [|apply Hfetch].
  destruct (clock w <? e); simpl; [|apply Hfetch].
  rewrite Ht. unfold ret. intros [= <- <-]. lia.
Qed.

(** C3.  With [force_refresh] false and an unexpired token in the cache,
    [get_access_token] returns the cached token and leaves the world as it
    was: no request is sent and the cache is not written.  Of two calls in
    succession, the cache still being valid at the second, at most one sends
    a request.  A refresh that succeeds sends one request and calls
    [set_token] once, and nothing else. *)
Theorem get_access_token_caching :
  (forall w outcome latency,
      cache_valid w ->
      get_access_token settings false outcome latency w
      = (Return (_token (cache w)), w))
  /\ (forall w o1 l1 r1 w1 d o2 l2 r2 w2,
         get_access_token settings false o1 l1 w = (r1, w1) ->
         cache_valid (sleep d w1) ->
         get_access_token settings false o2 l2 (sleep d w1) = (r2, w2) ->
         r2 = Return (_token (cache w1))
         /\ (oauth_calls (trace w2) <= oauth_calls (trace w) + 1)%nat)
  /\ (forall w force outcome latency token w1,
         force = true \/ ~ cache_valid w ->
         get_access_token settings force outcome latency w = (Return token, w1) ->
         exists expires_in e,
           trace w1 = trace w ++ [the_request; SetToken token expires_in]
           /\ oauth_calls (trace w1) = S (oauth_calls (trace w))
           /\ cache_mutations (trace w1) = S (cache_mutations (trace w))
           /\ cache w1 = {| _token := token; _expiry := Some e |}
           /\ datetime_add (clock w + latency)
                ((expires_in - 60) * US_PER_SECOND) = Return e).
Proof.
  split; [|split].
  - intros w outcome latency Hv. apply get_access_token_hit. exact Hv.
  - intros w o1 l1 r1 w1 d o2 l2 r2 w2 H1 Hv H2.
    rewrite (get_access_token_hit _ _ _ Hv) in H2.
    injection H2 as <- <-. split; [reflexivity|].
    simpl. eapply get_access_token_one_request. exact H1.
  - intros w force outcome latency token w1 Hmiss Hcall.
    rewrite (get_access_token_miss _ _ _ _ Hmiss) in Hcall.
    destruct (fetch_effect _ _ _ _ _ Hcall) as (res0 & Hr & Hres).
    destruct (refresh_effect _ _ _ _ _ Hr)
      as [[_ [e ->]]|(tok & expires_in & r & Ht & Hset & ->)].
    { destruct Hres as [e' He']. discriminate He'. }
    destruct (set_token_effect _ _ _ _ _ Hset) as (Htr & Hclk & Htok & Hexp).
    destruct r as [[]|e]; [|destruct Hres as [e' He']; discriminate He'].
    injection Hres as ->.
    destruct (Hexp eq_refl) as (e & Hadd & He).
    exists expires_in, e. simpl in Htr, Hadd.
    rewrite Htr, <- app_assoc. simpl.
    rewrite !oauth_calls_app, !cache_mutations_app. simpl.
    repeat split; try lia; [|exact Hadd].
    destruct (cache w1); simpl in *. congruence.
Qed.

End AuthServiceProps.

Section AuthServiceExample.
Import Py auth_service sample.

Definition daraja : Settings :=
  {| CONSUMER_KEY := "key"; CONSUMER_SECRET := "secret";
     BASE_URL := "https://sandbox.safaricom.co.ke"; API_TIMEOUT := 30 |}.

(** The provider grants a token for 3599 seconds. *)
Definition granted : http_outcome :=
  Responded {| status_code := 200;
               text := "{...}";
               json := Some (VDict [("access_token", VStr "tok");
                                    ("expires_in", VStr "3599")]) |}.

(** A first call at [noon] with an empty cache, answered after 0.2 s, and a
    second call ten seconds later. *)
Definition first_call : result pyval * world :=
  get_access_token daraja false granted 200000 noon.
Definition second_call : result pyval * world :=
  get_access_token daraja false granted 200000 (sleep 10000000 (snd first_call)).

Lemma get_access_token_caching_witness :
  fst first_call = Return (VStr "tok")
  /\ cache_valid (sleep 10000000 (snd first_call))
  /\ fst second_call = Return (VStr "tok")
  /\ (oauth_calls (trace (snd second_call)) <= oauth_calls (trace noon) + 1)%nat
  /\ cache_mutations (trace (snd first_call)) = S (cache_mutations (trace noon)).
Proof.
  assert (Hv : cache_valid (sleep 10000000 (snd first_call))).
  { split; [reflexivity|]. eexists. split; [reflexivity|]. reflexivity. }
  destruct (get_access_token_caching (RT:=sample.runtime) daraja)
    as (_ & Htwice & Hrefresh).
  destruct (Htwice noon granted 200000 (fst first_call) (snd first_call)
              10000000 granted 200000 (fst second_call) (snd second_call))
    as [H2 Hcalls].
  { apply surjective_pairing. }
  { exact Hv. }
  { apply surjective_pairing. }
  destruct (Hrefresh noon false granted 200000 (VStr "tok") (snd first_call))
    as (expires_in & e & _ & _ & Hmut & _).
  { right. intros [Ht _]. discriminate Ht. }
  { reflexivity. }
  split; [reflexivity|]. split; [exact Hv|]. split; [exact H2|].
  split; [exact Hcalls | exact Hmut].
Defined.

End AuthServiceExample.

(** ** The subscriber hub (api/routers/websocket.py) *)

Section HubProps.
Import Py websocket.

(** The clients, from the first on, up to the first closed one. *)
Fixpoint open_prefix (closed : gset nat) (cs : list nat) : list nat :=
  match cs with
  | [] => []
  | c :: rest => if decide (c ∈ closed) then [] else c :: open_prefix closed rest
  end.

(** What holds of the hub whatever has happened: no connection is listed
    twice, every listed connection has been accepted, and a connection not
    accepted yet has been sent nothing. *)
Definition hub_inv (h : hub) : Prop :=
  NoDup (clients h)
  /\ (forall c, c ∈ clients h -> (c < next_ws h)%nat)
  /\ (forall c, (next_ws h <= c)%nat -> inbox h !! c = None).

Lemma open_prefix_all closed cs :
  (forall c, c ∈ cs -> c ∉ closed) -> open_prefix closed cs = cs.
Proof.
  induction cs as [|c cs IH]; intros Hopen; simpl; [reflexivity|].
  destruct (decide (c ∈ closed)) as [Hc|_].
  - exfalso. apply (Hopen c); [left|exact Hc].
  - f_equal. apply IH. intros x Hx. apply Hopen. right. exact Hx.
Qed.

Lemma open_prefix_stop closed pre c post :
  (forall x, x ∈ pre -> x ∉ closed) -> c ∈ closed ->
  open_prefix closed (pre ++ c :: post) = pre.
Proof.
  intros Hopen Hc. induction pre as [|x pre IH]; simpl.
  - destruct (decide (c ∈ closed)); [reflexivity|contradiction].
  - destruct (decide (x ∈ closed)) as [Hx|_].
    + exfalso. apply (Hopen x); [left|exact Hx].
    + f_equal. apply IH. intros y Hy. apply Hopen. right. exact Hy.
Qed.

Lemma open_prefix_subset closed cs c :
  c ∈ open_prefix closed cs -> c ∈ cs.
Proof.
  induction cs as [|x cs IH]; simpl; [auto|].
  destruct (decide (x ∈ closed)); [intros Hc; inversion Hc|].
  intros Hc. apply elem_of_cons in Hc. destruct Hc as [->|Hc]; [left|right; auto].
Qed.

(** The loop of [broadcast_payment_status], in full: it delivers to the open
    prefix of the list and to nobody else, raises unless that prefix is the
    whole list, and leaves the list itself alone. *)
Lemma send_to_each_spec cs data h :
  NoDup cs ->
  exists h',
    send_to_each cs data h
    = ((if decide (open_prefix (closed h) cs = cs) then Return tt
        else Raise SendError), h')
    /\ clients h' = clients h
    /\ closed h' = closed h
    /\ next_ws h' = next_ws h
    /\ (forall c, c ∈ open_prefix (closed h) cs ->
                  inbox h' !! c = Some (received h c ++ [data]))
    /\ (forall c, c ∉ open_prefix (closed h) cs -> inbox h' !! c = inbox h !! c).
Proof.
  revert h. induction cs as [|c cs IH]; intros h Hnd.
  - exists h. simpl. repeat split; try reflexivity.
    intros c Hc. inversion Hc.
  - apply NoDup_cons in Hnd. destruct Hnd as [Hc Hnd].
    simpl. unfold bind, send_json.
    destruct (decide (c ∈ closed h)) as [Hcl|Hop].
    + exists h. rewrite decide_False by discriminate.
      repeat split; try reflexivity. intros x Hx. inversion Hx.
    + set (h1 := {| clients := clients h;
                    inbox := <[c:=received h c ++ [data]]> (inbox h);
                    closed := closed h; next_ws := next_ws h |}).
      destruct (IH h1 Hnd) as (h' & Hrun & Hcs & Hcl & Hnx & Hin & Hout).
      exists h'. rewrite Hrun. simpl in *.
      split.
      { destruct (decide (open_prefix (closed h) cs = cs)) as [He|Hne].
        - rewrite decide_True by (f_equal; exact He). reflexivity.
        - rewrite decide_False; [reflexivity|]. intros [= He]. contradiction. }
      repeat split; try assumption.
      * intros x Hx. apply elem_of_cons in Hx. destruct Hx as [->|Hx].
        -- rewrite Hout.
           ++ apply lookup_insert_eq.
           ++ intros Hx. apply Hc. eapply open_prefix_subset. exact Hx.
        -- rewrite (Hin x Hx). f_equal. unfold received at 1. simpl.
           rewrite lookup_insert_ne; [reflexivity|].
           intros ->. apply Hc. eapply open_prefix_subset. exact Hx.
      * intros x Hx. rewrite Hout.
        -- apply lookup_insert_ne. intros ->. apply Hx. left.
        -- intros Hx'. apply Hx. right. exact Hx'.
Qed.

Lemma list_remove_spec x l r :
  list_remove x l = Return r ->
  NoDup l -> NoDup r /\ (x ∉ r) /\ (forall y, y ∈ r <-> y ∈ l /\ y <> x).
Proof.
  revert r. induction l as [|y l IH]; intros r; simpl; [discriminate|].
  destruct (decide (x = y)) as [<-|Hne].
  - intros [= <-] Hnd. apply NoDup_cons in Hnd. destruct Hnd as [Hx Hnd].
    split; [exact Hnd|]. split; [exact Hx|].
    intros z. rewrite elem_of_cons. split.
    + intros Hz. split; [right; exact Hz|]. intros ->. contradiction.
    + intros [[->|Hz] Hzx]; [contradiction|exact Hz].
  - destruct (list_remove x l) as [r'|e] eqn:Hr; simpl; [|discriminate].
    intros [= <-] Hnd. apply NoDup_cons in Hnd. destruct Hnd as [Hy Hnd].
    destruct (IH r' eq_refl Hnd) as (Hnd' & Hx & Hiff).
    split; [|split].
    + apply NoDup_cons. split; [|exact Hnd'].
      intros Hy'. apply Hiff in Hy'. tauto.
    + intros Hx'. apply elem_of_cons in Hx'. destruct Hx' as [->|Hx']; tauto.
    + intros z. rewrite !elem_of_cons, Hiff. split.
      * intros [->|[Hz Hzx]]; [split; [left; reflexivity|congruence]|tauto].
      * intros [[->|Hz] Hzx]; [left; reflexivity|right; tauto].
Qed.

Lemma list_remove_present x l :
  x ∈ l -> exists r, list_remove x l = Return r.
Proof.
  induction l as [|y l IH]; intros Hx; [inversion Hx|].
  simpl. destruct (decide (x = y)) as [_|Hne]; [eauto|].
  apply elem_of_cons in Hx. destruct Hx as [->|Hx]; [contradiction|].
  destruct (IH Hx) as [r ->]. simpl. eauto.
Qed.

Lemma hub_inv_initial : hub_inv initial.
Proof.
  split; [apply NoDup_nil_2|]. split.
  - intros c Hc. inversion Hc.
  - intros c _. apply lookup_empty.
Qed.

Lemma hub_inv_step h h' : step h h' -> hub_inv h -> hub_inv h'.
Proof.
  intros Hstep (Hnd & Hlt & Hnone).
  destruct Hstep as [h c h' Hacc|h c Hc|h c r h' Hcl Hdis|h data r h' Hb].
  - unfold websocket_endpoint_accept in Hacc. injection Hacc as <- <-.
    split; [|split]; simpl.
    + apply NoDup_app. split; [exact Hnd|]. split; [|apply NoDup_singleton].
      intros x Hx Hx'. apply list_elem_of_singleton in Hx'. subst x.
      apply Hlt in Hx. lia.
    + intros c Hc. apply elem_of_app in Hc. destruct Hc as [Hc|Hc].
      * apply Hlt in Hc. lia.
      * apply list_elem_of_singleton in Hc. subst c. lia.
    + intros c Hc. apply Hnone. lia.
  - split; [|split]; simpl; assumption.
  - unfold websocket_endpoint_disconnect in Hdis.
    destruct (list_remove c (clients h)) as [cs|e] eqn:Hr.
    + injection Hdis as <- <-.
      destruct (list_remove_spec _ _ _ Hr Hnd) as (Hnd' & _ & Hiff).
      split; [|split]; simpl; [exact Hnd'| |exact Hnone].
      intros x Hx. apply Hiff in Hx. apply Hlt. tauto.
    + injection Hdis as <- <-. split; [|split]; assumption.
  - unfold broadcast_payment_status in Hb.
    destruct (send_to_each_spec (clients h) data h Hnd)
      as (h1 & Hrun & Hcs & _ & Hnx & _ & Hout).
    rewrite Hrun in Hb. injection Hb as _ <-.
    split; [|split].
    + rewrite Hcs. exact Hnd.
    + rewrite Hcs, Hnx. exact Hlt.
    + intros c Hc. rewrite Hnx in Hc. rewrite Hout; [apply Hnone; exact Hc|].
      intros Hc'. apply open_prefix_subset in Hc'. apply Hlt in Hc'. lia.
Qed.

Lemma reachable_inv h : reachable h -> hub_inv h.
Proof.
  unfold reachable. revert h.
  apply (rtc_ind_r (fun h => hub_inv h)); [apply hub_inv_initial|].
  intros h h' _ Hstep IH. eapply hub_inv_step; eassumption.
Qed.

Lemma received_of_lookup h c l : inbox h !! c = Some l -> received h c = l.
Proof. unfold received. intros ->. reflexivity. Qed.

Lemma received_same h h' c : inbox h' !! c = inbox h !! c -> received h' c = received h c.
Proof. unfold received. intros ->. reflexivity. Qed.

(** [broadcast_payment_status] on a hub that satisfies the invariant. *)
Lemma broadcast_spec data h :
  hub_inv h ->
  exists h',
    broadcast_payment_status data h
    = ((if decide (open_prefix (closed h) (clients h) = clients h)
        then Return tt else Raise SendError), h')
    /\ clients h' = clients h
    /\ closed h' = closed h
    /\ next_ws h' = next_ws h
    /\ (forall c, c ∈ open_prefix (closed h) (clients h) ->
                  received h' c = received h c ++ [data])
    /\ (forall c, c ∉ open_prefix (closed h) (clients h) ->
                  received h' c = received h c).
Proof.
  intros (Hnd & _). unfold broadcast_payment_status.
  destruct (send_to_each_spec (clients h) data h Hnd)
    as (h' & Hrun & Hcs & Hcl & Hnx & Hin & Hout).
  exists h'. repeat split; try assumption.
  - intros c Hc. apply received_of_lookup. auto.
  - intros c Hc. apply received_same. auto.
Qed.

(** Three subscribers have connected, and nothing else has happened. *)
Definition three_subscribers : hub :=
  {| clients := [0; 1; 2]%nat; inbox := ∅; closed := ∅; next_ws := 3%nat |}.

(** The same, after the second subscriber has gone away and before its
    handler has noticed. *)
Definition second_gone : hub := peer_close 1%nat three_subscribers.

Lemma closed_second_gone c : c ∈ closed second_gone <-> c = 1%nat.
Proof.
  simpl. rewrite elem_of_union, elem_of_singleton, elem_of_empty. tauto.
Qed.

Lemma three_subscribers_reachable : reachable three_subscribers.
Proof.
  unfold reachable.
  eapply rtc_l; [eapply (step_accept _ 0%nat); reflexivity|].
  eapply rtc_l; [eapply (step_accept _ 1%nat); reflexivity|].
  eapply rtc_l; [eapply (step_accept _ 2%nat); reflexivity|].
  apply rtc_refl.
Qed.

Lemma second_gone_reachable : reachable second_gone.
Proof.
  eapply rtc_r; [apply three_subscribers_reachable|].
  apply step_peer_close. simpl. repeat constructor.
Qed.

(** The statement of C1 as the specification words it. *)
Definition broadcast_isolates_failures : Prop :=
  forall h data r h',
    reachable h ->
    broadcast_payment_status data h = (r, h') ->
    (forall c, c ∈ clients h -> c ∉ closed h ->
               received h' c = received h c ++ [data])
    /\ (forall c, c ∈ clients h -> c ∈ closed h -> c ∉ clients h').

(** C1 as stated fails with three subscribers of which the second has gone
    away: the third is sent nothing, and the second stays registered. *)
Lemma broadcast_aborts_on_closed_subscriber : ~ broadcast_isolates_failures.
Proof.
  intros Hclaim.
  destruct (broadcast_spec (VStr "paid") second_gone
              (reachable_inv _ second_gone_reachable))
    as (h' & Hrun & Hcs & _ & _ & _ & Hout).
  destruct (Hclaim _ _ _ _ second_gone_reachable Hrun) as [Hdeliver _].
  specialize (Hdeliver 2%nat). specialize (Hout 2%nat).
  assert (Hpre : open_prefix (closed second_gone) (clients second_gone) = [0%nat]).
  { apply (open_prefix_stop _ [0%nat] 1%nat [2%nat]).
    - intros x Hx. apply list_elem_of_singleton in Hx. subst x.
      rewrite closed_second_gone. discriminate.
    - apply closed_second_gone. reflexivity. }
  rewrite Hpre in Hout.
  rewrite Hout in Hdeliver by (rewrite list_elem_of_singleton; discriminate).
  assert (Hnil : received second_gone 2%nat = []) by reflexivity.
  rewrite Hnil in Hdeliver.
  discriminate Hdeliver.
  - simpl. repeat constructor.
  - rewrite closed_second_gone. discriminate.
Qed.

(** C1, amended.  A broadcast delivers in the order of registration and
    stops at the first subscriber whose connection is closed: the failure
    reaches the caller, the subscribers before it have been sent the payload
    once, the failed one and those after it have been sent nothing, and the
    list of subscribers is as it was.  A subscriber leaves the list when its
    own handler runs its disconnect clause, which removes it and no other. *)
Theorem broadcast_stops_at_first_failure :
  (forall h data pre c post,
      reachable h ->
      clients h = pre ++ c :: post ->
      (forall x, x ∈ pre -> x ∉ closed h) ->
      c ∈ closed h ->
      exists h',
        broadcast_payment_status data h = (Raise SendError, h')
        /\ clients h' = clients h
        /\ closed h' = closed h
        /\ (forall x, x ∈ pre -> received h' x = received h x ++ [data])
        /\ (forall x, x ∉ pre -> received h' x = received h x))
  /\ (forall h c,
        reachable h ->
        c ∈ clients h ->
        exists h',
          websocket_endpoint_disconnect c h = (Return tt, h')
          /\ (c ∉ clients h')
          /\ (forall x, x ∈ clients h' <-> x ∈ clients h /\ x <> c)
          /\ inbox h' = inbox h).
Proof.
  split.
  - intros h data pre c post Hr Hcs Hopen Hc.
    destruct (broadcast_spec data h (reachable_inv _ Hr))
      as (h' & Hrun & Hcs' & Hcl & _ & Hin & Hout).
    rewrite Hcs in Hrun, Hin, Hout.
    rewrite (open_prefix_stop _ _ _ _ Hopen Hc) in Hrun, Hin, Hout.
    exists h'. rewrite decide_False in Hrun.
    + repeat split; assumption.
    + intros He. apply (f_equal length) in He.
      rewrite length_app in He. simpl in He. lia.
  - intros h c Hr Hc.
    destruct (reachable_inv _ Hr) as (Hnd & _).
    destruct (list_remove_present _ _ Hc) as [cs Hrm].
    destruct (list_remove_spec _ _ _ Hrm Hnd) as (_ & Hnot & Hiff).
    unfold websocket_endpoint_disconnect. rewrite Hrm.
    eexists. split; [reflexivity|]. simpl.
    split; [exact Hnot|]. split; [exact Hiff|reflexivity].
Qed.

(** With three subscribers of which the second has gone away, the first is
    sent the payload and the third is not. *)
Lemma broadcast_stops_at_first_failure_witness :
  exists h',
    broadcast_payment_status (VStr "paid") second_gone = (Raise SendError, h')
    /\ clients h' = [0; 1; 2]%nat
    /\ received h' 0%nat = [VStr "paid"]
    /\ received h' 2%nat = [].
Proof.
  destruct (proj1 broadcast_stops_at_first_failure second_gone (VStr "paid")
              [0%nat] 1%nat [2%nat] second_gone_reachable eq_refl)
    as (h' & Hrun & Hcs & _ & Hin & Hout).
  - intros x Hx. apply list_elem_of_singleton in Hx. subst x.
    rewrite closed_second_gone. discriminate.
  - apply closed_second_gone. reflexivity.
  - exists h'. split; [exact Hrun|]. split; [exact Hcs|]. split.
    + apply Hin. repeat constructor.
    + apply Hout. rewrite list_elem_of_singleton. discriminate.
Defined.

(** C8.  A broadcast to subscribers whose connections are all open returns,
    sends each registered subscriber exactly one copy of the payload and
    nobody else anything; a subscriber accepted after the call starts with
    nothing received.  Whatever the connections' state, no subscriber is sent
    more than one copy by one call. *)
Theorem broadcast_fan_out :
  (forall h data,
      reachable h ->
      (forall c, c ∈ clients h -> c ∉ closed h) ->
      exists h',
        broadcast_payment_status data h = (Return tt, h')
        /\ clients h' = clients h
        /\ (forall c, c ∈ clients h -> received h' c = received h c ++ [data])
        /\ (forall c, c ∉ clients h -> received h' c = received h c)
        /\ exists late h'',
             websocket_endpoint_accept h' = (Return late, h'')
             /\ (late ∉ clients h)
             /\ received h'' late = [])
  /\ (forall h data r h' c,
        reachable h ->
        broadcast_payment_status data h = (r, h') ->
        received h' c = received h c
        \/ received h' c = received h c ++ [data]).
Proof.
  split.
  - intros h data Hr Hopen.
    pose proof (reachable_inv _ Hr) as Hinv.
    destruct (broadcast_spec data h Hinv)
      as (h' & Hrun & Hcs & Hcl & Hnx & Hin & Hout).
    rewrite (open_prefix_all _ _ Hopen) in Hrun, Hin, Hout.
    rewrite decide_True in Hrun by reflexivity.
    exists h'. repeat split; try assumption.
    exists (next_ws h'), (snd (websocket_endpoint_accept h')).
    split; [reflexivity|].
    destruct Hinv as (_ & Hlt & Hnone). split.
    + intros Hc. apply Hlt in Hc. lia.
    + change (received (snd (websocket_endpoint_accept h')) (next_ws h'))
        with (received h' (next_ws h')).
      rewrite Hout.
      * unfold received. rewrite Hnone; [reflexivity|lia].
      * intros Hc. apply Hlt in Hc. lia.
  - intros h data r h' c Hr Hrun.
    destruct (broadcast_spec data h (reachable_inv _ Hr))
      as (h1 & Hrun1 & _ & _ & _ & Hin & Hout).
    rewrite Hrun1 in Hrun. injection Hrun as _ <-.
    destruct (decide (c ∈ open_prefix (closed h) (clients h))); auto.
Qed.

(** Three subscribers, all connected: each is sent one copy, and a fourth
    that connects afterwards has received nothing. *)
Lemma broadcast_fan_out_witness :
  exists h',
    broadcast_payment_status (VStr "paid") three_subscribers = (Return tt, h')
    /\ received h' 0%nat = [VStr "paid"]
    /\ received h' 1%nat = [VStr "paid"]
    /\ received h' 2%nat = [VStr "paid"]
    /\ exists late h'',
         websocket_endpoint_accept h' = (Return late, h'')
         /\ received h'' late = [].
Proof.
  destruct (proj1 broadcast_fan_out three_subscribers (VStr "paid")
              three_subscribers_reachable)
    as (h' & Hrun & _ & Hin & _ & late & h'' & Hacc & _ & Hlate).
  - intros c _. apply not_elem_of_empty.
  - exists h'. split; [exact Hrun|].
    split; [apply Hin; simpl; repeat constructor|].
    split; [apply Hin; simpl; repeat constructor|].
    split; [apply Hin; simpl; repeat constructor|].
    exists late, h''. split; assumption.
Defined.

End HubProps.

(** ** Normalised push-to-pay results (api/models/stk_schemas.py) *)

Section StkSchemaProps.
Import Py pydantic stk_schemas.
Context {RT : Runtime}.

(** The first of the metadata items [ds] (each a dict) named [name]. *)
Definition first_item (name : string) (ds : list (list (string * pyval)))
  : option (list (string * pyval)) :=
  List.find (fun d => match assoc "Name" d with
                      | Some n => eq_str n name
                      | None => false
                      end) ds.

(** The [Value] of a metadata item, or [default] when it has none. *)
Definition value_or (default : pyval) (d : list (string * pyval)) : pyval :=
  match assoc "Value" d with Some v => v | None => default end.

(** Metadata of the shape the provider documents: a non-empty dict whose
    [Item] is a list of dicts. *)
Definition metadata_items (cb : STKPushCallback)
    (ds : list (list (string * pyval))) : Prop :=
  exists md, callback_metadata cb = Some md
             /\ assoc "Item" md = Some (VList (map VDict ds)).

(** The float [0.0]. *)
Definition float_zero : spec_float := S754_zero false.

Lemma first_named_dicts {A} name (extract : pyval -> result A) ds :
  first_named name extract (map VDict ds)
  = match first_item name ds with
    | Some d => rbind (extract (VDict d)) (fun x => Return (Some x))
    | None => Return None
    end.
Proof.
  induction ds as [|d ds IH]; simpl; [reflexivity|].
  destruct (assoc "Name" d) as [n|]; simpl.
  - destruct (eq_str n name); [reflexivity|exact IH].
  - exact IH.
Qed.

Lemma scan_metadata_items {A} cb name (extract : pyval -> result A) ds :
  metadata_items cb ds ->
  scan_metadata cb name extract
  = match first_item name ds with
    | Some d => rbind (extract (VDict d)) (fun x => Return (Some x))
    | None => Return None
    end.
Proof.
  intros (md & Hmd & Hitem). unfold scan_metadata. rewrite Hmd.
  destruct md as [|kv md]; [discriminate Hitem|].
  rewrite Hitem. simpl. apply first_named_dicts.
Qed.

Lemma scan_metadata_absent {A} cb name (extract : pyval -> result A) :
  callback_metadata cb = None \/ callback_metadata cb = Some [] ->
  scan_metadata cb name extract = Return None.
Proof. unfold scan_metadata. intros [-> | ->]; reflexivity. Qed.

(** The statement of C5 as the specification words it, for the amount: an
    entry [{Name: "Amount", Value: v}] among the items makes the amount
    [float(v)], and without such an entry the amount is absent. *)
Definition has_entry (name : string) (v : pyval)
    (ds : list (list (string * pyval))) : Prop :=
  exists d, In d ds /\ assoc "Name" d = Some (VStr name)
            /\ assoc "Value" d = Some v.

Definition amount_only_from_entry : Prop :=
  forall (cb : STKPushCallback) (ds : list (list (string * pyval))),
    metadata_items cb ds ->
    (forall v f, has_entry "Amount" v ds -> py_float v = Return f ->
                 amount cb = Return (Some f))
    /\ ((forall v, ~ has_entry "Amount" v ds) -> amount cb = Return None).

End StkSchemaProps.

Section StkSchemaTheorems.
Import Py pydantic stk_schemas.

(** A successful push payment whose [Amount] item carries no [Value]. *)
Definition amount_without_value : STKPushCallback :=
  {| merchant_request_id := "29115-34620561-1";
     checkout_request_id := "ws_CO_191220191020363925";
     result_code := 0;
     result_desc := "The service request is processed successfully.";
     callback_metadata :=
       Some [("Item", VList [VDict [("Name", VStr "Amount")]])] |}.

(** C5 as stated fails on an [Amount] item without a [Value]: the amount is
    [0.0], not absent. *)
Lemma amount_defaults_to_zero :
  ~ (forall RT : Runtime, @amount_only_from_entry RT).
Proof.
  intros Hclaim.
  destruct (Hclaim sample.runtime amount_without_value
              [[("Name", VStr "Amount")]]) as [_ Habsent].
  { eexists. split; reflexivity. }
  assert (Hnone : @amount sample.runtime amount_without_value = Return None).
  { apply Habsent. intros v (d & Hd & _ & Hv).
    destruct Hd as [<-|[]]. discriminate Hv. }
  discriminate Hnone.
Qed.

(** C5, amended.  Each optional field is read from the first metadata item
    of its name: the amount is [float] of that item's [Value], taking [0]
    (so the amount is [0.0]) when the item has no [Value]; receipt number,
    transaction date and phone number are [str] of that item's [Value],
    taking [None] (so the text is "None") when the item has no [Value].  A
    field is absent when no item has its name, and when there is no
    metadata at all. *)
Theorem optional_fields_follow_first_item :
  forall RT : Runtime,
  (forall cb,
      callback_metadata cb = None \/ callback_metadata cb = Some [] ->
      amount cb = Return None
      /\ mpesa_receipt_number cb = Return None
      /\ transaction_date cb = Return None
      /\ phone_number cb = Return None)
  /\ (forall cb ds,
         metadata_items cb ds ->
         amount cb
         = match first_item "Amount" ds with
           | Some d => rbind (py_float (value_or (VInt 0) d))
                             (fun f => Return (Some f))
           | None => Return None
           end
         /\ mpesa_receipt_number cb
            = Return (option_map (fun d => py_str (value_or VNone d))
                                 (first_item "MpesaReceiptNumber" ds))
         /\ transaction_date cb
            = Return (option_map (fun d => py_str (value_or VNone d))
                                 (first_item "TransactionDate" ds))
         /\ phone_number cb
            = Return (option_map (fun d => py_str (value_or VNone d))
                                 (first_item "PhoneNumber" ds)))
  /\ (forall cb ds d f,
         metadata_items cb ds ->
         first_item "Amount" ds = Some d ->
         (assoc "Value" d = Some (VFloat f) -> amount cb = Return (Some f))
         /\ (assoc "Value" d = None -> amount cb = Return (Some float_zero))).
Proof.
  intros RT. split; [|split].
  - intros cb Habs. unfold amount, mpesa_receipt_number, transaction_date,
      phone_number. rewrite !scan_metadata_absent by exact Habs. auto.
  - intros cb ds Hmd.
    unfold amount, mpesa_receipt_number, transaction_date, phone_number.
    rewrite !(scan_metadata_items _ _ _ ds) by exact Hmd.
    split; [reflexivity|]. repeat split.
    + destruct (first_item "MpesaReceiptNumber" ds); reflexivity.
    + destruct (first_item "TransactionDate" ds); reflexivity.
    + destruct (first_item "PhoneNumber" ds); reflexivity.
  - intros cb ds d f Hmd Hfirst. unfold amount.
    rewrite (scan_metadata_items _ _ _ ds) by exact Hmd. rewrite Hfirst.
    unfold float_value. simpl. split; intros ->; reflexivity.
Qed.

End StkSchemaTheorems.

Section StkSchemaExample.
Import Py pydantic stk_schemas sample.

(** The float [1.0]. *)
Definition float_one : spec_float := S754_finite false 4503599627370496 (-52).

(** The callback the schema documents as its example. *)
Definition documented_callback : STKPushCallback :=
  {| merchant_request_id := "29115-34620561-1";
     checkout_request_id := "ws_CO_191220191020363925";
     result_code := 0;
     result_desc := "The service request is processed successfully.";
     callback_metadata :=
       Some [("Item",
              VList [VDict [("Name", VStr "Amount"); ("Value", VFloat float_one)];
                     VDict [("Name", VStr "MpesaReceiptNumber");
                            ("Value", VStr "NLJ7RT61SV")];
                     VDict [("Name", VStr "TransactionDate");
                            ("Value", VInt 20191219102115)];
                     VDict [("Name", VStr "PhoneNumber");
                            ("Value", VInt 254708374149)]])] |}.

Lemma optional_fields_follow_first_item_witness :
  amount documented_callback = Return (Some float_one)
  /\ mpesa_receipt_number documented_callback = Return (Some "NLJ7RT61SV")
  /\ transaction_date documented_callback = Return (Some "20191219102115")
  /\ phone_number documented_callback = Return (Some "254708374149")
  /\ amount amount_without_value = Return (Some float_zero).
Proof.
  destruct (optional_fields_follow_first_item sample.runtime)
    as (_ & Hfields & Hamount).
  destruct (Hfields documented_callback
              [[("Name", VStr "Amount"); ("Value", VFloat float_one)];
               [("Name", VStr "MpesaReceiptNumber"); ("Value", VStr "NLJ7RT61SV")];
               [("Name", VStr "TransactionDate"); ("Value", VInt 20191219102115)];
               [("Name", VStr "PhoneNumber"); ("Value", VInt 254708374149)]])
    as (Ha & Hr & Hd & Hp).
  { eexists. split; reflexivity. }
  rewrite Ha, Hr, Hd, Hp.
  do 4 (split; [reflexivity|]).
  apply (Hamount amount_without_value [[("Name", VStr "Amount")]]
           [("Name", VStr "Amount")] float_zero).
  - eexists. split; reflexivity.
  - reflexivity.
  - reflexivity.
Defined.

End StkSchemaExample.

(** ** Success is [result_code == 0] (both schema modules and the routers) *)

Section SuccessFlag.
Import Py pydantic routers.


Lemma print_stdout o a :
  print o a = (Return tt, {| hub := hub a; stdout := stdout a ++ [o]; now := now a |}).
Proof. reflexivity. Qed.













End SuccessFlag.

(** ** The callback endpoints always acknowledge (api/routers) *)

Section CallbackProps.
Import Py pydantic routers.
Context {RT : Runtime}.

(** What an endpoint answers after its [except] clause has run on [e]. *)
Definition error_envelope (e : exn) (a : app) : SuccessResponse :=
  {| message := "Callback received";
     data := Some [("error", VStr (exn_str e))];
     timestamp := now a |}.

(** A [try] whose handler always returns, always returns. *)
Lemma try_except_returns {A} (body : M app A) (handler : exn -> M app A) a :
  (forall e a1, exists x a2, handler e a1 = (Return x, a2)) ->
  exists x a', try_except body handler a = (Return x, a').
Proof.
  intros Hh. unfold try_except. destruct (body a) as [[x|e] a1]; eauto.
Qed.

Lemma try_except_caught {A} (body : M app A) (handler : exn -> M app A) a e a1 :
  body a = (Raise e, a1) -> try_except body handler a = handler e a1.
Proof. unfold try_except. intros ->. reflexivity. Qed.

Lemma except_clause_returns (line : exn -> output) e a :
  bind (print (line e))
       (fun _ => SuccessResponse_init "Callback received"
                   (VDict [("error", VStr (exn_str e))])) a
  = (Return (error_envelope e a),
     {| hub := hub a; stdout := stdout a ++ [line e]; now := now a |}).
Proof. reflexivity. Qed.

(** C2.  Whatever the request body and the state of the hub, each of the
    three callback endpoints returns a [SuccessResponse], which FastAPI sends
    with status 200; when the processing raises, whatever the exception and
    wherever it is raised (decoding the body, building the model,
    broadcasting, printing), the answer is the envelope "Callback received"
    with the error in its data. *)
Theorem callbacks_always_acknowledged :
  forall (request_json : result pyval) (a : app),
    (exists resp a', stk_push_callback request_json a = (Return resp, a'))
    /\ (exists resp a', b2c_result_callback request_json a = (Return resp, a'))
    /\ (exists resp a', b2c_timeout_callback request_json a = (Return resp, a'))
    /\ http_status (fst (stk_push_callback request_json a)) = 200
    /\ http_status (fst (b2c_result_callback request_json a)) = 200
    /\ http_status (fst (b2c_timeout_callback request_json a)) = 200
    /\ (forall e a1,
           stk_push_callback_body request_json a = (Raise e, a1) ->
           fst (stk_push_callback request_json a) = Return (error_envelope e a1))
    /\ (forall e a1,
           b2c_result_callback_body request_json a = (Raise e, a1) ->
           fst (b2c_result_callback request_json a) = Return (error_envelope e a1))
    /\ (forall e a1,
           b2c_timeout_callback_body request_json a = (Raise e, a1) ->
           fst (b2c_timeout_callback request_json a) = Return (error_envelope e a1)).
Proof.
  intros request_json a.
  assert (Hstk : exists resp a', stk_push_callback request_json a = (Return resp, a')).
  { apply try_except_returns. intros e a1. eexists _, _. reflexivity. }
  assert (Hres : exists resp a', b2c_result_callback request_json a = (Return resp, a')).
  { apply try_except_returns. intros e a1. eexists _, _. reflexivity. }
  assert (Htmo : exists resp a', b2c_timeout_callback request_json a = (Return resp, a')).
  { apply try_except_returns. intros e a1. eexists _, _. reflexivity. }
  split; [exact Hstk|]. split; [exact Hres|]. split; [exact Htmo|].
  split; [destruct Hstk as (resp & a' & ->); reflexivity|].
  split; [destruct Hres as (resp & a' & ->); reflexivity|].
  split; [destruct Htmo as (resp & a' & ->); reflexivity|].
  split; [|split]; intros e a1 Hbody.
  - unfold stk_push_callback. rewrite (try_except_caught _ _ _ _ _ Hbody).
    reflexivity.
  - unfold b2c_result_callback. rewrite (try_except_caught _ _ _ _ _ Hbody).
    reflexivity.
  - unfold b2c_timeout_callback. rewrite (try_except_caught _ _ _ _ _ Hbody).
    reflexivity.
Qed.

End CallbackProps.


Section CallbackExamples.
Import Py pydantic routers sample.

(** A server whose only subscriber has gone away. *)
Definition lone_subscriber_gone : app :=
  {| hub := websocket.peer_close 0%nat
              {| websocket.clients := [0%nat]; websocket.inbox := ∅;
                 websocket.closed := ∅; websocket.next_ws := 1%nat |};
     stdout := [];
     now := 63841343400000000 |}.

(** A push result that failed at the provider. *)
Definition insufficient_funds : pyval :=
  VDict [("Body",
          VDict [("stkCallback",
                  VDict [("MerchantRequestID", VStr "29115-34620561-1");
                         ("CheckoutRequestID", VStr "ws_CO_191220191020363925");
                         ("ResultCode", VInt 1);
                         ("ResultDesc", VStr "Insufficient funds")])])].

Lemma send_json_closed c data h :
  c ∈ websocket.closed h ->
  websocket.send_json c data h = (Raise SendError, h).
Proof.
  intros Hc. unfold websocket.send_json. rewrite decide_True by exact Hc.
  reflexivity.
Qed.

(** A broadcast whose first subscriber has gone away raises at once. *)
Lemma broadcast_first_closed data a c rest :
  websocket.clients (hub a) = c :: rest ->
  c ∈ websocket.closed (hub a) ->
  broadcast_payment_status data a = (Raise SendError, a).
Proof.
  intros Hcs Hc.
  unfold broadcast_payment_status, websocket.broadcast_payment_status.
  rewrite Hcs. simpl. unfold bind. rewrite (send_json_closed _ _ _ Hc).
  destruct a. reflexivity.
Qed.

Lemma undecodable_body_raises a :
  stk_push_callback_body (Raise JSONDecodeError) a = (Raise JSONDecodeError, a).
Proof. reflexivity. Qed.

Lemma empty_body_raises a :
  stk_push_callback_body (Return (VDict [])) a = (Raise ValidationError, a).
Proof. reflexivity. Qed.

Lemma insufficient_funds_raises a c rest :
  websocket.clients (hub a) = c :: rest ->
  c ∈ websocket.closed (hub a) ->
  stk_push_callback_body (Return insufficient_funds) a = (Raise SendError, a).
Proof.
  intros Hcs Hc. unfold stk_push_callback_body, insufficient_funds.
  unfold bind, lift. simpl.
  rewrite (broadcast_first_closed _ _ _ _ Hcs Hc). reflexivity.
Qed.

(** Three ways for the processing to fail, each answered with status 200: a
    body that is not JSON, a body without the required fields, and a
    broadcast to a closed connection. *)
Lemma callbacks_always_acknowledged_witness :
  fst (stk_push_callback (Raise JSONDecodeError) lone_subscriber_gone)
  = Return (error_envelope JSONDecodeError lone_subscriber_gone)
  /\ fst (stk_push_callback (Return (VDict [])) lone_subscriber_gone)
     = Return (error_envelope ValidationError lone_subscriber_gone)
  /\ fst (stk_push_callback (Return insufficient_funds) lone_subscriber_gone)
     = Return (error_envelope SendError lone_subscriber_gone)
  /\ http_status
       (fst (stk_push_callback (Return insufficient_funds) lone_subscriber_gone))
     = 200.
Proof.
  destruct (callbacks_always_acknowledged (Raise JSONDecodeError)
              lone_subscriber_gone) as (_ & _ & _ & _ & _ & _ & Hjson & _).
  destruct (callbacks_always_acknowledged (Return (VDict []))
              lone_subscriber_gone) as (_ & _ & _ & _ & _ & _ & Hempty & _).
  destruct (callbacks_always_acknowledged (Return insufficient_funds)
              lone_subscriber_gone) as (_ & _ & _ & Hstatus & _ & _ & Hsend & _).
  split; [exact (Hjson _ _ (undecodable_body_raises _))|].
  split; [exact (Hempty _ _ (empty_body_raises _))|].
  split; [|exact Hstatus].
  apply Hsend. apply (insufficient_funds_raises _ 0%nat []).
  - reflexivity.
  - unfold lone_subscriber_gone, websocket.peer_close.
    cbn [hub websocket.closed].
    apply elem_of_union_l, elem_of_singleton. reflexivity.
Defined.

End CallbackExamples.

(** ** The replay guard (api/security_middleware.py) *)

Section ReplayGuardProps.
Import Py security_middleware.
Context {RT : Runtime}.
Variable Response : Type.
Variable call_next : Request -> result Response.

(** The middleware in front of the application [call_next]. *)
Definition guard (utc_now : Z) (request : Request) : M (list string) Response :=
  payment_security_middleware Response call_next utc_now request.

(** A request to a protected path that carries both headers, non-empty, and
    the key of a registered merchant. *)
Record well_keyed (request : Request) (key ts : string) : Prop := {
  wk_protected : is_protected (path request) = true;
  wk_key : headers_get "x-merchant-key" (headers request) = Some key;
  wk_key_nonempty : key <> "";
  wk_registered : is_Some (REGISTERED_MERCHANTS !! key);
  wk_timestamp : headers_get "x-request-timestamp" (headers request) = Some ts;
  wk_timestamp_nonempty : ts <> ""
}.

Definition log_line (request : Request) (key : string) : string :=
  "[" +:+ key +:+ "] " +:+ method request +:+ " " +:+ path request +:+ " ".

Lemma protected_is_api p :
  is_protected p = true -> utils.startswith p "/api/v1/" = true.
Proof.
  unfold is_protected, PROTECTED_ENDPOINTS. cbn [existsb].
  rewrite !orb_true_iff, !String.eqb_eq.
  intros [->|[->|[->|Hf]]]; try reflexivity. discriminate Hf.
Qed.

Lemma present_some s : s <> "" -> present (Some s) = true.
Proof. intros Hs. simpl. apply negb_true_iff, String.eqb_neq, Hs. Qed.

(** Paths outside the protected list go straight to the application. *)
Lemma guard_passes_unprotected utc_now request log :
  is_protected (path request) = false ->
  guard utc_now request log = (call_next request, log).
Proof.
  intros Hp. unfold guard, payment_security_middleware.
  destruct (utils.startswith (path request) "/api/v1/"); simpl; [|reflexivity].
  rewrite Hp. reflexivity.
Qed.

(** On a protected path, up to the parse of the timestamp. *)
Lemma guard_well_keyed utc_now request key ts log :
  well_keyed request key ts ->
  guard utc_now request log
  = match fromisoformat (replace_Z ts) with
    | None => (Raise (HTTPException 400
                        (VStr "Invalid timestamp format (use ISO 8601)")), log)
    | Some req_time =>
        match skew_exceeded utc_now req_time with
        | Raise e => (Raise e, log)
        | Return true =>
            (Raise (HTTPException 400
                      (VStr "Request timestamp too old or in the future")), log)
        | Return false => (call_next request, log ++ [log_line request key])
        end
    end.
Proof.
  intros [Hp Hk Hkn [m Hm] Ht Htn].
  unfold guard, payment_security_middleware.
  rewrite (protected_is_api _ Hp), Hp, Hk, Ht. simpl negb. cbv iota.
  rewrite (present_some _ Hkn), (present_some _ Htn). simpl.
  rewrite Hm.
  destruct (fromisoformat (replace_Z ts)) as [req_time|]; [|reflexivity].
  unfold bind, lift. destruct (skew_exceeded utc_now req_time) as [[|]|e];
    reflexivity.
Qed.

(** The checks that come before the timestamp. *)
Lemma guard_rejects_early utc_now request log :
  is_protected (path request) = true ->
  let key := headers_get "x-merchant-key" (headers request) in
  let ts := headers_get "x-request-timestamp" (headers request) in
  (present key && present ts = false ->
   exists detail, guard utc_now request log = (Raise (HTTPException 400 detail), log))
  /\ (present key && present ts = true ->
      REGISTERED_MERCHANTS !! (default "" key) = None ->
      exists detail, guard utc_now request log = (Raise (HTTPException 403 detail), log)).
Proof.
  intros Hp key ts. unfold guard, payment_security_middleware.
  rewrite (protected_is_api _ Hp), Hp. simpl negb. cbv iota.
  fold key ts. split.
  - intros ->. simpl. eauto.
  - intros -> Hm. simpl. rewrite Hm. eauto.
Qed.

(** C7, where the code departs from it.  A protected request of a registered
    merchant whose timestamp parses to a datetime without an offset is
    neither let through nor rejected with status 400: the subtraction
    [now - req_time] raises [TypeError], which nothing catches. *)
Theorem naive_timestamp_raises_type_error :
  forall utc_now request key ts t log,
    well_keyed request key ts ->
    fromisoformat (replace_Z ts) = Some (Naive t) ->
    guard utc_now request log = (Raise TypeError, log)
    /\ routers.http_status (fst (guard utc_now request log)) = 500.
Proof.
  intros utc_now request key ts t log Hwk Hparse.
  rewrite (guard_well_keyed _ _ _ _ _ Hwk), Hparse. simpl. split; reflexivity.
Qed.

(** The part of C7 the code keeps: with a timestamp that carries an offset,
    the request goes through exactly when it is at most two minutes from
    now, and is rejected with status 400 otherwise; 2 min 1 s is rejected
    and 1 min 59 s is accepted, on either side of now. *)
Lemma aware_timestamp_window utc_now request key ts t log :
  well_keyed request key ts ->
  fromisoformat (replace_Z ts) = Some (Aware t) ->
  (Z.abs (utc_now - t) <= ALLOWED_TIME_SKEW ->
   guard utc_now request log = (call_next request, log ++ [log_line request key]))
  /\ (ALLOWED_TIME_SKEW < Z.abs (utc_now - t) ->
      exists detail,
        guard utc_now request log = (Raise (HTTPException 400 detail), log)).
Proof.
  intros Hwk Hparse.
  rewrite (guard_well_keyed _ _ _ _ _ Hwk), Hparse. simpl. split; intros Hd.
  - apply Z.ltb_ge in Hd. rewrite Hd. reflexivity.
  - apply Z.ltb_lt in Hd. rewrite Hd. eauto.
Qed.

Lemma window_boundaries utc_now request key ts t log :
  well_keyed request key ts ->
  fromisoformat (replace_Z ts) = Some (Aware t) ->
  (Z.abs (utc_now - t) = 121 * 1000000 ->
   exists detail,
     guard utc_now request log = (Raise (HTTPException 400 detail), log))
  /\ (Z.abs (utc_now - t) = 119 * 1000000 ->
      guard utc_now request log
      = (call_next request, log ++ [log_line request key])).
Proof.
  intros Hwk Hparse.
  destruct (aware_timestamp_window utc_now _ _ _ _ log Hwk Hparse) as [Hin Hout].
  unfold ALLOWED_TIME_SKEW in *. split; intros Hd.
  - apply Hout. lia.
  - apply Hin. lia.
Qed.

End ReplayGuardProps.

Section ReplayGuardExample.
Import Py security_middleware sample.

(** A payment request of a registered merchant whose timestamp has no
    offset. *)
Definition naive_request : Request :=
  {| path := "/api/v1/stk-push/initiate";
     method := "POST";
     headers := [("x-merchant-key", "merchant_123");
                 ("x-request-timestamp", "2024-01-20T10:30:00")] |}.

Lemma merchant_123_registered : is_Some (REGISTERED_MERCHANTS !! "merchant_123").
Proof. unfold REGISTERED_MERCHANTS. rewrite lookup_insert_eq. eauto. Qed.

Lemma naive_request_well_keyed :
  well_keyed naive_request "merchant_123" "2024-01-20T10:30:00".
Proof.
  split; try reflexivity; try discriminate. apply merchant_123_registered.
Qed.

(** The request above, received at the very instant its timestamp names
    (read as UTC), whatever the application behind the middleware. *)
Lemma naive_timestamp_raises_type_error_witness :
  guard unit (fun _ => Return tt) 63841343400000000 naive_request []
  = (Raise TypeError, []).
Proof.
  apply (naive_timestamp_raises_type_error unit (fun _ => Return tt)
           63841343400000000 naive_request "merchant_123"
           "2024-01-20T10:30:00" 63841343400000000 []).
  - exact naive_request_well_keyed.
  - reflexivity.
Defined.

End ReplayGuardExample.

(** * More of the code *)

(** ** Phone numbers, continued (api/core/utils.py) *)

Section PhoneNumberFormats.
Import Py utils spec.

(** The digit strings [format_phone_number] accepts: ten digits after a
    leading 0, twelve digits that begin with 254, or nine digits that begin
    with neither. *)
Definition dialable (s : string) : bool :=
  let n := String.length s in
  ((Nat.eqb n 10 && startswith s "0")
   || (Nat.eqb n 12 && startswith s "254")
   || (Nat.eqb n 9 && negb (startswith s "0") && negb (startswith s "254")))%bool.

(** What it makes of them. *)
Definition with_country_code (s : string) : string :=
  if startswith s "0" then "254" +:+ slice_from_1 s
  else if startswith s "254" then s
  else "254" +:+ s.

Lemma digit_is_digit_or_plus s :
  all_chars is_digit s = true -> all_chars digit_or_plus s = true.
Proof.
  induction s as [|c s IH]; simpl; [reflexivity|].
  intros Hs. apply andb_true_iff in Hs. destruct Hs as [Hc Hs].
  unfold digit_or_plus at 1. rewrite Hc, (IH Hs). reflexivity.
Qed.

Lemma re_sub_digits s :
  all_chars digit_or_plus s = true -> re_sub_not_digit_plus s = s.
Proof.
  induction s as [|c s IH]; simpl; [reflexivity|].
  intros Hs. apply andb_true_iff in Hs. destruct Hs as [Hc Hs].
  unfold digit_or_plus in Hc. rewrite Hc, (IH Hs). reflexivity.
Qed.

Lemma digits_no_plus s :
  all_chars is_digit s = true -> startswith s "+" = false.
Proof.
  destruct s as [|c s]; [reflexivity|].
  change (startswith (String c s) "+") with (Ascii.eqb "+"%char c && true)%bool.
  cbn [all_chars]. intros Hs. apply andb_true_iff in Hs. destruct Hs as [Hc _].
  destruct (Ascii.eqb "+" c) eqn:E; [|reflexivity].
  apply Ascii.eqb_eq in E. subst c. discriminate Hc.
Qed.

Lemma startswith_split s p :
  startswith s p = true -> exists r, s = p +:+ r.
Proof.
  revert s. induction p as [|a p IH]; intros s; simpl.
  - exists s. reflexivity.
  - destruct s as [|c s]; [discriminate|].
    intros H. apply andb_true_iff in H. destruct H as [Hc Hp].
    apply Ascii.eqb_eq in Hc. subst c.
    destruct (IH _ Hp) as [r ->]. exists r. reflexivity.
Qed.

Lemma match_literal_append p r : match_literal p (p +:+ r) = Some r.
Proof.
  induction p as [|a p IH]; simpl; [reflexivity|].
  rewrite Ascii.eqb_refl. exact IH.
Qed.

Lemma match_digits_all d :
  all_chars is_digit d = true ->
  match_digits (String.length d) d = Some EmptyString.
Proof.
  induction d as [|c d IH]; simpl; [reflexivity|].
  intros Hd. apply andb_true_iff in Hd. destruct Hd as [Hc Hd].
  rewrite Hc. auto.
Qed.

(** On digit strings the pattern [^254\d{9}$] is a test of length and prefix. *)
Lemma re_match_digits s :
  all_chars is_digit s = true ->
  re_match_254_9_digits s
  = (Nat.eqb (String.length s) 12 && startswith s "254")%bool.
Proof.
  intros Hs.
  destruct (Nat.eqb (String.length s) 12 && startswith s "254")%bool eqn:E.
  - apply andb_true_iff in E. destruct E as [Hl Hp].
    apply Nat.eqb_eq in Hl.
    destruct (startswith_split _ _ Hp) as [d ->].
    rewrite all_chars_append in Hs. apply andb_true_iff in Hs.
    destruct Hs as [_ Hd].
    rewrite string_length_append in Hl. simpl in Hl.
    unfold re_match_254_9_digits. rewrite match_literal_append.
    replace 9%nat with (String.length d) by lia.
    rewrite (match_digits_all _ Hd). reflexivity.
  - destruct (re_match_254_9_digits s) eqn:Hm; [|reflexivity].
    destruct (re_match_shape s (digit_is_digit_or_plus _ Hs) Hm) as (Hl & _ & Hp).
    rewrite Hl, Hp in E. discriminate E.
Qed.

Lemma startswith_0_not_254 s :
  startswith s "0" = true -> startswith s "254" = false.
Proof.
  destruct s as [|c s]; [discriminate|].
  change (startswith (String c s) "0") with (Ascii.eqb "0"%char c && true)%bool.
  intros H. apply andb_true_iff in H. destruct H as [Hc _].
  apply Ascii.eqb_eq in Hc. subst c. reflexivity.
Qed.

Lemma slice_from_1_length s :
  s <> EmptyString -> String.length s = S (String.length (slice_from_1 s)).
Proof. destruct s; [congruence|reflexivity]. Qed.

(** [format_phone_number] on a string of digits, in full. *)
Lemma format_digits s :
  all_chars is_digit s = true ->
  format_phone_number s
  = if dialable s then Return (with_country_code s) else Raise ValueError.
Proof.
  intros Hs. unfold format_phone_number.
  rewrite (re_sub_digits _ (digit_is_digit_or_plus _ Hs)).
  rewrite (digits_no_plus _ Hs).
  unfold dialable, with_country_code.
  destruct (startswith s "0") eqn:H0.
  - rewrite (startswith_0_not_254 _ H0).
    assert (Hne : s <> EmptyString) by (intros ->; discriminate H0).
    rewrite re_match_digits.
    + rewrite string_length_append, (slice_from_1_length _ Hne). simpl.
      rewrite !andb_false_r, !andb_true_r, !orb_false_r.
      destruct (String.length (slice_from_1 s)) as [|[|[|[|[|[|[|[|[|[|n]]]]]]]]]];
        reflexivity.
    + rewrite all_chars_append, (slice_from_1_all_chars _ _ Hs). reflexivity.
  - destruct (startswith s "254") eqn:H254; cbn [negb].
    + rewrite (re_match_digits _ Hs), H254.
      rewrite !andb_false_r, !andb_true_r, !orb_false_r. simpl.
      destruct (Nat.eqb (String.length s) 12); reflexivity.
    + rewrite re_match_digits.
      * rewrite string_length_append. simpl.
        rewrite !andb_false_r, !andb_true_r. simpl.
        destruct (String.length s) as [|[|[|[|[|[|[|[|[|[|n]]]]]]]]]];
          reflexivity.
      * rewrite all_chars_append, Hs. reflexivity.
Qed.

(** Whatever [format_phone_number] returns is 254 and nine digits. *)
Lemma format_returns_canonical s r :
  format_phone_number s = Return r ->
  String.length r = 12%nat /\ all_chars is_digit r = true
  /\ startswith r "254" = true.
Proof.
  unfold format_phone_number.
  set (c0 := re_sub_not_digit_plus s).
  set (c1 := if startswith c0 "+" then slice_from_1 c0 else c0).
  assert (H1 : all_chars digit_or_plus c1 = true).
  { subst c1. pose proof (re_sub_keeps_digits_and_plus s) as H0. fold c0 in H0.
    destruct (startswith c0 "+"); [apply slice_from_1_all_chars|]; exact H0. }
  pose proof (cleaned_keeps_digits_and_plus _ H1) as H2.
  destruct (re_match_254_9_digits _) eqn:Hm; simpl; [|discriminate].
  intros [= <-]. apply re_match_shape; assumption.
Qed.

(** X1.  [format_phone_number] is idempotent: a number it has returned is
    returned unchanged when formatted again. *)
Theorem format_phone_number_idempotent :
  forall s r : string,
    format_phone_number s = Return r -> format_phone_number r = Return r.
Proof.
  intros s r Hr.
  destruct (format_returns_canonical _ _ Hr) as (Hl & Hd & Hp).
  rewrite (format_digits _ Hd). unfold dialable, with_country_code.
  rewrite Hl, Hp.
  destruct (startswith r "0") eqn:H0.
  - rewrite (startswith_0_not_254 _ H0) in Hp. discriminate Hp.
  - reflexivity.
Qed.

Lemma format_phone_number_idempotent_witness :
  format_phone_number "+254 712-345-678" = Return "254712345678"
  /\ format_phone_number "254712345678" = Return "254712345678".
Proof.
  split; [reflexivity|].
  exact (format_phone_number_idempotent "+254 712-345-678" "254712345678" eq_refl).
Defined.

(** X2.  On a string of digits [format_phone_number] succeeds exactly in
    three cases: ten digits with a leading 0 (the 0 becomes 254), twelve
    digits that begin with 254 (unchanged), nine digits that begin with
    neither 0 nor 254 (254 is put in front).  Every other digit string raises
    [ValueError]; among them nine digits that begin with 254. *)
Theorem format_phone_number_on_digits :
  forall s : string,
    all_chars is_digit s = true ->
    format_phone_number s
    = if dialable s then Return (with_country_code s) else Raise ValueError.
Proof. exact format_digits. Qed.

Lemma format_phone_number_on_digits_witness :
  format_phone_number "712345678" = Return "254712345678"
  /\ format_phone_number "254712345" = Raise ValueError
  /\ format_phone_number "7123456789" = Raise ValueError.
Proof.
  split; [|split].
  - exact (format_phone_number_on_digits "712345678" eq_refl).
  - exact (format_phone_number_on_digits "254712345" eq_refl).
  - exact (format_phone_number_on_digits "7123456789" eq_refl).
Defined.

End PhoneNumberFormats.

(** ** Token refresh, continued (api/services/auth_service.py) *)

Section AuthServiceErrors.
Import Py auth_service.
Context {RT : Runtime}.
Variable settings : Settings.

Lemma on_refresh_error_is_http e w :
  exists status detail,
    on_refresh_error e w = (Raise (HTTPException status detail), w).
Proof. destruct e; simpl; eauto. Qed.

Lemma fetch_raises_http outcome latency w e w1 :
  try_except (refresh settings outcome latency) on_refresh_error w = (Raise e, w1) ->
  exists status detail, e = HTTPException status detail.
Proof.
  unfold try_except.
  destruct (refresh settings outcome latency w) as [[token|e0] w0];
    [discriminate|].
  destruct (on_refresh_error_is_http e0 w0) as (status & detail & ->).
  intros [= <- _]. eauto.
Qed.

(** [refresh] when the transport fails. *)
Lemma refresh_failed e latency w :
  refresh settings (Failed e) latency w = (Raise e, after_request settings latency w).
Proof. unfold refresh, bind. rewrite http_get_effect. reflexivity. Qed.

(** The dict the provider's error body is read from. *)
Definition error_data_of (r : response) : result pyval :=
  if negb (String.eqb (text r) "") then response_json r else Return (VDict []).

(** [refresh] on an answer whose status is not 200 and whose error body is a
    dict (or empty). *)
Lemma refresh_rejected r d latency w :
  status_code r <> 200 ->
  error_data_of r = Return (VDict d) ->
  refresh settings (Responded r) latency w
  = (Raise (HTTPException (status_code r)
              (VDict [("error", VStr "Failed to generate access token");
                      ("error_code",
                       match assoc "errorCode" d with
                       | Some v => v | None => VStr "AUTH_ERROR" end);
                      ("error_message",
                       match assoc "errorMessage" d with
                       | Some v => v | None => VStr (text r) end)])),
     after_request settings latency w).
Proof.
  intros Hs Hd. unfold refresh. unfold bind at 1. rewrite http_get_effect.
  cbv beta iota. apply Z.eqb_neq in Hs. rewrite Hs. cbn [negb]. cbv beta iota.
  unfold bind at 1, lift at 1. unfold error_data_of in Hd. rewrite Hd.
  reflexivity.
Qed.

(** [refresh] on an answer with status 200 that carries a token and an
    integer lifetime. *)
Lemma refresh_granted r d token t latency w :
  status_code r = 200 ->
  json r = Some (VDict d) ->
  assoc "access_token" d = Some token ->
  truthy token = true ->
  assoc "expires_in" d = Some (VInt t) ->
  refresh settings (Responded r) latency w
  = (let '(res, w1) := set_token token t (after_request settings latency w) in
     (match res with Return _ => Return token | Raise e => Raise e end, w1)).
Proof.
  intros Hs Hj Htok Htruthy Ht. unfold refresh. unfold bind at 1.
  rewrite http_get_effect. cbv beta iota.
  apply Z.eqb_eq in Hs. rewrite Hs. cbn [negb]. cbv beta iota.
  unfold bind at 1, lift at 1. unfold response_json. rewrite Hj. cbv beta iota.
  unfold bind at 1, lift at 1. unfold py_get at 1. rewrite Htok. cbv beta iota.
  rewrite Htruthy. cbn [negb]. cbv beta iota.
  unfold bind at 1, lift at 1. unfold py_get at 1. rewrite Ht. cbv beta iota.
  unfold bind at 1, lift at 1. cbn [py_int]. cbv beta iota.
  unfold bind at 1.
  destruct (set_token token t (after_request settings latency w)) as [[[]|e] w1];
    reflexivity.
Qed.

(** X3.  Whatever goes wrong, [get_access_token] raises an [HTTPException]
    and nothing else.  When the transport times out the status is 504; when
    the provider answers with a status other than 200 and an error body that
    is empty or a JSON object, the status is the provider's.  In both cases
    the cache is left as it was and one request has been sent. *)
Theorem get_access_token_raises_http_only :
  (forall force outcome latency w e w1,
      get_access_token settings force outcome latency w = (Raise e, w1) ->
      exists status detail, e = HTTPException status detail)
  /\ (forall force latency w,
         force = true \/ ~ cache_valid w ->
         get_access_token settings force (Failed TimeoutException) latency w
         = (Raise (HTTPException 504
                     (VStr "Timeout while generating access token")),
            after_request settings latency w))
  /\ (forall force latency w r d,
         force = true \/ ~ cache_valid w ->
         status_code r <> 200 ->
         error_data_of r = Return (VDict d) ->
         exists detail,
           get_access_token settings force (Responded r) latency w
           = (Raise (HTTPException (status_code r) detail),
              after_request settings latency w)).
Proof.
  split; [|split].
  - intros force outcome latency w e w1. unfold get_access_token.
    destruct force; cbn [negb]; cbv beta iota zeta.
    + apply fetch_raises_http.
    + unfold bind, get_token.
      destruct (truthy (_token (cache w))) eqn:Ht; cbv beta iota;
        [|rewrite ?Ht; apply fetch_raises_http].
      destruct (_expiry (cache w)) as [x|]; cbv beta iota;
        [|apply fetch_raises_http].
      destruct (clock w <? x); cbv beta iota; [|apply fetch_raises_http].
      rewrite Ht. discriminate.
  - intros force latency w Hmiss.
    rewrite (get_access_token_miss settings _ _ _ _ Hmiss).
    unfold try_except. rewrite refresh_failed. reflexivity.
  - intros force latency w r d Hmiss Hs Hd.
    rewrite (get_access_token_miss settings _ _ _ _ Hmiss).
    unfold try_except. rewrite (refresh_rejected _ _ _ _ Hs Hd).
    eexists. reflexivity.
Qed.

(** X4.  With [force_refresh] true the cache is never consulted: the call
    sends exactly one request whatever the cache holds, and
    [verify_credentials] returns [True] exactly when that refresh returns a
    token, raising what it raises otherwise. *)
Theorem force_refresh_always_requests :
  forall outcome latency w res w1,
    get_access_token settings true outcome latency w = (res, w1) ->
    oauth_calls (trace w1) = S (oauth_calls (trace w))
    /\ verify_credentials settings outcome latency w
       = (match res with Return _ => Return true | Raise e => Raise e end, w1).
Proof.
  intros outcome latency w res w1 Hcall. split.
  - unfold get_access_token in Hcall. cbn [negb] in Hcall.
    destruct (fetch_effect settings _ _ _ _ _ Hcall) as (res0 & Hr & _).
    destruct (refresh_effect settings _ _ _ _ _ Hr)
      as [[-> _]|(token & expires_in & r & _ & Hset & _)].
    + cbn [trace after_request]. rewrite oauth_calls_app. simpl. lia.
    + destruct (set_token_effect _ _ _ _ _ Hset) as (-> & _).
      cbn [trace after_request]. rewrite !oauth_calls_app. simpl. lia.
  - unfold verify_credentials, bind. rewrite Hcall. destruct res; reflexivity.
Qed.

(** X5.  A token granted for 60 seconds or less is never served from the
    cache: [set_token] gives it an expiry that is not in the future, so every
    later [get_token] returns [None] (and the next [get_access_token] asks
    the provider again). *)
Theorem short_lived_token_is_never_cached :
  forall w token t w1 later,
    t <= 60 ->
    0 <= later ->
    set_token token t w = (Return tt, w1) ->
    get_token (sleep later w1) = (Return VNone, sleep later w1)
    /\ ~ cache_valid (sleep later w1).
Proof.
  intros w token t w1 later Ht Hlater Hset.
  destruct (set_token_effect _ _ _ _ _ Hset) as (_ & Hclk & _ & Hexp).
  destruct (Hexp eq_refl) as (e & Hadd & He).
  assert (Hle : e <= clock w1 + later).
  { unfold datetime_add in Hadd.
    destruct (_ && _)%bool; [|discriminate]. injection Hadd as <-.
    unfold US_PER_SECOND. lia. }
  assert (Hinvalid : ~ cache_valid (sleep later w1)).
  { intros (_ & e' & He' & Hlt). simpl in He', Hlt.
    rewrite He in He'. injection He' as <-. lia. }
  split; [|exact Hinvalid].
  apply get_token_invalid. exact Hinvalid.
Qed.

(** X6.  [clear_cache] empties the cache whatever it held: afterwards
    [get_token] returns [None] at any time, and the next [get_access_token]
    without force sends a request. *)
Theorem clear_cache_forces_refresh :
  forall w later outcome latency res w1,
    let w0 := sleep later (snd (clear_cache w)) in
    cache w0 = initial_cache
    /\ get_token w0 = (Return VNone, w0)
    /\ (get_access_token settings false outcome latency w0 = (res, w1) ->
        oauth_calls (trace w1) = S (oauth_calls (trace w0))).
Proof.
  intros w later outcome latency res w1 w0.
  assert (Hc : cache w0 = initial_cache) by reflexivity.
  assert (Hn : ~ cache_valid w0).
  { intros [Ht _]. rewrite Hc in Ht. discriminate Ht. }
  split; [exact Hc|]. split; [apply get_token_invalid; exact Hn|].
  intros Hcall.
  rewrite (get_access_token_miss settings _ _ _ _ (or_intror Hn)) in Hcall.
  destruct (fetch_effect settings _ _ _ _ _ Hcall) as (res0 & Hr & _).
  destruct (refresh_effect settings _ _ _ _ _ Hr)
    as [[-> _]|(token & expires_in & r & _ & Hset & _)].
  - cbn [trace after_request]. rewrite oauth_calls_app. simpl. lia.
  - destruct (set_token_effect _ _ _ _ _ Hset) as (-> & _).
    cbn [trace after_request]. rewrite !oauth_calls_app. simpl. lia.
Qed.

(** X7.  [set_token] assigns the token before it computes the expiry.  When
    the expiry is not a date that exists the call raises [OverflowError]
    with the new token already stored and the old expiry still in place. *)
Theorem set_token_overflow_keeps_old_expiry :
  forall w token t,
    ~ (0 <= expiry_of (clock w) t < DATETIME_END) ->
    exists w1,
      set_token token t w = (Raise OverflowError, w1)
      /\ _token (cache w1) = token
      /\ _expiry (cache w1) = _expiry (cache w)
      /\ clock w1 = clock w.
Proof.
  intros w token t Hout. unfold expiry_of in Hout.
  unfold set_token, bind, emit, modify, datetime_now, lift, with_cache.
  cbn [fst snd cache clock trace _token _expiry].
  unfold timedelta_seconds.
  destruct (_ && _)%bool; cbv beta iota.
  - unfold datetime_add. cbn [clock].
    destruct ((0 <=? clock w + (t - 60) * US_PER_SECOND)
              && (clock w + (t - 60) * US_PER_SECOND <? DATETIME_END))%bool eqn:E.
    + exfalso. apply Hout. apply andb_true_iff in E. destruct E as [E1 E2].
      apply Z.leb_le in E1. apply Z.ltb_lt in E2. lia.
    + eexists. split; [reflexivity|]. repeat split.
  - eexists. split; [reflexivity|]. repeat split.
Qed.

End AuthServiceErrors.

Section AuthServiceErrorExamples.
Import Py auth_service sample.

(** The provider rejects the credentials, with an empty body. *)
Definition unauthorized : http_outcome :=
  Responded {| status_code := 401; text := ""; json := None |}.

Lemma get_access_token_raises_http_only_witness :
  fst (get_access_token daraja false (Failed TimeoutException) 30000000 noon)
  = Raise (HTTPException 504 (VStr "Timeout while generating access token"))
  /\ exists detail,
       fst (get_access_token daraja false unauthorized 200000 noon)
       = Raise (HTTPException 401 detail).
Proof.
  destruct (get_access_token_raises_http_only (RT:=sample.runtime) daraja)
    as (_ & Htimeout & Hstatus).
  assert (Hmiss : false = true \/ ~ cache_valid noon).
  { right. intros [Ht _]. discriminate Ht. }
  split.
  - rewrite (Htimeout false 30000000 noon Hmiss). reflexivity.
  - destruct (Hstatus false 200000 noon
                {| status_code := 401; text := ""; json := None |} []
                Hmiss) as [detail Hd]; [discriminate|reflexivity|].
    exists detail. unfold unauthorized. rewrite Hd. reflexivity.
Defined.

Lemma force_refresh_always_requests_witness :
  oauth_calls (trace (snd (get_access_token daraja true granted 200000
                             (snd first_call))))
  = S (oauth_calls (trace (snd first_call))).
Proof.
  apply (force_refresh_always_requests (RT:=sample.runtime) daraja granted 200000
           (snd first_call)
           (fst (get_access_token daraja true granted 200000 (snd first_call)))).
  apply surjective_pairing.
Defined.

Lemma short_lived_token_is_never_cached_witness :
  exists w1,
    set_token (VStr "tok") 60 noon = (Return tt, w1)
    /\ get_token (sleep 0 w1) = (Return VNone, sleep 0 w1).
Proof.
  eexists. split; [reflexivity|].
  apply (short_lived_token_is_never_cached noon (VStr "tok") 60 _ 0).
  - lia.
  - lia.
  - reflexivity.
Defined.

Lemma set_token_overflow_keeps_old_expiry_witness :
  exists w1,
    set_token (VStr "new") 1000000000000 (snd first_call)
    = (Raise OverflowError, w1)
    /\ _token (cache w1) = VStr "new"
    /\ _expiry (cache w1) = _expiry (cache (snd first_call)).
Proof.
  destruct (set_token_overflow_keeps_old_expiry (snd first_call) (VStr "new")
              1000000000000) as (w1 & Hset & Htok & Hexp & _).
  - vm_compute. intros [_ H]. discriminate H.
  - exists w1. repeat split; assumption.
Defined.

End AuthServiceErrorExamples.

(** ** The subscriber hub, continued (api/routers/websocket.py) *)

Section HubMore.
Import Py websocket.

Lemma list_remove_absent x l : x ∉ l -> list_remove x l = Raise ValueError.
Proof.
  induction l as [|y l IH]; intros Hx; simpl; [reflexivity|].
  apply not_elem_of_cons in Hx. destruct Hx as [Hne Hx].
  rewrite decide_False by exact Hne. rewrite (IH Hx). reflexivity.
Qed.

Lemma list_remove_middle x pre post :
  x ∉ pre -> list_remove x (pre ++ x :: post) = Return (pre ++ post).
Proof.
  induction pre as [|y pre IH]; intros Hx; simpl.
  - rewrite decide_True by reflexivity. reflexivity.
  - apply not_elem_of_cons in Hx. destruct Hx as [Hne Hx].
    rewrite decide_False by exact Hne. rewrite (IH Hx). reflexivity.
Qed.

Lemma reachable_step h h' : reachable h -> step h h' -> reachable h'.
Proof. intros Hr Hs. eapply rtc_r; eassumption. Qed.

(** X8.  Whatever sequence of connections, disconnections and broadcasts
    has happened, the list of clients holds no connection twice, holds only
    connections that were accepted, and only accepted connections have ever
    been sent a frame. *)
Theorem clients_stay_distinct :
  forall h,
    reachable h ->
    NoDup (clients h)
    /\ (forall c, c ∈ clients h -> (c < next_ws h)%nat)
    /\ (forall c, received h c <> [] -> (c < next_ws h)%nat).
Proof.
  intros h Hr. destruct (reachable_inv _ Hr) as (Hnd & Hlt & Hnone).
  split; [exact Hnd|]. split; [exact Hlt|].
  intros c Hc. destruct (decide (c < next_ws h)%nat) as [Hok|Hge]; [exact Hok|].
  exfalso. apply Hc. unfold received. rewrite Hnone; [reflexivity|lia].
Qed.

Lemma clients_stay_distinct_witness :
  NoDup (clients second_gone)
  /\ (forall c, c ∈ clients second_gone -> (c < 3)%nat).
Proof.
  destruct (clients_stay_distinct second_gone second_gone_reachable)
    as (Hnd & Hlt & _).
  split; [exact Hnd|exact Hlt].
Defined.

(** X9.  Connecting and then disconnecting leaves the list of clients and
    every inbox as they were; the disconnect clause run for a connection
    that is not in the list raises [ValueError] and changes nothing. *)
Theorem accept_then_disconnect_restores :
  (forall h,
      reachable h ->
      exists c h1 h2,
        websocket_endpoint_accept h = (Return c, h1)
        /\ websocket_endpoint_disconnect c h1 = (Return tt, h2)
        /\ clients h2 = clients h
        /\ inbox h2 = inbox h
        /\ closed h2 = closed h)
  /\ (forall h c,
         c ∉ clients h ->
         websocket_endpoint_disconnect c h = (Raise ValueError, h)).
Proof.
  split.
  - intros h Hr. destruct (reachable_inv _ Hr) as (_ & Hlt & _).
    exists (next_ws h), (snd (websocket_endpoint_accept h)).
    eexists. split; [reflexivity|].
    unfold websocket_endpoint_disconnect. cbn [snd websocket_endpoint_accept clients].
    rewrite <- (app_nil_r (clients h ++ [next_ws h])), <- app_assoc.
    cbn [app]. rewrite list_remove_middle.
    + rewrite app_nil_r. split; [reflexivity|]. repeat split.
    + intros Hc. apply Hlt in Hc. lia.
  - intros h c Hc. unfold websocket_endpoint_disconnect.
    rewrite (list_remove_absent _ _ Hc). reflexivity.
Qed.

Lemma accept_then_disconnect_restores_witness :
  exists c h1 h2,
    websocket_endpoint_accept three_subscribers = (Return c, h1)
    /\ websocket_endpoint_disconnect c h1 = (Return tt, h2)
    /\ clients h2 = [0; 1; 2]%nat.
Proof.
  destruct (proj1 accept_then_disconnect_restores three_subscribers
              three_subscribers_reachable)
    as (c & h1 & h2 & Ha & Hd & Hc & _).
  exists c, h1, h2. repeat split; assumption.
Defined.

(** X10.  Two broadcasts in a row reach every subscriber in the order they
    were made: with all connections open, each registered subscriber has
    received the first payload and then the second, after what it had. *)
Theorem broadcasts_arrive_in_order :
  forall h a b,
    reachable h ->
    (forall c, c ∈ clients h -> c ∉ closed h) ->
    exists h1 h2,
      broadcast_payment_status a h = (Return tt, h1)
      /\ broadcast_payment_status b h1 = (Return tt, h2)
      /\ forall c, c ∈ clients h -> received h2 c = received h c ++ [a; b].
Proof.
  intros h a b Hr Hopen.
  destruct (broadcast_spec a h (reachable_inv _ Hr))
    as (h1 & Hrun1 & Hcs1 & Hcl1 & _ & Hin1 & _).
  rewrite (open_prefix_all _ _ Hopen) in Hrun1, Hin1.
  rewrite decide_True in Hrun1 by reflexivity.
  assert (Hr1 : reachable h1).
  { eapply reachable_step; [exact Hr|]. eapply step_broadcast. exact Hrun1. }
  assert (Hopen1 : forall c, c ∈ clients h1 -> c ∉ closed h1).
  { intros c Hc. rewrite Hcl1. apply Hopen. rewrite <- Hcs1. exact Hc. }
  destruct (broadcast_spec b h1 (reachable_inv _ Hr1))
    as (h2 & Hrun2 & _ & _ & _ & Hin2 & _).
  rewrite (open_prefix_all _ _ Hopen1) in Hrun2, Hin2.
  rewrite decide_True in Hrun2 by reflexivity.
  exists h1, h2. split; [exact Hrun1|]. split; [exact Hrun2|].
  intros c Hc. rewrite Hin2 by (rewrite Hcs1; exact Hc).
  rewrite (Hin1 c Hc), <- app_assoc. reflexivity.
Qed.

Lemma broadcasts_arrive_in_order_witness :
  exists h1 h2,
    broadcast_payment_status (VStr "first") three_subscribers = (Return tt, h1)
    /\ broadcast_payment_status (VStr "second") h1 = (Return tt, h2)
    /\ received h2 1%nat = [VStr "first"; VStr "second"].
Proof.
  destruct (broadcasts_arrive_in_order three_subscribers (VStr "first")
              (VStr "second") three_subscribers_reachable)
    as (h1 & h2 & H1 & H2 & Hrecv).
  - intros c _. apply not_elem_of_empty.
  - exists h1, h2. split; [exact H1|]. split; [exact H2|].
    apply Hrecv. simpl. repeat constructor.
Defined.

(** X11.  Broadcasting works again once the handler of the connection that
    went away has run its disconnect clause: with that connection the only
    closed one, the clause removes it and keeps the others in their order,
    and the next broadcast returns and reaches every one of them. *)
Theorem broadcast_recovers_after_disconnect :
  forall h data pre c post,
    reachable h ->
    clients h = pre ++ c :: post ->
    c ∈ closed h ->
    (forall x, x ∈ pre ++ post -> x ∉ closed h) ->
    exists h1 h2,
      websocket_endpoint_disconnect c h = (Return tt, h1)
      /\ clients h1 = pre ++ post
      /\ broadcast_payment_status data h1 = (Return tt, h2)
      /\ forall x, x ∈ pre ++ post -> received h2 x = received h x ++ [data].
Proof.
  intros h data pre c post Hr Hcs Hc Hopen.
  destruct (reachable_inv _ Hr) as (Hnd & _).
  rewrite Hcs in Hnd. apply NoDup_app in Hnd. destruct Hnd as (_ & Hdisj & Hnd2).
  assert (Hcpre : c ∉ pre).
  { intros Hin. apply (Hdisj c Hin). left. }
  set (h1 := {| clients := pre ++ post; inbox := inbox h; closed := closed h;
                next_ws := next_ws h |}).
  assert (Hdis : websocket_endpoint_disconnect c h = (Return tt, h1)).
  { unfold websocket_endpoint_disconnect. rewrite Hcs.
    rewrite (list_remove_middle _ _ _ Hcpre). reflexivity. }
  assert (Hr1 : reachable h1).
  { eapply reachable_step; [exact Hr|]. eapply step_disconnect; eassumption. }
  destruct (broadcast_spec data h1 (reachable_inv _ Hr1))
    as (h2 & Hrun & _ & _ & _ & Hin & _).
  assert (Hopen1 : forall x, x ∈ clients h1 -> x ∉ closed h1) by exact Hopen.
  rewrite (open_prefix_all _ _ Hopen1) in Hrun, Hin.
  rewrite decide_True in Hrun by reflexivity.
  exists h1, h2. split; [exact Hdis|]. split; [reflexivity|].
  split; [exact Hrun|]. intros x Hx. apply (Hin x Hx).
Qed.

Lemma broadcast_recovers_after_disconnect_witness :
  exists h1 h2,
    websocket_endpoint_disconnect 1%nat second_gone = (Return tt, h1)
    /\ clients h1 = [0; 2]%nat
    /\ broadcast_payment_status (VStr "paid") h1 = (Return tt, h2)
    /\ received h2 2%nat = [VStr "paid"].
Proof.
  destruct (broadcast_recovers_after_disconnect second_gone (VStr "paid")
              [0%nat] 1%nat [2%nat] second_gone_reachable eq_refl)
    as (h1 & h2 & Hd & Hc & Hb & Hrecv).
  - apply closed_second_gone. reflexivity.
  - intros x Hx. rewrite closed_second_gone. intros ->.
    apply elem_of_cons in Hx. destruct Hx as [Hx|Hx]; [discriminate|].
    apply list_elem_of_singleton in Hx. discriminate.
  - exists h1, h2. split; [exact Hd|]. split; [exact Hc|]. split; [exact Hb|].
    apply Hrecv. simpl. repeat constructor.
Defined.

End HubMore.

(** ** The replay guard, continued (api/security_middleware.py) *)

Section ReplayGuardMore.
Import Py security_middleware.
Context {RT : Runtime}.

(** What the middleware raises by itself. *)
Definition guard_rejection (e : exn) : Prop :=
  (exists detail, e = HTTPException 400 detail)
  \/ (exists detail, e = HTTPException 403 detail)
  \/ e = TypeError.

(** X12.  The three ways through the middleware.  A request to a path that
    is not protected goes to the application with the log untouched.  A
    request to a protected path either goes to the application after exactly
    one line naming its merchant key has been logged, or is rejected by the
    middleware with status 400 or 403 (or the uncaught [TypeError] of a
    timestamp without an offset):
    then nothing is logged, and the outcome is the same whatever the
    application is, which has not been called. *)
Theorem guard_forwards_or_rejects :
  forall utc_now request log,
    (is_protected (path request) = false
     /\ forall Response (call_next : Request -> result Response),
          guard Response call_next utc_now request log
          = (call_next request, log))
    \/ (is_protected (path request) = true
        /\ ((exists key,
               headers_get "x-merchant-key" (headers request) = Some key
               /\ forall Response (call_next : Request -> result Response),
                    guard Response call_next utc_now request log
                    = (call_next request, log ++ [log_line request key]))
            \/ (exists e,
                  guard_rejection e
                  /\ forall Response (call_next : Request -> result Response),
                       guard Response call_next utc_now request log
                       = (Raise e, log)))).
Proof.
  intros utc_now request log.
  destruct (is_protected (path request)) eqn:Hp.
  - right. split; [reflexivity|].
    destruct (headers_get "x-merchant-key" (headers request)) as [key|] eqn:Hk.
    2:{ right. eexists. split; [left; eauto|]. intros Response call_next.
        unfold guard, payment_security_middleware.
        rewrite (protected_is_api _ Hp), Hp, Hk. reflexivity. }
    destruct (String.eqb key "") eqn:Hke.
    { right. eexists. split; [left; eauto|]. intros Response call_next.
      unfold guard, payment_security_middleware.
      rewrite (protected_is_api _ Hp), Hp, Hk. simpl. rewrite Hke. reflexivity. }
    destruct (headers_get "x-request-timestamp" (headers request)) as [ts|] eqn:Ht.
    2:{ right. eexists. split; [left; eauto|]. intros Response call_next.
        unfold guard, payment_security_middleware.
        rewrite (protected_is_api _ Hp), Hp, Hk, Ht. simpl. rewrite Hke.
        reflexivity. }
    destruct (String.eqb ts "") eqn:Hte.
    { right. eexists. split; [left; eauto|]. intros Response call_next.
      unfold guard, payment_security_middleware.
      rewrite (protected_is_api _ Hp), Hp, Hk, Ht. simpl. rewrite Hke, Hte.
      reflexivity. }
    apply String.eqb_neq in Hke, Hte.
    destruct (REGISTERED_MERCHANTS !! key) as [m|] eqn:Hm.
    2:{ right. eexists. split; [right; left; eauto|]. intros Response call_next.
        unfold guard, payment_security_middleware.
        rewrite (protected_is_api _ Hp), Hp, Hk, Ht. simpl negb. cbv iota.
        rewrite (present_some _ Hke), (present_some _ Hte). simpl.
        rewrite Hm. reflexivity. }
    assert (Hwk : well_keyed request key ts).
    { split; eauto. }
    destruct (fromisoformat (replace_Z ts)) as [[t|t]|] eqn:Hparse.
    + right. exists TypeError. split; [right; right; reflexivity|].
      intros Response call_next.
      rewrite (guard_well_keyed _ _ _ _ _ _ _ Hwk), Hparse. reflexivity.
    + destruct (ALLOWED_TIME_SKEW <? Z.abs (utc_now - t)) eqn:Hskew.
      * right. eexists. split; [left; eauto|]. intros Response call_next.
        rewrite (guard_well_keyed _ _ _ _ _ _ _ Hwk), Hparse. simpl.
        rewrite Hskew. reflexivity.
      * left. exists key. split; [reflexivity|]. intros Response call_next.
        rewrite (guard_well_keyed _ _ _ _ _ _ _ Hwk), Hparse. simpl.
        rewrite Hskew. reflexivity.
    + right. eexists. split; [left; eauto|]. intros Response call_next.
      rewrite (guard_well_keyed _ _ _ _ _ _ _ Hwk), Hparse. reflexivity.
  - left. split; [reflexivity|]. intros Response call_next.
    apply guard_passes_unprotected. exact Hp.
Qed.

(** X13.  The checks run in a fixed order.  On a protected path a missing
    or empty key or timestamp header is answered 400 before the merchant is
    looked up, so also for an unknown merchant; with both headers present an
    unregistered key is answered 403 before the timestamp is read, so also
    for a timestamp that is no date at all. *)
Theorem guard_checks_headers_then_merchant :
  forall Response (call_next : Request -> result Response) utc_now request log,
    is_protected (path request) = true ->
    let key := headers_get "x-merchant-key" (headers request) in
    let ts := headers_get "x-request-timestamp" (headers request) in
    (key = None \/ key = Some "" \/ ts = None \/ ts = Some "" ->
     guard Response call_next utc_now request log
     = (Raise (HTTPException 400
                 (VStr "Missing required headers: Origin, X-Merchant-ID, X-Request-Timestamp")),
        log))
    /\ (forall k t,
           key = Some k -> k <> "" -> ts = Some t -> t <> "" ->
           REGISTERED_MERCHANTS !! k = None ->
           guard Response call_next utc_now request log
           = (Raise (HTTPException 403 (VStr "Invalid merchant ID")), log)).
Proof.
  intros Response call_next utc_now request log Hp key ts.
  unfold guard, payment_security_middleware.
  rewrite (protected_is_api _ Hp), Hp. simpl negb. cbv iota. fold key ts.
  split.
  - intros Hmiss.
    assert (Hfalse : (present key && present ts)%bool = false).
    { destruct Hmiss as [-> | [-> | [-> | ->]]]; try reflexivity;
        apply andb_false_r. }
    rewrite Hfalse. reflexivity.
  - intros k t -> Hk -> Ht Hm.
    rewrite (present_some _ Hk), (present_some _ Ht). simpl. rewrite Hm.
    reflexivity.
Qed.

(** X14.  A protected request of a registered merchant whose timestamp
    carries an offset is forwarded exactly when the timestamp is at most two
    minutes from now, in the past or in the future; any other is answered
    400 and not logged. *)
Theorem guard_window_is_two_minutes_either_side :
  forall Response (call_next : Request -> result Response)
         utc_now request key ts t log,
    well_keyed request key ts ->
    fromisoformat (replace_Z ts) = Some (Aware t) ->
    (guard Response call_next utc_now request log
     = (call_next request, log ++ [log_line request key])
     <-> t - 120 * 1000000 <= utc_now <= t + 120 * 1000000)
    /\ (~ (t - 120 * 1000000 <= utc_now <= t + 120 * 1000000) ->
        guard Response call_next utc_now request log
        = (Raise (HTTPException 400
                    (VStr "Request timestamp too old or in the future")), log)).
Proof.
  intros Response call_next utc_now request key ts t log Hwk Hparse.
  rewrite (guard_well_keyed _ _ _ _ _ _ _ Hwk), Hparse. simpl.
  unfold ALLOWED_TIME_SKEW.
  destruct (2 * 60 * 1000000 <? Z.abs (utc_now - t)) eqn:Hskew.
  - apply Z.ltb_lt in Hskew. split; [split|].
    + intros [= _ Hlog]. exfalso.
      apply (f_equal (@length string)) in Hlog.
      rewrite length_app in Hlog. simpl in Hlog. lia.
    + intros Hin. lia.
    + reflexivity.
  - apply Z.ltb_ge in Hskew. split; [split|].
    + intros _. lia.
    + reflexivity.
    + intros Hout. lia.
Qed.

End ReplayGuardMore.

Section ReplayGuardMoreExamples.
Import Py security_middleware sample.

(** A payment request without any header. *)
Definition bare_request : Request :=
  {| path := "/api/v1/b2c/payment"; method := "POST"; headers := [] |}.

(** A payment request of a registered merchant, stamped 90 seconds before
    noon of 2024-01-20 (UTC). *)
Definition stamped_request : Request :=
  {| path := "/api/v1/b2c/payment";
     method := "POST";
     headers := [("x-merchant-key", "merchant_456");
                 ("x-request-timestamp", "2024-01-20T11:58:30Z")] |}.

Lemma stamped_request_well_keyed :
  well_keyed stamped_request "merchant_456" "2024-01-20T11:58:30Z".
Proof.
  split; try reflexivity; try discriminate.
  unfold REGISTERED_MERCHANTS.
  rewrite lookup_insert_ne by discriminate. rewrite lookup_insert_eq. eauto.
Qed.

Lemma guard_checks_headers_then_merchant_witness :
  guard unit (fun _ => Return tt) 0 bare_request []
  = (Raise (HTTPException 400
              (VStr "Missing required headers: Origin, X-Merchant-ID, X-Request-Timestamp")),
     []).
Proof.
  apply (guard_checks_headers_then_merchant unit (fun _ => Return tt) 0
           bare_request [] eq_refl).
  left. reflexivity.
Defined.

Lemma guard_window_is_two_minutes_either_side_witness :
  guard unit (fun _ => Return tt) 63841348800000000 stamped_request []
  = (Return tt, ["[merchant_456] POST /api/v1/b2c/payment "]).
Proof.
  apply (guard_window_is_two_minutes_either_side unit (fun _ => Return tt)
           63841348800000000 stamped_request "merchant_456"
           "2024-01-20T11:58:30Z" 63841348710000000 []
           stamped_request_well_keyed).
  - vm_compute. reflexivity.
  - lia.
Defined.

End ReplayGuardMoreExamples.

(** ** The callback endpoints, continued (api/routers) *)

Section CallbackBroadcast.
Import Py pydantic routers.
Context {RT : Runtime}.

(** The model the push-result endpoint builds from the request body: the
    statements of [stk_push_callback] up to the constructor call. *)
Definition stk_callback_data (request_json : result pyval)
  : result stk_schemas.STKPushCallback :=
  rbind request_json (fun body =>
  rbind (py_get body "Body" (VDict [])) (fun body_ =>
  rbind (py_get body_ "stkCallback" (VDict [])) (fun stk_callback =>
  rbind (py_get stk_callback "MerchantRequestID" VNone) (fun merchant_request_id =>
  rbind (py_get stk_callback "CheckoutRequestID" VNone) (fun checkout_request_id =>
  rbind (py_get stk_callback "ResultCode" VNone) (fun result_code =>
  rbind (py_get stk_callback "ResultDesc" VNone) (fun result_desc =>
  rbind (py_get stk_callback "CallbackMetadata" VNone) (fun callback_metadata =>
  stk_schemas.STKPushCallback_init merchant_request_id checkout_request_id
    result_code result_desc callback_metadata)))))))).

(** Likewise for [b2c_result_callback]. *)
Definition b2c_callback_data (request_json : result pyval)
  : result b2c_schemas.B2CCallback :=
  rbind request_json (fun body =>
  rbind (py_get body "Result" (VDict [])) (fun result =>
  rbind (py_get result "ConversationID" VNone) (fun conversation_id =>
  rbind (py_get result "OriginatorConversationID" VNone) (fun originator =>
  rbind (py_get result "TransactionID" VNone) (fun transaction_id =>
  rbind (py_get result "ResultCode" VNone) (fun result_code =>
  rbind (py_get result "ResultDesc" VNone) (fun result_desc =>
  rbind (py_get result "ResultType" VNone) (fun result_type =>
  rbind (py_get result "ResultParameters" VNone) (fun result_parameters =>
  rbind (py_get result "ReferenceData" VNone) (fun reference_data =>
  b2c_schemas.B2CCallback_init conversation_id originator transaction_id
    result_code result_desc result_type result_parameters
    reference_data)))))))))).

(** What is sent to the subscribers for a disbursement result. *)
Definition b2c_result_frame (cb : b2c_schemas.B2CCallback) : pyval :=
  VDict [("type", VStr "b2c_result"); ("data", b2c_schemas.model_dump cb)].

Definition b2c_timeout_frame (body : pyval) : pyval :=
  VDict [("type", VStr "b2c_timeout"); ("data", body)].

(** The state after a handler has printed [o]. *)
Definition printed (o : output) (a : app) : app :=
  {| hub := hub a; stdout := stdout a ++ [o]; now := now a |}.

(** A computation that leaves the hub alone. *)
Definition keeps_hub {A} (m : M app A) : Prop :=
  forall a, hub (snd (m a)) = hub a.

Lemma keeps_hub_print o : keeps_hub (print o).
Proof. intros a. reflexivity. Qed.

Lemma keeps_hub_ret {A} (x : A) : keeps_hub (ret x : M app A).
Proof. intros a. reflexivity. Qed.

Lemma keeps_hub_lift {A} (r : result A) : keeps_hub (lift r : M app A).
Proof. intros a. reflexivity. Qed.

Lemma keeps_hub_bind {A B} (m : M app A) (k : A -> M app B) :
  keeps_hub m -> (forall x, keeps_hub (k x)) -> keeps_hub (bind m k).
Proof.
  intros Hm Hk a. unfold bind. specialize (Hm a).
  destruct (m a) as [[x|e] a1]; simpl in Hm.
  - rewrite (Hk x a1). exact Hm.
  - exact Hm.
Qed.

Lemma keeps_hub_init msg d : keeps_hub (SuccessResponse_init msg d).
Proof.
  intros a. unfold SuccessResponse_init, bind, lift.
  destruct (validate_optional_dict d); reflexivity.
Qed.

Lemma keeps_hub_try {A} (body : M app A) (handler : exn -> M app A) :
  keeps_hub body -> (forall e, keeps_hub (handler e)) ->
  keeps_hub (try_except body handler).
Proof.
  intros Hb Hh a. unfold try_except. specialize (Hb a).
  destruct (body a) as [[x|e] a1]; simpl in Hb.
  - exact Hb.
  - rewrite (Hh e a1). exact Hb.
Qed.

Lemma keeps_hub_stk_process cb : keeps_hub (stk_process_result cb).
Proof.
  unfold stk_process_result.
  destruct (stk_schemas.result_code cb =? 0); [|apply keeps_hub_print].
  apply keeps_hub_bind; [apply keeps_hub_print|intros _].
  destruct (stk_schemas.callback_metadata cb) as [[|kv md]|];
    try apply keeps_hub_ret.
  repeat (apply keeps_hub_bind; [apply keeps_hub_lift|intros ?]).
  apply keeps_hub_print.
Qed.

Lemma keeps_hub_b2c_process cb : keeps_hub (b2c_process_result cb).
Proof.
  unfold b2c_process_result.
  destruct (b2c_schemas.result_code cb =? 0).
  - apply keeps_hub_bind; [apply keeps_hub_print|intros _].
    destruct (b2c_schemas.result_parameters cb) as [[|kv rp]|];
      try apply keeps_hub_ret.
    repeat (apply keeps_hub_bind;
            [first [apply keeps_hub_lift|apply keeps_hub_print]|intros ?]).
    apply keeps_hub_print.
  - repeat (apply keeps_hub_bind; [apply keeps_hub_print|intros ?]).
    destruct (_ =? 2001); [apply keeps_hub_print|apply keeps_hub_ret].
Qed.

Lemma keeps_hub_except (line : exn -> output) e :
  keeps_hub (bind (print (line e))
               (fun _ => SuccessResponse_init "Callback received"
                           (VDict [("error", VStr (exn_str e))]))).
Proof. intros a. reflexivity. Qed.

(** The hub after a broadcast followed by steps that leave it alone. *)
Lemma hub_after_broadcast {A} frame (k : M app A) a :
  keeps_hub k ->
  hub (snd (bind (broadcast_payment_status frame) (fun _ => k) a))
  = snd (websocket.broadcast_payment_status frame (hub a)).
Proof.
  intros Hk. unfold bind, broadcast_payment_status.
  destruct (websocket.broadcast_payment_status frame (hub a)) as [[[]|e] h].
  - rewrite Hk. reflexivity.
  - reflexivity.
Qed.

(** The push-result endpoint, split at the constructor call. *)
Lemma stk_body_split request_json a :
  stk_push_callback_body request_json a
  = match stk_callback_data request_json with
    | Raise e => (Raise e, a)
    | Return cb =>
        bind (broadcast_payment_status (stk_schemas.model_dump cb))
          (fun _ => bind (stk_process_result cb)
                      (fun _ => SuccessResponse_init "Callback received successfully"
                                  (stk_schemas.model_dump cb))) a
    end.
Proof.
  unfold stk_push_callback_body, stk_callback_data.
  destruct request_json as [body|e]; [|reflexivity].
  unfold bind at 1. unfold lift at 1. cbn [rbind].
  destruct (py_get body "Body" (VDict [])) as [body_|e]; [|reflexivity].
  unfold bind at 1. unfold lift at 1. cbn [rbind].
  destruct (py_get body_ "stkCallback" (VDict [])) as [sc|e]; [|reflexivity].
  unfold bind at 1. unfold lift at 1. cbn [rbind].
  destruct sc; reflexivity.
Qed.

Lemma b2c_body_split request_json a :
  b2c_result_callback_body request_json a
  = match b2c_callback_data request_json with
    | Raise e => (Raise e, a)
    | Return cb =>
        bind (broadcast_payment_status (b2c_result_frame cb))
          (fun _ => bind (b2c_process_result cb)
                      (fun _ => SuccessResponse_init
                                  "Result callback received successfully"
                                  (b2c_schemas.model_dump cb))) a
    end.
Proof.
  unfold b2c_result_callback_body, b2c_callback_data.
  destruct request_json as [body|e]; [|reflexivity].
  unfold bind at 1. unfold lift at 1. cbn [rbind].
  destruct (py_get body "Result" (VDict [])) as [res|e]; [|reflexivity].
  unfold bind at 1. unfold lift at 1. cbn [rbind].
  destruct res; reflexivity.
Qed.

(** X15.  A result callback is broadcast exactly when its model validates.
    When the body cannot be decoded or a field fails validation, both
    result endpoints answer with the error envelope, print one line and
    leave the hub as it was: no subscriber is sent anything.  When the model
    validates, what the endpoint does to the hub is what one broadcast of
    the model's dump does, whatever the processing after it prints or
    raises. *)
Theorem result_broadcast_iff_model_validates :
  forall (request_json : result pyval) (a : app),
    (forall e,
        stk_callback_data request_json = Raise e ->
        stk_push_callback request_json a
        = (Return (error_envelope e a),
           printed (Line ("Error processing STK callback: " +:+ exn_str e)) a))
    /\ (forall cb,
           stk_callback_data request_json = Return cb ->
           hub (snd (stk_push_callback request_json a))
           = snd (websocket.broadcast_payment_status
                    (stk_schemas.model_dump cb) (hub a)))
    /\ (forall e,
           b2c_callback_data request_json = Raise e ->
           b2c_result_callback request_json a
           = (Return (error_envelope e a),
              printed (Line ("Error processing B2C result callback: "
                             +:+ exn_str e)) a))
    /\ (forall cb,
           b2c_callback_data request_json = Return cb ->
           hub (snd (b2c_result_callback request_json a))
           = snd (websocket.broadcast_payment_status
                    (b2c_result_frame cb) (hub a))).
Proof.
  intros request_json a. split; [|split; [|split]].
  - intros e He. unfold stk_push_callback, try_except.
    rewrite stk_body_split, He. reflexivity.
  - intros cb Hcb. unfold stk_push_callback, try_except.
    rewrite stk_body_split, Hcb.
    pose proof (hub_after_broadcast (stk_schemas.model_dump cb)
                  (bind (stk_process_result cb)
                     (fun _ => SuccessResponse_init "Callback received successfully"
                                 (stk_schemas.model_dump cb))) a) as Hhub.
    destruct (bind (broadcast_payment_status _) _ a) as [[resp|e] a1];
      simpl in Hhub |- *; apply Hhub;
      (apply keeps_hub_bind; [apply keeps_hub_stk_process|intros _];
       apply keeps_hub_init).
  - intros e He. unfold b2c_result_callback, try_except.
    rewrite b2c_body_split, He. reflexivity.
  - intros cb Hcb. unfold b2c_result_callback, try_except.
    rewrite b2c_body_split, Hcb.
    pose proof (hub_after_broadcast (b2c_result_frame cb)
                  (bind (b2c_process_result cb)
                     (fun _ => SuccessResponse_init
                                 "Result callback received successfully"
                                 (b2c_schemas.model_dump cb))) a) as Hhub.
    destruct (bind (broadcast_payment_status _) _ a) as [[resp|e] a1];
      simpl in Hhub |- *; apply Hhub;
      (apply keeps_hub_bind; [apply keeps_hub_b2c_process|intros _];
       apply keeps_hub_init).
Qed.

End CallbackBroadcast.

Section CallbackEdges.
Import Py pydantic routers.
Context {RT : Runtime}.

Lemma broadcast_returns frame a h' :
  websocket.broadcast_payment_status frame (hub a) = (Return tt, h') ->
  broadcast_payment_status frame a
  = (Return tt, {| hub := h'; stdout := stdout a; now := now a |}).
Proof. intros Hb. unfold broadcast_payment_status. rewrite Hb. reflexivity. Qed.

(** X16.  The push-result endpoint broadcasts before it reads the metadata,
    and reads it more strictly than the model's accessors do.  For a
    successful payment whose first metadata item is a dict without [Name],
    the subscribers are sent the result, and then [item["Name"]] raises
    [KeyError]: the provider is answered with the error envelope.  The
    accessors of the model, which use [item.get('Name')], skip that item. *)
Theorem nameless_item_fails_after_broadcast :
  forall request_json a cb md d rest h',
    stk_callback_data request_json = Return cb ->
    stk_schemas.result_code cb = 0 ->
    stk_schemas.callback_metadata cb = Some md ->
    assoc "Item" md = Some (VList (VDict d :: rest)) ->
    assoc "Name" d = None ->
    websocket.broadcast_payment_status (stk_schemas.model_dump cb) (hub a)
    = (Return tt, h') ->
    fst (stk_push_callback request_json a) = Return (error_envelope KeyError a)
    /\ hub (snd (stk_push_callback request_json a)) = h'
    /\ stk_schemas.amount cb
       = stk_schemas.first_named "Amount" stk_schemas.float_value rest
    /\ stk_schemas.phone_number cb
       = stk_schemas.first_named "PhoneNumber" stk_schemas.str_value rest.
Proof.
  intros request_json a cb md d rest h' Hcb Hcode Hmd Hitem Hname Hb.
  assert (Hne : md <> []) by (intros ->; discriminate Hitem).
  assert (Hrun : exists out,
             stk_push_callback request_json a
             = (Return (error_envelope KeyError a),
                {| hub := h'; stdout := out; now := now a |})).
  { unfold stk_push_callback, try_except. rewrite stk_body_split, Hcb.
    unfold bind at 1. rewrite (broadcast_returns _ _ _ Hb).
    unfold bind at 1. unfold stk_process_result. rewrite Hcode, Hmd.
    change (0 =? 0) with true. cbv iota.
    unfold bind at 1. rewrite print_stdout.
    destruct md as [|kv md']; [contradiction|].
    unfold get_or_empty_list. rewrite Hitem.
    unfold bind, lift. cbn [stk_schemas.py_iter details_of py_getitem].
    rewrite Hname. cbn [rbind]. eexists. reflexivity. }
  destruct Hrun as (out & ->).
  split; [reflexivity|]. split; [reflexivity|].
  unfold stk_schemas.amount, stk_schemas.phone_number, stk_schemas.scan_metadata.
  rewrite Hmd. destruct md as [|kv md']; [contradiction|]. rewrite Hitem.
  cbn [rbind stk_schemas.py_iter stk_schemas.first_named py_get].
  rewrite Hname. split; reflexivity.
Qed.

(** X17.  The timeout endpoint broadcasts the decoded body as it is, before
    the response model validates it.  Whatever the body, the hub is changed
    as one broadcast of the timeout frame changes it.  When the broadcast
    returns, a body that is a JSON object or null is acknowledged with the
    body as data; any other body (a list, a string, a number) has been
    broadcast all the same, and is answered with the error envelope. *)
Theorem timeout_body_is_broadcast_unvalidated :
  forall body a,
    hub (snd (b2c_timeout_callback (Return body) a))
    = snd (websocket.broadcast_payment_status (b2c_timeout_frame body) (hub a))
    /\ (forall h',
           websocket.broadcast_payment_status (b2c_timeout_frame body) (hub a)
           = (Return tt, h') ->
           (forall d, body = VDict d ->
                      fst (b2c_timeout_callback (Return body) a)
                      = Return {| message := "Timeout callback received successfully";
                                  data := Some d; timestamp := now a |})
           /\ (body = VNone ->
               fst (b2c_timeout_callback (Return body) a)
               = Return {| message := "Timeout callback received successfully";
                           data := None; timestamp := now a |})
           /\ (body <> VNone -> (forall d, body <> VDict d) ->
               fst (b2c_timeout_callback (Return body) a)
               = Return (error_envelope ValidationError a))).
Proof.
  intros body a. split.
  - unfold b2c_timeout_callback, b2c_timeout_callback_body, try_except.
    unfold bind at 1. unfold lift at 1.
    unfold bind at 1. rewrite print_stdout.
    unfold bind at 1. rewrite print_stdout.
    unfold bind at 1. unfold broadcast_payment_status. cbn [hub stdout now].
    fold (b2c_timeout_frame body).
    destruct (websocket.broadcast_payment_status (b2c_timeout_frame body) (hub a))
      as [[[]|e] h]; [|reflexivity].
    unfold SuccessResponse_init, bind, lift.
    destruct (validate_optional_dict body); reflexivity.
  - intros h' Hb.
    assert (Hrun : b2c_timeout_callback (Return body) a
                   = try_except
                       (SuccessResponse_init "Timeout callback received successfully" body)
                       b2c_timeout_callback_except
                       {| hub := h';
                          stdout := (stdout a ++ [Line "B2C Payment timeout received"])
                                    ++ [LineValue "Timeout data: " body];
                          now := now a |}).
    { unfold b2c_timeout_callback, b2c_timeout_callback_body, try_except.
      unfold bind at 1. unfold lift at 1.
      unfold bind at 1. rewrite print_stdout.
      unfold bind at 1. rewrite print_stdout.
      unfold bind at 1. unfold broadcast_payment_status. cbn [hub stdout now].
      fold (b2c_timeout_frame body). rewrite Hb. reflexivity. }
    rewrite Hrun. split; [|split].
    + intros d ->. reflexivity.
    + intros ->. reflexivity.
    + intros Hnone Hdict. destruct body; try reflexivity.
      * contradiction.
      * exfalso. apply (Hdict d). reflexivity.
Qed.

Lemma validate_int_none :
  lax_int VNone = None -> validate_int VNone = Raise ValidationError.
Proof. intros H. unfold validate_int. rewrite H. reflexivity. Qed.

Lemma validate_str_raises v e :
  validate_str v = Raise e -> e = ValidationError.
Proof. destruct v; simpl; congruence. Qed.

Lemma validate_optional_str_raises v e :
  validate_optional_str v = Raise e -> e = ValidationError.
Proof. destruct v; simpl; congruence. Qed.

Lemma validate_optional_dict_raises v e :
  validate_optional_dict v = Raise e -> e = ValidationError.
Proof. destruct v; simpl; congruence. Qed.

Lemma validate_int_raises v e :
  validate_int v = Raise e -> e = ValidationError.
Proof.
  unfold validate_int. destruct v; try congruence;
    destruct (lax_int _); congruence.
Qed.

Lemma stk_init_without_code m c rd md :
  lax_int VNone = None ->
  stk_schemas.STKPushCallback_init m c VNone rd md = Raise ValidationError.
Proof.
  intros Hlax. unfold stk_schemas.STKPushCallback_init.
  destruct (validate_str m) eqn:Hm; cbn [rbind];
    [|f_equal; eapply validate_str_raises; eassumption].
  destruct (validate_str c) eqn:Hc; cbn [rbind];
    [|f_equal; eapply validate_str_raises; eassumption].
  rewrite (validate_int_none Hlax). reflexivity.
Qed.

Lemma b2c_init_raises ci oi ti rc rd rt rp rf e :
  b2c_schemas.B2CCallback_init ci oi ti rc rd rt rp rf = Raise e ->
  e = ValidationError.
Proof.
  unfold b2c_schemas.B2CCallback_init.
  destruct (validate_optional_str ci) eqn:H1; cbn [rbind];
    [|intros [= <-]; eapply validate_optional_str_raises; eassumption].
  destruct (validate_optional_str oi) eqn:H2; cbn [rbind];
    [|intros [= <-]; eapply validate_optional_str_raises; eassumption].
  destruct (validate_optional_str ti) eqn:H3; cbn [rbind];
    [|intros [= <-]; eapply validate_optional_str_raises; eassumption].
  destruct (validate_int rc) eqn:H4; cbn [rbind];
    [|intros [= <-]; eapply validate_int_raises; eassumption].
  destruct (validate_str rd) eqn:H5; cbn [rbind];
    [|intros [= <-]; eapply validate_str_raises; eassumption].
  destruct (validate_int rt) eqn:H6; cbn [rbind];
    [|intros [= <-]; eapply validate_int_raises; eassumption].
  destruct (validate_optional_dict rp) eqn:H7; cbn [rbind];
    [|intros [= <-]; eapply validate_optional_dict_raises; eassumption].
  destruct (validate_optional_dict rf) eqn:H8; cbn [rbind];
    [|intros [= <-]; eapply validate_optional_dict_raises; eassumption].
  discriminate.
Qed.

Lemma b2c_init_without_int ci oi ti rc rd rt rp rf :
  lax_int VNone = None ->
  rc = VNone \/ rt = VNone ->
  b2c_schemas.B2CCallback_init ci oi ti rc rd rt rp rf = Raise ValidationError.
Proof.
  intros Hlax Hmiss.
  destruct (b2c_schemas.B2CCallback_init ci oi ti rc rd rt rp rf) as [cb|e] eqn:Hinit.
  - exfalso. revert Hinit. unfold b2c_schemas.B2CCallback_init.
    destruct (validate_optional_str ci); cbn [rbind]; [|discriminate].
    destruct (validate_optional_str oi); cbn [rbind]; [|discriminate].
    destruct (validate_optional_str ti); cbn [rbind]; [|discriminate].
    destruct Hmiss as [-> | ->].
    + rewrite (validate_int_none Hlax). discriminate.
    + destruct (validate_int rc); cbn [rbind]; [|discriminate].
      destruct (validate_str rd); cbn [rbind]; [|discriminate].
      rewrite (validate_int_none Hlax). discriminate.
  - f_equal. eapply b2c_init_raises. exact Hinit.
Qed.

(** X18.  A result callback needs its integer fields.  Where pydantic does
    not take [None] for an [int], a push result whose [stkCallback] has no
    [ResultCode], and a disbursement result whose [Result] has no
    [ResultCode] or no [ResultType], fail validation: the endpoint answers
    with the error envelope for [ValidationError] and sends the subscribers
    nothing. *)
Theorem result_without_code_is_not_broadcast :
  forall body d a,
    lax_int VNone = None ->
    (py_get body "Body" (VDict []) = Return (VDict [("stkCallback", VDict d)]) ->
     assoc "ResultCode" d = None ->
     fst (stk_push_callback (Return body) a)
     = Return (error_envelope ValidationError a)
     /\ hub (snd (stk_push_callback (Return body) a)) = hub a)
    /\ (py_get body "Result" (VDict []) = Return (VDict d) ->
        assoc "ResultCode" d = None \/ assoc "ResultType" d = None ->
        fst (b2c_result_callback (Return body) a)
        = Return (error_envelope ValidationError a)
        /\ hub (snd (b2c_result_callback (Return body) a)) = hub a).
Proof.
  intros body d a Hlax. split.
  - intros Hbody Hcode.
    assert (Hdata : stk_callback_data (Return body) = Raise ValidationError).
    { unfold stk_callback_data. cbn [rbind]. rewrite Hbody.
      cbn [rbind py_get assoc String.eqb Ascii.eqb Bool.eqb].
      cbn [rbind]. rewrite Hcode. apply (stk_init_without_code _ _ _ _ Hlax). }
    unfold stk_push_callback, try_except. rewrite stk_body_split, Hdata.
    split; reflexivity.
  - intros Hbody Hmiss.
    assert (Hdata : b2c_callback_data (Return body) = Raise ValidationError).
    { unfold b2c_callback_data. cbn [rbind]. rewrite Hbody.
      cbn [rbind py_get].
      apply (b2c_init_without_int _ _ _ _ _ _ _ _ Hlax).
      destruct Hmiss as [-> | ->]; [left|right]; reflexivity. }
    unfold b2c_result_callback, try_except. rewrite b2c_body_split, Hdata.
    split; reflexivity.
Qed.

End CallbackEdges.

Section CallbackEdgeExamples.
Import Py pydantic routers sample.

(** A server nobody is connected to. *)
Definition quiet_server : app :=
  {| hub := websocket.initial; stdout := []; now := 63841343400000000 |}.

(** A successful push result whose only metadata item has no [Name]. *)
Definition nameless_item_result : pyval :=
  VDict [("Body",
          VDict [("stkCallback",
                  VDict [("MerchantRequestID", VStr "29115-34620561-1");
                         ("CheckoutRequestID", VStr "ws_CO_191220191020363925");
                         ("ResultCode", VInt 0);
                         ("ResultDesc", VStr "The service request is processed successfully.");
                         ("CallbackMetadata",
                          VDict [("Item", VList [VDict [("Value", VInt 100)]])])])])].

Lemma nameless_item_fails_after_broadcast_witness :
  fst (stk_push_callback (Return nameless_item_result) quiet_server)
  = Return (error_envelope KeyError quiet_server)
  /\ stk_schemas.amount
       {| stk_schemas.merchant_request_id := "29115-34620561-1";
          stk_schemas.checkout_request_id := "ws_CO_191220191020363925";
          stk_schemas.result_code := 0;
          stk_schemas.result_desc := "The service request is processed successfully.";
          stk_schemas.callback_metadata :=
            Some [("Item", VList [VDict [("Value", VInt 100)]])] |}
     = Return None.
Proof.
  destruct (nameless_item_fails_after_broadcast (RT:=sample.runtime)
              (Return nameless_item_result) quiet_server
              {| stk_schemas.merchant_request_id := "29115-34620561-1";
                 stk_schemas.checkout_request_id := "ws_CO_191220191020363925";
                 stk_schemas.result_code := 0;
                 stk_schemas.result_desc := "The service request is processed successfully.";
                 stk_schemas.callback_metadata :=
                   Some [("Item", VList [VDict [("Value", VInt 100)]])] |}
              [("Item", VList [VDict [("Value", VInt 100)]])]
              [("Value", VInt 100)] [] websocket.initial
              eq_refl eq_refl eq_refl eq_refl eq_refl eq_refl)
    as (Hresp & _ & Hamount & _).
  split; [exact Hresp|exact Hamount].
Defined.

Lemma result_without_code_is_not_broadcast_witness :
  fst (b2c_result_callback (Return (VDict [])) quiet_server)
  = Return (error_envelope ValidationError quiet_server).
Proof.
  destruct (result_without_code_is_not_broadcast (RT:=sample.runtime)
              (VDict []) [] quiet_server eq_refl) as [_ Hb2c].
  destruct (Hb2c eq_refl (or_introl eq_refl)) as [Hresp _].
  exact Hresp.
Defined.

End CallbackEdgeExamples.

(** ** The request validators (api/models) and [format_phone_number] *)

Section RequestValidators.
Import Py utils spec.
Import b2c_schemas.B2CPaymentRequest.

(** The digit strings [validate_phone] accepts. *)
Definition accepted_digits (s : string) : bool :=
  let n := String.length s in
  ((Nat.eqb n 10 && startswith s "0") || (Nat.eqb n 12 && startswith s "254"))%bool.

Lemma digits_not_space s :
  all_chars is_digit s = true ->
  all_chars (fun c => negb (isspace c)) s = true.
Proof.
  induction s as [|c s IH]; [reflexivity|].
  cbn [all_chars]. intros H. apply andb_true_iff in H. destruct H as [Hc Hs].
  rewrite (IH Hs), andb_true_r.
  unfold is_digit in Hc. unfold isspace.
  apply andb_true_iff in Hc. destruct Hc as [H1 H2].
  apply Nat.leb_le in H1, H2.
  apply negb_true_iff.
  repeat (apply orb_false_iff; split);
    first [apply andb_false_iff; right; apply Nat.leb_gt; lia
          |apply Nat.eqb_neq; lia].
Qed.

Lemma lstrip_no_space s :
  all_chars (fun c => negb (isspace c)) s = true -> lstrip s = s.
Proof.
  destruct s as [|c s]; [reflexivity|].
  cbn [all_chars lstrip]. intros H. apply andb_true_iff in H.
  destruct H as [Hc _]. apply negb_true_iff in Hc. rewrite Hc. reflexivity.
Qed.

Lemma rstrip_no_space s :
  all_chars (fun c => negb (isspace c)) s = true -> rstrip s = s.
Proof.
  induction s as [|c s IH]; [reflexivity|].
  cbn [all_chars rstrip]. intros H. apply andb_true_iff in H.
  destruct H as [Hc Hs]. apply negb_true_iff in Hc.
  rewrite (IH Hs), Hc. destruct s; reflexivity.
Qed.

Lemma remove_char_digits x s :
  is_digit x = false -> all_chars is_digit s = true -> remove_char x s = s.
Proof.
  intros Hx. induction s as [|c s IH]; [reflexivity|].
  cbn [all_chars remove_char]. intros H. apply andb_true_iff in H.
  destruct H as [Hc Hs]. rewrite (IH Hs).
  destruct (Ascii.eqb c x) eqn:E; [|reflexivity].
  apply Ascii.eqb_eq in E. subst c. rewrite Hx in Hc. discriminate Hc.
Qed.

Lemma validate_phone_digits s :
  all_chars is_digit s = true ->
  validate_phone s
  = if accepted_digits s then Return (with_country_code s) else Raise ValueError.
Proof.
  intros Hs. unfold validate_phone, strip.
  rewrite (lstrip_no_space _ (digits_not_space _ Hs)).
  rewrite (rstrip_no_space _ (digits_not_space _ Hs)).
  rewrite (remove_char_digits " " s eq_refl Hs).
  rewrite (remove_char_digits "-" s eq_refl Hs).
  rewrite (remove_char_digits "+" s eq_refl Hs).
  unfold accepted_digits, with_country_code.
  destruct (startswith s "0") eqn:H0.
  - rewrite (startswith_0_not_254 _ H0).
    assert (Hne : s <> EmptyString) by (intros ->; discriminate H0).
    change (startswith ("254" +:+ slice_from_1 s) "254") with true.
    cbn [negb]. rewrite string_length_append, (slice_from_1_length _ Hne).
    rewrite !andb_false_r, !andb_true_r, !orb_false_r.
    change (String.length "254") with 3%nat.
    destruct (String.length (slice_from_1 s)) as [|[|[|[|[|[|[|[|[|[|n]]]]]]]]]];
      reflexivity.
  - rewrite !andb_false_r. cbn [orb].
    destruct (startswith s "254"); cbn [negb];
      [|rewrite andb_false_r; reflexivity].
    rewrite andb_true_r.
    destruct (Nat.eqb (String.length s) 12); reflexivity.
Qed.

(** X20.  On a string of digits [validate_phone] accepts ten digits with a
    leading 0 (the 0 becomes 254) and twelve digits that begin with 254
    (unchanged), and nothing else; what it returns is what
    [format_phone_number] makes of the same input.  A local number of nine
    digits, which [format_phone_number] would take, is refused. *)
Theorem validate_phone_on_digits :
  forall s : string,
    all_chars is_digit s = true ->
    validate_phone s
    = (if accepted_digits s then Return (with_country_code s) else Raise ValueError)
    /\ (forall r, validate_phone s = Return r -> format_phone_number s = Return r)
    /\ (String.length s = 9%nat -> validate_phone s = Raise ValueError).
Proof.
  intros s Hs. rewrite (validate_phone_digits _ Hs). split; [reflexivity|].
  split.
  - rewrite (format_digits _ Hs). unfold accepted_digits, dialable.
    destruct (Nat.eqb (String.length s) 10 && startswith s "0")%bool;
      [intros r H; exact H|].
    destruct (Nat.eqb (String.length s) 12 && startswith s "254")%bool;
      [intros r H; exact H|].
    intros r H. discriminate H.
  - intros Hl. unfold accepted_digits. rewrite Hl. reflexivity.
Qed.

Lemma validate_phone_on_digits_witness :
  validate_phone "0708374149" = Return "254708374149"
  /\ format_phone_number "0708374149" = Return "254708374149"
  /\ validate_phone "708374149" = Raise ValueError.
Proof.
  destruct (validate_phone_on_digits "0708374149" eq_refl) as (Hv & Hf & _).
  destruct (validate_phone_on_digits "708374149" eq_refl) as (_ & _ & H9).
  split; [exact Hv|]. split; [exact (Hf _ Hv)|exact (H9 eq_refl)].
Defined.

End RequestValidators.

(** ** The accessors of a push result, continued (api/models/stk_schemas.py) *)

Section StkAccessorErrors.
Import Py pydantic stk_schemas.
Context {RT : Runtime}.

(** All four accessors raise [e]. *)
Definition accessors_raise (cb : STKPushCallback) (e : exn) : Prop :=
  amount cb = Raise e
  /\ mpesa_receipt_number cb = Raise e
  /\ transaction_date cb = Raise e
  /\ phone_number cb = Raise e.

(** A value that is no dict: [v.get] is an [AttributeError]. *)
Definition not_a_dict (v : pyval) : Prop := forall d, v <> VDict d.

Lemma py_get_not_a_dict v key default :
  not_a_dict v -> py_get v key default = Raise AttributeError.
Proof. intros Hv. destruct v; try reflexivity. destruct (Hv d eq_refl). Qed.

Lemma scan_metadata_raises {A} cb md v name (extract : pyval -> result A) e :
  callback_metadata cb = Some md ->
  assoc "Item" md = Some v ->
  (forall name, rbind (py_iter v) (first_named name extract) = Raise e) ->
  scan_metadata cb name extract = Raise e.
Proof.
  intros Hmd Hitem Hraise. unfold scan_metadata. rewrite Hmd.
  destruct md as [|kv md']; [discriminate Hitem|].
  rewrite Hitem. apply Hraise.
Qed.

Lemma first_named_not_a_dict {A} name (extract : pyval -> result A) x rest :
  not_a_dict x -> first_named name extract (x :: rest) = Raise AttributeError.
Proof.
  intros Hx. cbn [first_named]. rewrite (py_get_not_a_dict _ _ _ Hx). reflexivity.
Qed.

(** X22.  The accessors of a validated push result can raise: the model
    takes any dict as [callback_metadata], and the accessors iterate over
    its [Item] and call [item.get] without looking at what they have.  With
    an [Item] that is null, a boolean or a number, all four raise
    [TypeError]; with an [Item] that is a list whose first element is not a
    dict, a non-empty string or a non-empty dict, all four raise
    [AttributeError].  An [Amount] item whose [Value] is null makes [amount]
    raise [TypeError], where an item without [Value] gives 0.0. *)
Theorem accessors_raise_on_malformed_metadata :
  forall cb md v,
    callback_metadata cb = Some md ->
    assoc "Item" md = Some v ->
    (v = VNone \/ (exists b, v = VBool b) \/ (exists z, v = VInt z)
     \/ (exists f, v = VFloat f) ->
     accessors_raise cb TypeError)
    /\ (forall x rest, v = VList (x :: rest) -> not_a_dict x ->
                       accessors_raise cb AttributeError)
    /\ (forall c s, v = VStr (String c s) -> accessors_raise cb AttributeError)
    /\ (forall k x d, v = VDict ((k, x) :: d) -> accessors_raise cb AttributeError)
    /\ (forall d rest, v = VList (VDict d :: rest) ->
                       assoc "Name" d = Some (VStr "Amount") ->
                       assoc "Value" d = Some VNone ->
                       amount cb = Raise TypeError).
Proof.
  intros cb md v Hmd Hitem.
  assert (Hall : forall e,
             (forall A (extract : pyval -> result A) name,
                 rbind (py_iter v) (first_named name extract) = Raise e) ->
             accessors_raise cb e).
  { intros e He. unfold accessors_raise, amount, mpesa_receipt_number,
      transaction_date, phone_number.
    repeat split; apply (scan_metadata_raises _ md v); auto. }
  split; [|split; [|split; [|split]]].
  - intros Hv. apply Hall. intros A extract name.
    destruct Hv as [-> | [[b ->] | [[z ->] | [f ->]]]]; reflexivity.
  - intros x rest -> Hx. apply Hall. intros A extract name.
    cbn [py_iter rbind]. apply first_named_not_a_dict, Hx.
  - intros c s ->. apply Hall. intros A extract name. reflexivity.
  - intros k x d ->. apply Hall. intros A extract name. reflexivity.
  - intros d rest -> Hname Hvalue. unfold amount, scan_metadata. rewrite Hmd.
    destruct md as [|kv md']; [discriminate Hitem|]. rewrite Hitem.
    cbn [rbind py_iter first_named py_get]. rewrite Hname.
    cbn [eq_str String.eqb Ascii.eqb Bool.eqb rbind]. unfold float_value.
    cbn [py_get]. rewrite Hvalue. reflexivity.
Qed.

End StkAccessorErrors.

Section StkAccessorErrorExamples.
Import Py pydantic stk_schemas sample.

(** A push result whose [Amount] is null, as the constructor takes it. *)
Definition null_amount : STKPushCallback :=
  {| merchant_request_id := "29115-34620561-1";
     checkout_request_id := "ws_CO_191220191020363925";
     result_code := 0;
     result_desc := "The service request is processed successfully.";
     callback_metadata :=
       Some [("Item", VList [VDict [("Name", VStr "Amount"); ("Value", VNone)]])] |}.

Lemma accessors_raise_on_malformed_metadata_witness :
  STKPushCallback_init (VStr "29115-34620561-1") (VStr "ws_CO_191220191020363925")
    (VInt 0) (VStr "The service request is processed successfully.")
    (VDict [("Item", VList [VDict [("Name", VStr "Amount"); ("Value", VNone)]])])
  = Return null_amount
  /\ amount null_amount = Raise TypeError.
Proof.
  split; [reflexivity|].
  destruct (accessors_raise_on_malformed_metadata (RT:=sample.runtime)
              null_amount
              [("Item", VList [VDict [("Name", VStr "Amount"); ("Value", VNone)]])]
              (VList [VDict [("Name", VStr "Amount"); ("Value", VNone)]])
              eq_refl eq_refl) as (_ & _ & _ & _ & Hnull).
  exact (Hnull _ _ eq_refl eq_refl eq_refl).
Defined.

End StkAccessorErrorExamples.

(** ** The request password and its timestamp (api/core/utils.py) *)

Section PasswordProps.
Import Py utils spec.

Definition is_byte (z : Z) : Prop := 0 <= z < 256.

(** A character of the base64 alphabet, or the filler. *)
Definition is_b64 (c : ascii) : bool :=
  (existsb (Ascii.eqb c) (list_ascii_of_string b64_alphabet)
   || Ascii.eqb c "=")%bool.

Fixpoint index_of (c : ascii) (s : string) : nat :=
  match s with
  | EmptyString => 0
  | String x rest => if Ascii.eqb x c then 0 else S (index_of c rest)
  end.

Lemma list_ind3 (P : list Z -> Prop) :
  P [] -> (forall a, P [a]) -> (forall a b, P [a; b]) ->
  (forall a b c rest, P rest -> P (a :: b :: c :: rest)) ->
  forall l, P l.
Proof.
  intros H0 H1 H2 H3. fix IH 1.
  intros [|a [|b [|c rest]]];
    [exact H0|exact (H1 a)|exact (H2 a b)|exact (H3 a b c rest (IH rest))].
Qed.

Lemma nat_of_ascii_bound c : 0 <= Z.of_nat (nat_of_ascii c) < 256.
Proof. pose proof (nat_ascii_bounded c). lia. Qed.

Lemma encode_char_bytes c : Forall is_byte (encode_char c).
Proof.
  unfold encode_char. pose proof (nat_of_ascii_bound c) as Hn.
  destruct (_ <? 128) eqn:E.
  - repeat constructor; unfold is_byte; lia.
  - apply Z.ltb_ge in E.
    repeat constructor; unfold is_byte; Z.div_mod_to_equations; lia.
Qed.

Lemma encode_bytes s : Forall is_byte (encode s).
Proof.
  induction s as [|c s IH]; [constructor|].
  cbn [encode]. apply Forall_app. split; [apply encode_char_bytes|exact IH].
Qed.

Lemma encode_char_inj c c' rest rest' :
  encode_char c ++ rest = encode_char c' ++ rest' -> c = c' /\ rest = rest'.
Proof.
  unfold encode_char.
  pose proof (nat_of_ascii_bound c) as Hn.
  pose proof (nat_of_ascii_bound c') as Hn'.
  assert (Hinj : Z.of_nat (nat_of_ascii c) = Z.of_nat (nat_of_ascii c') -> c = c').
  { intros H. apply Nat2Z.inj in H.
    rewrite <- (ascii_nat_embedding c), <- (ascii_nat_embedding c'), H.
    reflexivity. }
  destruct (Z.of_nat (nat_of_ascii c) <? 128) eqn:E;
    destruct (Z.of_nat (nat_of_ascii c') <? 128) eqn:E';
    try apply Z.ltb_lt in E; try apply Z.ltb_ge in E;
    try apply Z.ltb_lt in E'; try apply Z.ltb_ge in E';
    cbn [app].
  - intros [= H1 H2]. split; [apply Hinj; exact H1|exact H2].
  - intros [= H1 _]. exfalso. revert H1. Z.div_mod_to_equations. lia.
  - intros [= H1 _]. exfalso. revert H1. Z.div_mod_to_equations. lia.
  - intros [= H1 H2 H3]. split; [|exact H3].
    apply Hinj. revert H1 H2. Z.div_mod_to_equations. lia.
Qed.

Lemma encode_char_nonempty c rest : encode_char c ++ rest <> [].
Proof. unfold encode_char. destruct (_ <? 128); discriminate. Qed.

Lemma encode_inj s s' : encode s = encode s' -> s = s'.
Proof.
  revert s'. induction s as [|c s IH]; intros [|c' s']; cbn [encode].
  - reflexivity.
  - intros H. symmetry in H. destruct (encode_char_nonempty _ _ H).
  - intros H. destruct (encode_char_nonempty _ _ H).
  - intros H. destruct (encode_char_inj _ _ _ _ H) as [-> Hrest].
    rewrite (IH _ Hrest). reflexivity.
Qed.

(** The characters of the alphabet are distinct, and none is the filler. *)
Lemma b64_char_index i :
  0 <= i < 64 ->
  Z.of_nat (index_of (b64_char i) b64_alphabet) = i
  /\ b64_char i <> "="%char.
Proof.
  intros Hi.
  assert (Hall : forallb
            (fun k => (Nat.eqb (index_of (b64_char (Z.of_nat k)) b64_alphabet) k
                       && negb (Ascii.eqb (b64_char (Z.of_nat k)) "="))%bool)
            (seq 0 64) = true) by (vm_compute; reflexivity).
  rewrite forallb_forall in Hall.
  specialize (Hall (Z.to_nat i)).
  rewrite Z2Nat.id in Hall by lia.
  assert (Hin : In (Z.to_nat i) (seq 0 64)) by (apply in_seq; lia).
  apply Hall in Hin. apply andb_true_iff in Hin. destruct Hin as [Hidx Hne].
  apply Nat.eqb_eq in Hidx. apply negb_true_iff, Ascii.eqb_neq in Hne.
  split; [rewrite Hidx; lia|exact Hne].
Qed.

Lemma b64_char_inj i j :
  0 <= i < 64 -> 0 <= j < 64 -> b64_char i = b64_char j -> i = j.
Proof.
  intros Hi Hj H.
  rewrite <- (proj1 (b64_char_index i Hi)), <- (proj1 (b64_char_index j Hj)), H.
  reflexivity.
Qed.

Lemma b64_char_is_b64 i : is_b64 (b64_char i) = true.
Proof.
  unfold b64_char, is_b64.
  destruct (String.get (Z.to_nat i) b64_alphabet) as [c|] eqn:Hget;
    [|reflexivity].
  apply orb_true_iff. left. apply existsb_exists. exists c.
  split; [|apply Ascii.eqb_refl].
  revert Hget. generalize (Z.to_nat i). generalize b64_alphabet.
  induction s as [|x s IH]; intros [|n]; cbn [String.get list_ascii_of_string];
    try discriminate.
  - intros [= ->]. left. reflexivity.
  - intros H. right. exact (IH _ H).
Qed.

Ltac sextet_range :=
  unfold is_byte in *; Z.div_mod_to_equations; lia.

Ltac filler_clash :=
  exfalso;
  match goal with
  | Hx : "="%char = b64_char _ |- _ =>
      symmetry in Hx; revert Hx;
      apply (fun Hr => proj2 (b64_char_index _ Hr)); sextet_range
  | Hx : b64_char _ = "="%char |- _ =>
      revert Hx;
      apply (fun Hr => proj2 (b64_char_index _ Hr)); sextet_range
  end.

Ltac same_sextets :=
  repeat match goal with
         | Hx : b64_char _ = b64_char _ |- _ =>
             apply b64_char_inj in Hx; [|sextet_range..]
         end.

Lemma b64encode_inj bs :
  forall bs', Forall is_byte bs -> Forall is_byte bs' ->
              b64encode bs = b64encode bs' -> bs = bs'.
Proof.
  induction bs as [|a|a b|a b c rest IH] using list_ind3;
    intros [|a' [|b' [|c' rest']]] Hbs Hbs'; cbn [b64encode];
    try reflexivity; try discriminate; intros H;
    repeat match goal with
           | Hf : Forall is_byte (_ :: _) |- _ =>
               apply Forall_cons in Hf; destruct Hf as [? Hf]
           end;
    injection H; clear H; intros.
  - same_sextets. f_equal. sextet_range.
  - filler_clash.
  - filler_clash.
  - filler_clash.
  - same_sextets. assert (a = a' /\ b = b') as [-> ->] by sextet_range.
    reflexivity.
  - filler_clash.
  - filler_clash.
  - filler_clash.
  - same_sextets.
    assert (a = a' /\ b = b' /\ c = c') as (-> & -> & ->) by sextet_range.
    f_equal. f_equal. f_equal. apply IH; assumption.
Qed.

Lemma b64encode_shape bs :
  all_chars is_b64 (b64encode bs) = true
  /\ exists n, String.length (b64encode bs) = (4 * n)%nat.
Proof.
  induction bs as [|a|a b|a b c rest IH] using list_ind3; cbn [b64encode].
  - split; [reflexivity|exists 0%nat; reflexivity].
  - cbn [all_chars String.length]. rewrite !b64_char_is_b64.
    split; [reflexivity|exists 1%nat; reflexivity].
  - cbn [all_chars String.length]. rewrite !b64_char_is_b64.
    split; [reflexivity|exists 1%nat; reflexivity].
  - destruct IH as [Hall [n Hn]].
    cbn [all_chars String.length]. rewrite !b64_char_is_b64, Hall, Hn.
    split; [reflexivity|exists (S n); lia].
Qed.

Lemma append_cancel_l (p s t : string) : p +:+ s = p +:+ t -> s = t.
Proof.
  induction p as [|c p IH]; cbn [String.append]; [auto|].
  intros [= H]. exact (IH H).
Qed.

(** X23.  The password sent with a push request names its ingredients:
    two calls of [generate_password] give the same password only if short
    code, passkey and timestamp concatenate to the same text, so with the
    same short code and passkey only for the same timestamp.  The password
    is made of characters of the base64 alphabet and ['='], and its length
    is a multiple of four. *)
Theorem generate_password_is_injective :
  forall code key t code' key' t' : string,
    (generate_password code key t = generate_password code' key' t' ->
     code +:+ key +:+ t = code' +:+ key' +:+ t')
    /\ (generate_password code key t = generate_password code key t' -> t = t')
    /\ all_chars is_b64 (generate_password code key t) = true
    /\ exists n, String.length (generate_password code key t) = (4 * n)%nat.
Proof.
  intros code key t code' key' t'.
  assert (Hinj : forall s s' : string,
             b64encode (encode s) = b64encode (encode s') -> s = s').
  { intros s s' H. apply encode_inj.
    apply b64encode_inj; [apply encode_bytes..|exact H]. }
  unfold generate_password. split; [apply Hinj|]. split.
  - intros H. apply Hinj in H.
    apply append_cancel_l in H. apply append_cancel_l in H. exact H.
  - apply b64encode_shape.
Qed.

End PasswordProps.

Section TimestampProps.
Import Py utils spec.

(** Microseconds from [datetime.min] to 1000-01-01T00:00:00. *)
Definition YEAR_1000 : Z := 364877 * 86400 * 1000000.

(** Month and day of the day numbered [n] (from 0) in its year: the last
    steps of [_ord2ymd]. *)
Definition month_day (n : Z) (leapyear : bool) : Z * Z :=
  let month := (n + 50) / 32 in
  let preceding :=
    DAYS_BEFORE_MONTH month + (if ((2 <? month) && leapyear)%bool then 1 else 0) in
  if n <? preceding then
    let month := month - 1 in
    let preceding :=
      preceding
      - (DAYS_IN_MONTH month + (if ((month =? 2) && leapyear)%bool then 1 else 0)) in
    (month, n - preceding + 1)
  else (month, n - preceding + 1).

Definition in_calendar (md : Z * Z) : bool :=
  ((1 <=? fst md) && (fst md <=? 12) && (1 <=? snd md) && (snd md <=? 31))%bool.

Lemma month_day_range n leapyear :
  0 <= n < 365 -> in_calendar (month_day n leapyear) = true.
Proof.
  intros Hn.
  assert (Hall : forallb
            (fun k => (in_calendar (month_day (Z.of_nat k) true)
                       && in_calendar (month_day (Z.of_nat k) false))%bool)
            (seq 0 365) = true) by (vm_compute; reflexivity).
  rewrite forallb_forall in Hall. specialize (Hall (Z.to_nat n)).
  rewrite Z2Nat.id in Hall by lia.
  assert (Hin : In (Z.to_nat n) (seq 0 365)) by (apply in_seq; lia).
  apply Hall in Hin. apply andb_true_iff in Hin.
  destruct leapyear; tauto.
Qed.

Lemma ord2ymd_range ordinal :
  364878 <= ordinal <= 3652059 ->
  exists year month day,
    ord2ymd ordinal = (year, month, day)
    /\ 1000 <= year <= 9999 /\ 1 <= month <= 12 /\ 1 <= day <= 31.
Proof.
  intros Hord. unfold ord2ymd. cbv zeta.
  set (n0 := ordinal - 1).
  set (n400 := n0 / 146097). set (r1 := n0 mod 146097).
  set (n100 := r1 / 36524). set (r2 := r1 mod 36524).
  set (n4 := r2 / 1461). set (r3 := r2 mod 1461).
  set (n1 := r3 / 365). set (r4 := r3 mod 365).
  assert (Hr4 : 0 <= r4 < 365) by (subst r4; apply Z.mod_pos_bound; lia).
  assert (Hlo : 999 <= n400 * 400 + n100 * 100 + n4 * 4 + n1).
  { subst n1 r3 n4 r2 n100 r1 n400 n0. Z.div_mod_to_equations. lia. }
  assert (Hhi : n400 * 400 + n100 * 100 + n4 * 4 + n1 <= 9999
                /\ (n1 <= 3 -> n100 <= 3 ->
                    n400 * 400 + n100 * 100 + n4 * 4 + n1 <= 9998)).
  { subst n1 r3 n4 r2 n100 r1 n400 n0. Z.div_mod_to_equations. lia. }
  assert (Hn1 : 0 <= n1 <= 4 /\ 0 <= n100 <= 4).
  { subst n1 r3 n4 r2 n100 r1. Z.div_mod_to_equations. lia. }
  assert (Hend : n1 = 4 \/ n100 = 4 ->
                 1000 <= n400 * 400 + n100 * 100 + n4 * 4 + n1).
  { subst n1 r3 n4 r2 n100 r1 n400 n0. Z.div_mod_to_equations. lia. }
  destruct ((n1 =? 4) || (n100 =? 4))%bool eqn:Hlast.
  - apply orb_true_iff in Hlast. rewrite !Z.eqb_eq in Hlast.
    specialize (Hend Hlast).
    eexists _, _, _. split; [reflexivity|]. lia.
  - apply orb_false_iff in Hlast. destruct Hlast as [H1 H100].
    apply Z.eqb_neq in H1, H100.
    set (leapyear := ((n1 =? 3) && (negb (n4 =? 24) || (n100 =? 3)))%bool).
    pose proof (month_day_range r4 leapyear Hr4) as Hmd.
    unfold month_day in Hmd. cbv zeta in Hmd.
    destruct (r4 <? _) eqn:Hpre.
    + eexists _, _, _. split; [reflexivity|].
      unfold in_calendar in Hmd. cbn [fst snd] in Hmd.
      rewrite !andb_true_iff, !Z.leb_le in Hmd. lia.
    + eexists _, _, _. split; [reflexivity|].
      unfold in_calendar in Hmd. cbn [fst snd] in Hmd.
      rewrite !andb_true_iff, !Z.leb_le in Hmd. lia.
Qed.

Lemma digit_is_digit d : 0 <= d <= 9 -> is_digit (digit d) = true.
Proof.
  intros Hd. unfold is_digit, digit. cbv zeta.
  rewrite nat_ascii_embedding by lia.
  apply andb_true_iff. split; apply Nat.leb_le; lia.
Qed.

Lemma two_digits_ok z :
  0 <= z < 100 ->
  all_chars is_digit (two_digits z) = true
  /\ String.length (two_digits z) = 2%nat.
Proof.
  intros Hz. unfold two_digits. cbn [all_chars String.length].
  rewrite !digit_is_digit by (Z.div_mod_to_equations; lia).
  split; reflexivity.
Qed.

Lemma four_digits_ok z :
  0 <= z < 10000 ->
  all_chars is_digit (four_digits z) = true
  /\ String.length (four_digits z) = 4%nat.
Proof.
  intros Hz. unfold four_digits. cbn [all_chars String.length].
  rewrite !digit_is_digit by (Z.div_mod_to_equations; lia).
  split; reflexivity.
Qed.

(** X24.  From the year 1000 on, [get_timestamp] returns fourteen decimal
    digits, the form YYYYMMDDHHmmss the provider asks for; and two instants
    within the same second give the same timestamp. *)
Theorem get_timestamp_is_fourteen_digits :
  forall now : Z,
    YEAR_1000 <= now < auth_service.DATETIME_END ->
    String.length (get_timestamp now) = 14%nat
    /\ all_chars is_digit (get_timestamp now) = true
    /\ (forall now', now' / 1000000 = now / 1000000 ->
                     get_timestamp now' = get_timestamp now).
Proof.
  intros now Hnow.
  unfold YEAR_1000, auth_service.DATETIME_END, auth_service.SECONDS_PER_DAY,
    auth_service.US_PER_SECOND in Hnow.
  assert (Hshape : String.length (get_timestamp now) = 14%nat
                   /\ all_chars is_digit (get_timestamp now) = true).
  { unfold get_timestamp, strftime_YmdHMS. cbv zeta.
    destruct (ord2ymd_range (now / (86400 * 1000000) + 1))
      as (year & month & day & -> & Hy & Hm & Hd).
    { Z.div_mod_to_equations. lia. }
    set (seconds := now mod (86400 * 1000000) / 1000000).
    assert (Hs : 0 <= seconds < 86400)
      by (subst seconds; Z.div_mod_to_equations; lia).
    destruct (four_digits_ok year) as [Ha1 Hl1]; [lia|].
    destruct (two_digits_ok month) as [Ha2 Hl2]; [lia|].
    destruct (two_digits_ok day) as [Ha3 Hl3]; [lia|].
    destruct (two_digits_ok (seconds / 3600)) as [Ha4 Hl4];
      [Z.div_mod_to_equations; lia|].
    destruct (two_digits_ok (seconds / 60 mod 60)) as [Ha5 Hl5];
      [Z.div_mod_to_equations; lia|].
    destruct (two_digits_ok (seconds mod 60)) as [Ha6 Hl6];
      [Z.div_mod_to_equations; lia|].
    rewrite !string_length_append, !all_chars_append.
    rewrite Hl1, Hl2, Hl3, Hl4, Hl5, Hl6, Ha1, Ha2, Ha3, Ha4, Ha5, Ha6.
    split; reflexivity. }
  split; [exact (proj1 Hshape)|]. split; [exact (proj2 Hshape)|].
  intros now' Hsame. unfold get_timestamp, strftime_YmdHMS. cbv zeta.
  assert (Hday : now' / (86400 * 1000000) = now / (86400 * 1000000)).
  { change (86400 * 1000000) with (1000000 * 86400).
    rewrite <- !Z.div_div by lia. rewrite Hsame. reflexivity. }
  assert (Hsec : now' mod (86400 * 1000000) / 1000000
                 = now mod (86400 * 1000000) / 1000000).
  { revert Hsame Hday. Z.div_mod_to_equations. lia. }
  rewrite Hday, Hsec. reflexivity.
Qed.

Lemma get_timestamp_is_fourteen_digits_witness :
  get_timestamp 63841343400000000 = "20240120103000"
  /\ String.length (get_timestamp 63841343400000000) = 14%nat.
Proof.
  split; [vm_compute; reflexivity|].
  destruct (get_timestamp_is_fourteen_digits 63841343400000000) as [Hl _].
  - vm_compute. split; [discriminate|reflexivity].
  - exact Hl.
Defined.

End TimestampProps.

(** ** The initiation endpoints (api/routers/stk_push.py, api/routers/b2c.py) *)

Section InitiationProps.
Import Py pydantic provider.
Context {RT : Runtime}.
Variable settings : Settings.

(** The token service, as both endpoints call it. *)
Definition fetch_token (token_outcome : auth_service.http_outcome)
    (token_latency : Z) : M auth_service.world pyval :=
  auth_service.get_access_token (auth settings) false token_outcome token_latency.

Definition is_http_exception (e : exn) : Prop :=
  exists status detail, e = HTTPException status detail.


(** The headers of a payment request made with [token]. *)
Definition bearer (token : pyval) : list (string * string) :=
  [("Authorization", "Bearer " +:+ py_str token);
   ("Content-Type", "application/json")].

Lemma try_except_server {A} (body : M server A) (handler : exn -> M server A) s :
  try_except body handler s
  = match body s with
    | (Return x, s') => (Return x, s')
    | (Raise e, s') => handler e s'
    end.
Proof. reflexivity. Qed.

Lemma stk_except_http e s :
  exists e', stk_push.initiate_stk_push_except e s = (Raise e', s)
             /\ is_http_exception e'.
Proof. destruct e; eexists; (split; [reflexivity|]); eexists _, _; reflexivity. Qed.

Lemma b2c_except_http e s :
  exists e', b2c.initiate_b2c_payment_except e s = (Raise e', s)
             /\ is_http_exception e'.
Proof. destruct e; eexists; (split; [reflexivity|]); eexists _, _; reflexivity. Qed.

(** X25.  Whatever goes wrong in an initiation endpoint reaches the client
    as an [HTTPException]: every exception [initiate_stk_push] and
    [initiate_b2c_payment] raise is one.  An [HTTPException] of the token
    service is passed on as it is, with no payment request posted. *)
Theorem initiation_raises_http_only :
  forall stk_request b2c_request token_outcome token_latency encrypted
         post_outcome post_latency s,
    (forall e s',
        stk_push.initiate_stk_push settings stk_request token_outcome
          token_latency post_outcome post_latency s = (Raise e, s') ->
        is_http_exception e)
    /\ (forall e s',
           b2c.initiate_b2c_payment settings b2c_request token_outcome
             token_latency encrypted post_outcome post_latency s = (Raise e, s') ->
           is_http_exception e)
    /\ (forall status detail w1,
           fetch_token token_outcome token_latency (world s)
           = (Raise (HTTPException status detail), w1) ->
           stk_push.initiate_stk_push settings stk_request token_outcome
             token_latency post_outcome post_latency s
           = (Raise (HTTPException status detail),
              {| world := w1; sent := sent s |})
           /\ b2c.initiate_b2c_payment settings b2c_request token_outcome
                token_latency encrypted post_outcome post_latency s
              = (Raise (HTTPException status detail),
                 {| world := w1; sent := sent s |})).
Proof.
  intros stk_request b2c_request token_outcome token_latency encrypted
    post_outcome post_latency s.
  split; [|split].
  - intros e s'. unfold stk_push.initiate_stk_push. rewrite try_except_server.
    destruct (stk_push.initiate_stk_push_body _ _ _ _ _ _ s) as [[x|e0] s0];
      [discriminate|].
    destruct (stk_except_http e0 s0) as (e' & -> & He').
    intros [= <- _]. exact He'.
  - intros e s'. unfold b2c.initiate_b2c_payment. rewrite try_except_server.
    destruct (b2c.initiate_b2c_payment_body _ _ _ _ _ _ _ s) as [[x|e0] s0];
      [discriminate|].
    destruct (b2c_except_http e0 s0) as (e' & -> & He').
    intros [= <- _]. exact He'.
  - intros status detail w1 Htoken. unfold fetch_token in Htoken. split.
    + unfold stk_push.initiate_stk_push. rewrite try_except_server.
      unfold stk_push.initiate_stk_push_body. unfold bind at 1.
      unfold in_world at 1. rewrite Htoken. reflexivity.
    + unfold b2c.initiate_b2c_payment. rewrite try_except_server.
      unfold b2c.initiate_b2c_payment_body. unfold bind at 1.
      unfold in_world at 1. rewrite Htoken. reflexivity.
Qed.

(** What [initiate_stk_push] posts for [request], with [token], at clock
    reading [now], the phone number formatted as [p]. *)
Definition stk_posted (request : stk_push.STKPushRequest) (token : pyval)
    (now : Z) (p : string) : payment_request :=
  let timestamp := utils.get_timestamp now in
  {| url := stk_push_url settings;
     json :=
       VDict [("BusinessShortCode", VInt (BUSINESS_SHORT_CODE settings));
              ("Password",
               VStr (utils.generate_password
                       (str_of_Z (BUSINESS_SHORT_CODE settings))
                       (PASSKEY settings) timestamp));
              ("Timestamp", VStr timestamp);
              ("TransactionType", VStr "CustomerPayBillOnline");
              ("Amount", VInt (stk_push.amount request));
              ("PartyA", VStr p);
              ("PartyB", VInt (BUSINESS_SHORT_CODE settings));
              ("PhoneNumber", VStr p);
              ("CallBackURL", VStr (STK_CALLBACK_URL settings));
              ("AccountReference", VStr (stk_push.account_reference request));
              ("TransactionDesc", VStr (stk_push.transaction_desc request))];
     headers := bearer token;
     timeout := 30 |}.

(** The state once a payment request is out and answered. *)
Definition after_post (s : server) (w1 : auth_service.world)
    (posted : payment_request) (post_latency : Z) : server :=
  {| world := auth_service.sleep post_latency w1;
     sent := sent s ++ [posted] |}.

(** What [initiate_stk_push] makes of the provider's answer: the statements
    after [client.post]. *)
Definition stk_reply (response : auth_service.response)
  : M server stk_push.STKPushResponse :=
  (if negb (auth_service.status_code response =? 200) then
     let! error_data := lift (json_or_empty response) in
     let! error_code := lift (py_get error_data "errorCode" (VStr "UNKNOWN")) in
     let! error_message :=
       lift (py_get error_data "errorMessage"
               (VStr (auth_service.text response))) in
     raise (HTTPException (auth_service.status_code response)
              (VDict [("error_code", error_code);
                      ("error_message", error_message)]))
   else
     let! data := lift (auth_service.response_json response) in
     let! merchant_request_id := lift (routers.py_getitem data "MerchantRequestID") in
     let! checkout_request_id := lift (routers.py_getitem data "CheckoutRequestID") in
     let! response_code := lift (routers.py_getitem data "ResponseCode") in
     let! response_description :=
       lift (routers.py_getitem data "ResponseDescription") in
     let! customer_message := lift (routers.py_getitem data "CustomerMessage") in
     lift (stk_push.STKPushResponse_init merchant_request_id checkout_request_id
             response_code response_description customer_message))%py.

Lemma stk_run_to_post request token_outcome token_latency post_outcome
    post_latency s token w1 p :
  fetch_token token_outcome token_latency (world s) = (Return token, w1) ->
  utils.format_phone_number (stk_push.phone_number request) = Return p ->
  stk_push.initiate_stk_push_body settings request token_outcome token_latency
    post_outcome post_latency s
  = let s1 := after_post s w1 (stk_posted request token (auth_service.clock w1) p)
                post_latency in
    match post_outcome with
    | auth_service.Failed e => (Raise e, s1)
    | auth_service.Responded r => stk_reply r s1
    end.
Proof.
  intros Htoken Hphone. unfold fetch_token in Htoken.
  unfold stk_push.initiate_stk_push_body.
  unfold bind at 1. unfold in_world at 1. rewrite Htoken.
  unfold bind at 1. unfold in_world at 1, auth_service.datetime_now.
  cbn [world sent].
  unfold bind at 1. unfold lift at 1. rewrite Hphone.
  unfold bind at 1. unfold http_post.
  destruct post_outcome as [r|e]; reflexivity.
Qed.



(** X27.  Once token and phone number are in hand, [initiate_stk_push]
    posts exactly one payment request: to the push URL, with the token as
    bearer, the formatted number as both [PartyA] and [PhoneNumber], and the
    timestamp of the clock with the password made from it.  A request the
    provider does not answer (a timeout, a transport error) is reported to
    the client as 500; an answer with a status other than 200 is passed on
    with that status, the provider's [errorCode] in the detail, or UNKNOWN
    when the body is empty or has none. *)
Theorem push_request_is_posted_once :
  forall request token_outcome token_latency post_outcome post_latency s
         token w1 p,
    fetch_token token_outcome token_latency (world s) = (Return token, w1) ->
    utils.format_phone_number (stk_push.phone_number request) = Return p ->
    let run := stk_push.initiate_stk_push settings request token_outcome
                 token_latency post_outcome post_latency s in
    (exists posted,
        sent (snd run) = sent s ++ [posted]
        /\ url posted = stk_push_url settings
        /\ headers posted = bearer token
        /\ py_get (json posted) "PartyA" VNone = Return (VStr p)
        /\ py_get (json posted) "PhoneNumber" VNone = Return (VStr p)
        /\ py_get (json posted) "Timestamp" VNone
           = Return (VStr (utils.get_timestamp (auth_service.clock w1)))
        /\ py_get (json posted) "Password" VNone
           = Return (VStr (utils.generate_password
                             (str_of_Z (BUSINESS_SHORT_CODE settings))
                             (PASSKEY settings)
                             (utils.get_timestamp (auth_service.clock w1)))))
    /\ (forall e, post_outcome = auth_service.Failed e ->
                  ~ is_http_exception e ->
                  fst run
                  = Raise (HTTPException 500
                             (VStr ("Error initiating STK push: " +:+ exn_str e))))
    /\ (forall r, post_outcome = auth_service.Responded r ->
                  auth_service.status_code r <> 200 ->
                  (auth_service.text r = ""
                   -> fst run
                      = Raise (HTTPException (auth_service.status_code r)
                                 (VDict [("error_code", VStr "UNKNOWN");
                                         ("error_message", VStr "")])))
                  /\ (forall d, auth_service.text r <> "" ->
                                auth_service.json r = Some (VDict d) ->
                      fst run
                      = Raise (HTTPException (auth_service.status_code r)
                                 (VDict [("error_code",
                                          default (VStr "UNKNOWN")
                                            (assoc "errorCode" d));
                                         ("error_message",
                                          default (VStr (auth_service.text r))
                                            (assoc "errorMessage" d))])))).
Proof.
  intros request token_outcome token_latency post_outcome post_latency s
    token w1 p Htoken Hphone run.
  subst run. unfold stk_push.initiate_stk_push. rewrite try_except_server.
  rewrite (stk_run_to_post _ _ _ _ _ _ _ _ _ Htoken Hphone). cbv zeta.
  set (posted := stk_posted request token (auth_service.clock w1) p).
  set (s1 := after_post s w1 posted post_latency).
  assert (Hsent : forall r : result stk_push.STKPushResponse * server,
             sent (snd r) = sent s1 ->
             exists posted0,
               sent (snd r) = sent s ++ [posted0]
               /\ url posted0 = stk_push_url settings
               /\ headers posted0 = bearer token
               /\ py_get (json posted0) "PartyA" VNone = Return (VStr p)
               /\ py_get (json posted0) "PhoneNumber" VNone = Return (VStr p)
               /\ py_get (json posted0) "Timestamp" VNone
                  = Return (VStr (utils.get_timestamp (auth_service.clock w1)))
               /\ py_get (json posted0) "Password" VNone
                  = Return (VStr (utils.generate_password
                                    (str_of_Z (BUSINESS_SHORT_CODE settings))
                                    (PASSKEY settings)
                                    (utils.get_timestamp (auth_service.clock w1))))).
  { intros r ->. exists posted. repeat split; reflexivity. }
  assert (Hkeep : forall r, sent (snd (stk_reply r s1)) = sent s1).
  { intros r. unfold stk_reply, bind, lift, raise.
    destruct (negb (auth_service.status_code r =? 200)).
    - destruct (json_or_empty r) as [ed|e]; [|reflexivity].
      destruct (py_get ed "errorCode" _) as [ec|e]; [|reflexivity].
      destruct (py_get ed "errorMessage" _) as [em|e]; reflexivity.
    - destruct (auth_service.response_json r) as [data|e]; [|reflexivity].
      destruct (routers.py_getitem data "MerchantRequestID"); [|reflexivity].
      destruct (routers.py_getitem data "CheckoutRequestID"); [|reflexivity].
      destruct (routers.py_getitem data "ResponseCode"); [|reflexivity].
      destruct (routers.py_getitem data "ResponseDescription"); [|reflexivity].
      destruct (routers.py_getitem data "CustomerMessage"); [|reflexivity].
      destruct (stk_push.STKPushResponse_init _ _ _ _ _); reflexivity. }
  split; [|split].
  - apply Hsent. destruct post_outcome as [r|e].
    + specialize (Hkeep r). destruct (stk_reply r s1) as [[x|e] s2];
        [exact Hkeep|].
      destruct (stk_except_http e s2) as (e2 & -> & _). exact Hkeep.
    + destruct (stk_except_http e s1) as (e2 & -> & _). reflexivity.
  - intros e -> Hnot. destruct e; try reflexivity.
    exfalso. apply Hnot. eexists _, _. reflexivity.
  - intros r -> Hstatus.
    assert (Hne : negb (auth_service.status_code r =? 200) = true)
      by (apply negb_true_iff, Z.eqb_neq; exact Hstatus).
    split.
    + intros Htext. unfold stk_reply. rewrite Hne.
      unfold json_or_empty. rewrite Htext. reflexivity.
    + intros d Htext Hjson. unfold stk_reply. rewrite Hne.
      unfold json_or_empty, auth_service.response_json.
      apply String.eqb_neq in Htext. rewrite Htext, Hjson.
      unfold bind, lift, raise. cbn [negb py_get].
      destruct (assoc "errorCode" d), (assoc "errorMessage" d); reflexivity.
Qed.









End InitiationProps.

Section InitiationExamples.
Import Py pydantic provider sample.

Definition shop : Settings :=
  {| auth := daraja;
     BUSINESS_SHORT_CODE := 174379;
     PASSKEY := "passkey";
     INITIATOR_NAME := "testapi";
     INITIATOR_PASSWORD := "secret";
     STK_CALLBACK_URL := "https://shop.example.com/api/v1/stk-push/callback";
     B2C_RESULT_URL := "https://shop.example.com/api/v1/b2c/result";
     B2C_TIMEOUT_URL := "https://shop.example.com/api/v1/b2c/timeout" |}.

(** A server that has not asked for a token yet and has posted nothing. *)
Definition idle : server := {| world := noon; sent := [] |}.

Definition push_request (phone : string) : stk_push.STKPushRequest :=
  {| stk_push.phone_number := phone;
     stk_push.amount := 100;
     stk_push.account_reference := "INV001";
     stk_push.transaction_desc := "Payment" |}.




(** The provider is busy, and says so with an empty body. *)
Definition unavailable : auth_service.response :=
  {| auth_service.status_code := 503;
     auth_service.text := "";
     auth_service.json := None |}.

Lemma token_granted :
  fetch_token shop granted 200000 (world idle) = (Return (VStr "tok"), snd first_call).
Proof. reflexivity. Qed.


Lemma push_request_is_posted_once_witness :
  (exists posted,
      sent (snd (stk_push.initiate_stk_push shop (push_request "0712345678")
                   granted 200000 (auth_service.Responded unavailable) 300000
                   idle)) = [posted]
      /\ py_get (json posted) "PhoneNumber" VNone = Return (VStr "254712345678"))
  /\ fst (stk_push.initiate_stk_push shop (push_request "0712345678")
            granted 200000 (auth_service.Responded unavailable) 300000 idle)
     = Raise (HTTPException 503
                (VDict [("error_code", VStr "UNKNOWN");
                        ("error_message", VStr "")])).
Proof.
  pose proof (push_request_is_posted_once (RT:=sample.runtime) shop
                (push_request "0712345678") granted 200000
                (auth_service.Responded unavailable) 300000 idle
                (VStr "tok") (snd first_call) "254712345678"
                token_granted eq_refl) as H.
  cbv zeta in H. destruct H as ((posted & Hsent & _ & _ & _ & Hphone & _) & _ & Hrefused).
  split.
  - exists posted. split; [exact Hsent|exact Hphone].
  - destruct (Hrefused unavailable eq_refl) as [Hempty _]; [discriminate|].
    exact (Hempty eq_refl).
Defined.




End InitiationExamples.

(** * Phone numbers on any code points *)

(** ** [format_phone_number] (api/core/utils.py) *)

Section WidePhoneNumbers.
Import Py unicodedata utils.wide.

(** One of the characters 0-9. *)
Definition ascii_digit (c : Z) : bool := ((48 <=? c) && (c <=? 57))%bool.

Definition decimal_or_plus (c : Z) : bool := (decimal c || (c =? 43))%bool.

Lemma ascii_digit_decimal c : ascii_digit c = true -> decimal c = true.
Proof.
  unfold ascii_digit, decimal, in_table, Nd. intros H.
  cbn [existsb fst snd]. rewrite H. reflexivity.
Qed.

Lemma plus_not_decimal : decimal 43 = false.
Proof. vm_compute. reflexivity. Qed.

Lemma decimal_not_plus c : decimal c = true -> (c =? 43) = false.
Proof.
  intros Hc. destruct (c =? 43) eqn:E; [|reflexivity].
  apply Z.eqb_eq in E. subst c. rewrite plus_not_decimal in Hc. discriminate Hc.
Qed.

Lemma re_sub_kept s :
  forallb decimal_or_plus (re_sub_not_digit_plus s) = true.
Proof.
  induction s as [|c s IH]; [reflexivity|].
  cbn [re_sub_not_digit_plus].
  destruct (decimal c || (c =? 43))%bool eqn:E; [|exact IH].
  cbn [forallb]. unfold decimal_or_plus at 1. rewrite E. exact IH.
Qed.

Lemma re_sub_decimal s :
  forallb decimal_or_plus s = true -> re_sub_not_digit_plus s = s.
Proof.
  induction s as [|c s IH]; [reflexivity|].
  cbn [forallb re_sub_not_digit_plus]. intros H.
  apply andb_true_iff in H. destruct H as [Hc Hs].
  unfold decimal_or_plus in Hc. rewrite Hc, (IH Hs). reflexivity.
Qed.

Lemma decimal_is_decimal_or_plus s :
  forallb decimal s = true -> forallb decimal_or_plus s = true.
Proof.
  induction s as [|c s IH]; [reflexivity|].
  cbn [forallb]. intros H. apply andb_true_iff in H. destruct H as [Hc Hs].
  unfold decimal_or_plus at 1. rewrite Hc, (IH Hs). reflexivity.
Qed.

Lemma slice_from_1_forallb (p : Z -> bool) s :
  forallb p s = true -> forallb p (slice_from_1 s) = true.
Proof.
  destruct s as [|c s]; [auto|]. cbn [forallb slice_from_1].
  intros H. apply andb_true_iff in H. tauto.
Qed.

Lemma wide_startswith_split s p :
  startswith s p = true -> exists r, s = p ++ r.
Proof.
  revert s. induction p as [|a p IH]; intros s; cbn [startswith].
  - exists s. reflexivity.
  - destruct s as [|c s]; [discriminate|].
    intros H. apply andb_true_iff in H. destruct H as [Hc Hp].
    apply Z.eqb_eq in Hc. subst c.
    destruct (IH _ Hp) as [r ->]. exists r. reflexivity.
Qed.

Lemma wide_startswith_app p r : startswith (p ++ r) p = true.
Proof.
  induction p as [|a p IH]; [reflexivity|].
  cbn [app startswith]. rewrite Z.eqb_refl. exact IH.
Qed.

Lemma wide_match_literal_split p s r :
  match_literal p s = Some r -> s = p ++ r.
Proof.
  revert s. induction p as [|a p IH]; intros s; cbn [match_literal].
  - intros [= ->]. reflexivity.
  - destruct s as [|c s]; [discriminate|].
    destruct (a =? c) eqn:E; [|discriminate].
    apply Z.eqb_eq in E. subst c. intros Hm. cbn [app]. f_equal. auto.
Qed.

Lemma wide_match_literal_app p r : match_literal p (p ++ r) = Some r.
Proof.
  induction p as [|a p IH]; [reflexivity|].
  cbn [app match_literal]. rewrite Z.eqb_refl. exact IH.
Qed.

Lemma wide_match_digits_split n s r :
  match_digits n s = Some r ->
  exists d, s = d ++ r /\ length d = n /\ forallb decimal d = true.
Proof.
  revert s. induction n as [|n IH]; intros s; cbn [match_digits].
  - intros [= ->]. exists []. auto.
  - destruct s as [|c s]; [discriminate|].
    destruct (decimal c) eqn:E; [|discriminate].
    intros Hm. destruct (IH _ Hm) as (d & -> & Hl & Hd).
    exists (c :: d). cbn [app length forallb]. rewrite E, Hl, Hd. auto.
Qed.

Lemma wide_match_digits_all d :
  forallb decimal d = true -> match_digits (length d) d = Some [].
Proof.
  induction d as [|c d IH]; [reflexivity|].
  cbn [forallb length match_digits]. intros H.
  apply andb_true_iff in H. destruct H as [Hc Hd]. rewrite Hc. auto.
Qed.

Lemma wide_match_end_kept r :
  match_end r = true -> forallb decimal_or_plus r = true -> r = [].
Proof.
  destruct r as [|c [|c' r]]; [reflexivity| |discriminate].
  cbn [match_end forallb]. intros Hc H. apply Z.eqb_eq in Hc. subst c.
  discriminate H.
Qed.

(** A string of digits and ['+'] that matches [^254\d{9}$] is 254 and nine
    decimal digits. *)
Lemma wide_re_match_shape s :
  forallb decimal_or_plus s = true ->
  re_match_254_9_digits s = true ->
  exists d, s = code_points "254" ++ d
            /\ length d = 9%nat /\ forallb decimal d = true.
Proof.
  unfold re_match_254_9_digits. intros Hs Hm.
  destruct (match_literal (code_points "254") s) as [r|] eqn:Hl; [|discriminate].
  destruct (match_digits 9 r) as [r'|] eqn:Hd; [|discriminate].
  apply wide_match_literal_split in Hl. subst s.
  destruct (wide_match_digits_split _ _ _ Hd) as (d & -> & Hlen & Hdig).
  rewrite !forallb_app in Hs.
  apply andb_true_iff in Hs. destruct Hs as [_ Hs].
  apply andb_true_iff in Hs. destruct Hs as [_ Hs].
  rewrite (wide_match_end_kept _ Hm Hs), app_nil_r.
  exists d. auto.
Qed.

Lemma wide_re_match_digits d :
  length d = 9%nat -> forallb decimal d = true ->
  re_match_254_9_digits (code_points "254" ++ d) = true.
Proof.
  intros Hl Hd. unfold re_match_254_9_digits.
  rewrite wide_match_literal_app, <- Hl, (wide_match_digits_all _ Hd).
  reflexivity.
Qed.

Lemma cleaned_kept s :
  forallb decimal_or_plus s = true ->
  forallb decimal_or_plus
    (if startswith s (code_points "0")
     then code_points "254" ++ slice_from_1 s
     else if negb (startswith s (code_points "254"))
          then code_points "254" ++ s else s) = true.
Proof.
  intros Hs.
  destruct (startswith s (code_points "0")).
  - rewrite forallb_app, (slice_from_1_forallb _ _ Hs). reflexivity.
  - destruct (negb (startswith s (code_points "254"))); [|exact Hs].
    rewrite forallb_app, Hs. reflexivity.
Qed.

(** What [format_phone_number] returns, on any [str]: 254 and nine decimal
    digits of Unicode; what it raises is [ValueError]. *)
Lemma wide_format_shape s :
  match format_phone_number s with
  | Return r =>
      exists d, r = code_points "254" ++ d
                /\ length d = 9%nat /\ forallb decimal d = true
  | Raise e => e = ValueError
  end.
Proof.
  unfold format_phone_number.
  set (c0 := re_sub_not_digit_plus s).
  set (c1 := if startswith c0 (code_points "+") then slice_from_1 c0 else c0).
  assert (H1 : forallb decimal_or_plus c1 = true).
  { subst c1. pose proof (re_sub_kept s) as H0. fold c0 in H0.
    destruct (startswith c0 (code_points "+"));
      [apply slice_from_1_forallb|]; exact H0. }
  pose proof (cleaned_kept _ H1) as H2.
  destruct (re_match_254_9_digits _) eqn:Hm; cbn [negb].
  - apply wide_re_match_shape; assumption.
  - reflexivity.
Qed.

(** Nine decimal digits none of which is one of 0-9 are taken for a local
    number. *)
Lemma format_foreign_digits s :
  length s = 9%nat ->
  forallb decimal s = true ->
  forallb (fun c => negb (ascii_digit c)) s = true ->
  format_phone_number s = Return (code_points "254" ++ s).
Proof.
  intros Hl Hd Hf. unfold format_phone_number.
  rewrite (re_sub_decimal _ (decimal_is_decimal_or_plus _ Hd)).
  destruct s as [|c s]; [discriminate Hl|].
  cbn [forallb] in Hd, Hf.
  apply andb_true_iff in Hd. destruct Hd as [Hc Hd].
  apply andb_true_iff in Hf. destruct Hf as [Hfc Hf].
  apply negb_true_iff in Hfc. unfold ascii_digit in Hfc.
  assert (H43 : (43 =? c) = false).
  { rewrite Z.eqb_sym. apply decimal_not_plus, Hc. }
  assert (H48 : (48 =? c) = false).
  { apply Z.eqb_neq. intros <-. discriminate Hfc. }
  assert (H50 : (50 =? c) = false).
  { apply Z.eqb_neq. intros <-. discriminate Hfc. }
  assert (Hs43 : startswith (c :: s) (code_points "+") = false).
  { change (startswith (c :: s) (code_points "+")) with ((43 =? c) && true)%bool.
    rewrite H43. reflexivity. }
  assert (Hs48 : startswith (c :: s) (code_points "0") = false).
  { change (startswith (c :: s) (code_points "0")) with ((48 =? c) && true)%bool.
    rewrite H48. reflexivity. }
  assert (Hs50 : startswith (c :: s) (code_points "254") = false).
  { change (startswith (c :: s) (code_points "254"))
      with ((50 =? c) && startswith s (code_points "54"))%bool.
    rewrite H50. reflexivity. }
  rewrite Hs43, Hs48, Hs50. cbn [negb].
  rewrite wide_re_match_digits.
  - reflexivity.
  - exact Hl.
  - cbn [forallb]. rewrite Hc, Hd. reflexivity.
Qed.

Lemma decimal_isdigit c : decimal c = true -> unicodedata.isdigit c = true.
Proof.
  assert (Hall : forallb
            (fun r => existsb (fun r' => ((fst r' <=? fst r)
                                          && (snd r <=? snd r'))%bool) Digit)
            Nd = true) by (vm_compute; reflexivity).
  rewrite forallb_forall in Hall.
  unfold decimal, unicodedata.isdigit, in_table. intros Hc.
  apply existsb_exists in Hc. destruct Hc as (r & Hr & Hin).
  apply Hall in Hr. apply existsb_exists in Hr. destruct Hr as (r' & Hr' & Hsub).
  apply existsb_exists. exists r'. split; [exact Hr'|].
  rewrite !andb_true_iff, !Z.leb_le in *. lia.
Qed.

Lemma filter_isdigit_decimal s :
  forallb decimal s = true ->
  stk_schemas.STKPushRequest.filter_isdigit s = s.
Proof.
  induction s as [|c s IH]; [reflexivity|].
  cbn [forallb stk_schemas.STKPushRequest.filter_isdigit]. intros H.
  apply andb_true_iff in H. destruct H as [Hc Hs].
  rewrite (decimal_isdigit _ Hc), (IH Hs). reflexivity.
Qed.

Lemma re_sub_incl x s : In x (re_sub_not_digit_plus s) -> In x s.
Proof.
  induction s as [|c s IH]; [auto|]. cbn [re_sub_not_digit_plus].
  destruct (decimal c || (c =? 43))%bool; cbn [In]; tauto.
Qed.

Lemma slice_from_1_incl x (s : str) : In x (slice_from_1 s) -> In x s.
Proof. destruct s; cbn [slice_from_1 In]; tauto. Qed.

(** The characters of what [format_phone_number] returns: those of 254, and
    decimal digits of its argument. *)
Lemma format_keeps_digits s r x :
  format_phone_number s = Return r ->
  In x r -> In x (code_points "254") \/ (In x s /\ decimal x = true).
Proof.
  intros Hr Hx.
  pose proof (wide_format_shape s) as Hshape. rewrite Hr in Hshape.
  destruct Hshape as (d & Hrd & _ & Hd).
  assert (Hdec : In x r -> decimal x = true).
  { rewrite Hrd. intros Hin. apply in_app_or in Hin. destruct Hin as [Hin|Hin].
    - cbn in Hin. destruct Hin as [<-|[<-|[<-|[]]]]; vm_compute; reflexivity.
    - rewrite forallb_forall in Hd. exact (Hd _ Hin). }
  revert Hr. unfold format_phone_number.
  set (c0 := re_sub_not_digit_plus s).
  set (c1 := if startswith c0 (code_points "+") then slice_from_1 c0 else c0).
  assert (H1 : forall y, In y c1 -> In y s).
  { intros y Hy. apply re_sub_incl. fold c0. subst c1.
    destruct (startswith c0 (code_points "+")); [apply slice_from_1_incl|];
      exact Hy. }
  destruct (negb (re_match_254_9_digits _)); [discriminate|].
  intros Hret.
  match type of Hret with
  | Return ?c2 = Return r => assert (Heq : c2 = r) by congruence
  end.
  clear Hret. rewrite <- Heq in Hx.
  destruct (startswith c1 (code_points "0")).
  - apply in_app_or in Hx. destruct Hx as [Hx|Hx]; [left; exact Hx|].
    right. split; [apply H1, slice_from_1_incl, Hx|].
    apply Hdec. rewrite <- Heq. apply in_or_app. right. exact Hx.
  - destruct (negb (startswith c1 (code_points "254"))).
    + apply in_app_or in Hx. destruct Hx as [Hx|Hx]; [left; exact Hx|].
      right. split; [apply H1, Hx|].
      apply Hdec. rewrite <- Heq. apply in_or_app. right. exact Hx.
    + right. split; [apply H1, Hx|]. apply Hdec. rewrite <- Heq. exact Hx.
Qed.

(** Where every decimal digit of the argument is one of 0-9, so is every
    character of what [format_phone_number] returns, which is then twelve
    of the digits 0-9 and begins with 254. *)
Lemma plain_digits_in_plain_digits_out s r :
  format_phone_number s = Return r ->
  (forall c, In c s -> decimal c = true -> ascii_digit c = true) ->
  length r = 12%nat /\ forallb ascii_digit r = true
  /\ startswith r (code_points "254") = true.
Proof.
  intros Hr Hplain.
  pose proof (wide_format_shape s) as Hshape. rewrite Hr in Hshape.
  destruct Hshape as (d & Hrd & Hl & Hd).
  split; [rewrite Hrd, length_app, Hl; reflexivity|]. split.
  - apply forallb_forall. intros x Hx.
    destruct (format_keeps_digits _ _ _ Hr Hx) as [H254|[Hin Hdec]].
    + cbn in H254. destruct H254 as [<-|[<-|[<-|[]]]]; reflexivity.
    + exact (Hplain _ Hin Hdec).
  - rewrite Hrd. apply wide_startswith_app.
Qed.

(** C9, where the code departs from it.  [\d] matches every decimal digit of
    Unicode, not only 0-9.  Nine decimal digits none of which is one of 0-9
    (nine Arabic-Indic digits, say) pass the push request's validator, and
    [format_phone_number] takes them for a local number: it returns them with
    254 in front, which is no string of the digits 0-9, where the pattern
    that ends the function was to refuse with [ValueError] whatever is not
    254 and nine digits. *)
Theorem foreign_digits_are_returned :
  forall s : str,
    length s = 9%nat ->
    forallb decimal s = true ->
    forallb (fun c => negb (ascii_digit c)) s = true ->
    stk_schemas.STKPushRequest.validate_phone_number s = Return s
    /\ format_phone_number s = Return (code_points "254" ++ s)
    /\ forallb ascii_digit (code_points "254" ++ s) = false.
Proof.
  intros s Hl Hd Hf. split; [|split].
  - unfold stk_schemas.STKPushRequest.validate_phone_number.
    rewrite (filter_isdigit_decimal _ Hd), Hl. reflexivity.
  - apply format_foreign_digits; assumption.
  - rewrite forallb_app. apply andb_false_iff. right.
    destruct s as [|c s]; [discriminate Hl|]. cbn [forallb] in Hf |- *.
    apply andb_true_iff in Hf. destruct Hf as [Hc _].
    apply negb_true_iff in Hc. rewrite Hc. reflexivity.
Qed.

(** The digits 7, 1, 2, 3, 4, 5, 6, 7, 8 in their Arabic-Indic forms
    (U+0667, U+0661, ..., U+0668). *)
Definition arabic_indic_712345678 : str :=
  [1639; 1633; 1634; 1635; 1636; 1637; 1638; 1639; 1640].

Lemma foreign_digits_are_returned_witness :
  format_phone_number arabic_indic_712345678
  = Return ([50; 53; 52] ++ arabic_indic_712345678)
  /\ forallb ascii_digit ([50; 53; 52] ++ arabic_indic_712345678) = false.
Proof.
  destruct (foreign_digits_are_returned arabic_indic_712345678)
    as (_ & Hformat & Hdigits).
  - reflexivity.
  - vm_compute. reflexivity.
  - vm_compute. reflexivity.
  - split; [exact Hformat|exact Hdigits].
Defined.

(** *** The two models agree on the code points 0..255 *)

Definition code_point (c : ascii) : Z := Z.of_nat (nat_of_ascii c).

(** A result, with the [str] it returns seen as code points. *)
Definition as_code_points (r : result string) : result str :=
  match r with
  | Return s => Return (code_points s)
  | Raise e => Raise e
  end.

Lemma decimal_code_point c : decimal (code_point c) = utils.is_digit c.
Proof. destruct c as [[] [] [] [] [] [] [] []]; vm_compute; reflexivity. Qed.

Lemma code_point_inj a c : code_point a = code_point c -> a = c.
Proof.
  unfold code_point. intros H. apply Nat2Z.inj in H.
  rewrite <- (ascii_nat_embedding a), <- (ascii_nat_embedding c), H.
  reflexivity.
Qed.

Lemma code_point_eqb a c : (code_point a =? code_point c) = Ascii.eqb a c.
Proof.
  destruct (Ascii.eqb a c) eqn:E.
  - apply Ascii.eqb_eq in E. subst c. apply Z.eqb_refl.
  - apply Z.eqb_neq. intros H. apply code_point_inj in H.
    apply Ascii.eqb_neq in E. contradiction.
Qed.

Lemma code_points_cons c s :
  code_points (String c s) = code_point c :: code_points s.
Proof. reflexivity. Qed.

Lemma code_points_app s t :
  code_points (s +:+ t) = code_points s ++ code_points t.
Proof.
  induction s as [|c s IH]; [reflexivity|].
  cbn [String.append]. rewrite !code_points_cons, IH. reflexivity.
Qed.

Lemma code_points_inj s t : code_points s = code_points t -> s = t.
Proof.
  revert t. induction s as [|c s IH]; intros [|c' t]; try discriminate;
    [reflexivity|].
  rewrite !code_points_cons. intros [= Hc Hs].
  apply code_point_inj in Hc. subst c'. rewrite (IH _ Hs). reflexivity.
Qed.

Lemma re_sub_agrees s :
  re_sub_not_digit_plus (code_points s)
  = code_points (utils.re_sub_not_digit_plus s).
Proof.
  induction s as [|c s IH]; [reflexivity|].
  rewrite code_points_cons. cbn [re_sub_not_digit_plus utils.re_sub_not_digit_plus].
  rewrite decimal_code_point.
  change 43 with (code_point "+"). rewrite code_point_eqb.
  unfold utils.is_plus.
  destruct (utils.is_digit c || Ascii.eqb c "+")%bool;
    [rewrite code_points_cons|]; rewrite IH; reflexivity.
Qed.

Lemma startswith_agrees p s :
  startswith (code_points s) (code_points p) = utils.startswith s p.
Proof.
  revert s. induction p as [|a p IH]; intros s; [reflexivity|].
  rewrite code_points_cons. destruct s as [|c s]; [reflexivity|].
  rewrite code_points_cons. cbn [startswith utils.startswith].
  rewrite code_point_eqb, IH. reflexivity.
Qed.

Lemma slice_from_1_agrees s :
  slice_from_1 (code_points s) = code_points (utils.slice_from_1 s).
Proof. destruct s; reflexivity. Qed.

Lemma match_literal_agrees p s :
  match_literal (code_points p) (code_points s)
  = option_map code_points (utils.match_literal p s).
Proof.
  revert s. induction p as [|a p IH]; intros s; [reflexivity|].
  rewrite code_points_cons. destruct s as [|c s]; [reflexivity|].
  rewrite code_points_cons. cbn [match_literal utils.match_literal].
  rewrite code_point_eqb. destruct (Ascii.eqb a c); [apply IH|reflexivity].
Qed.

Lemma match_digits_agrees n s :
  match_digits n (code_points s)
  = option_map code_points (utils.match_digits n s).
Proof.
  revert s. induction n as [|n IH]; intros s; [reflexivity|].
  destruct s as [|c s]; [reflexivity|].
  rewrite code_points_cons. cbn [match_digits utils.match_digits].
  rewrite decimal_code_point. destruct (utils.is_digit c); [apply IH|reflexivity].
Qed.

Lemma match_end_agrees s :
  match_end (code_points s) = utils.match_end s.
Proof.
  unfold utils.match_end, utils.newline.
  destruct s as [|c [|c' s]]; [reflexivity| |].
  - rewrite code_points_cons. cbn [code_points match_end String.eqb orb].
    change 10 with (code_point (ascii_of_nat 10)).
    rewrite code_point_eqb. destruct (Ascii.eqb c _); reflexivity.
  - rewrite !code_points_cons. cbn [match_end String.eqb orb].
    destruct (Ascii.eqb c _); reflexivity.
Qed.

Lemma re_match_agrees s :
  re_match_254_9_digits (code_points s) = utils.re_match_254_9_digits s.
Proof.
  unfold re_match_254_9_digits, utils.re_match_254_9_digits.
  rewrite match_literal_agrees.
  destruct (utils.match_literal "254" s) as [rest|]; [|reflexivity].
  cbn [option_map]. rewrite match_digits_agrees.
  destruct (utils.match_digits 9 rest) as [rest'|]; [|reflexivity].
  cbn [option_map]. apply match_end_agrees.
Qed.

(** On a [str] of the code points 0..255, [format_phone_number] on code
    points does what the model on strings does. *)
Lemma format_phone_number_agrees s :
  format_phone_number (code_points s)
  = as_code_points (utils.format_phone_number s).
Proof.
  unfold format_phone_number, utils.format_phone_number.
  rewrite re_sub_agrees.
  set (c0 := utils.re_sub_not_digit_plus s).
  rewrite startswith_agrees.
  assert (H1 : (if utils.startswith c0 "+"
                then slice_from_1 (code_points c0) else code_points c0)
               = code_points (if utils.startswith c0 "+"
                              then utils.slice_from_1 c0 else c0)).
  { destruct (utils.startswith c0 "+"); [apply slice_from_1_agrees|reflexivity]. }
  rewrite H1.
  set (c1 := if utils.startswith c0 "+" then utils.slice_from_1 c0 else c0).
  rewrite !startswith_agrees.
  assert (H2 : (if utils.startswith c1 "0"
                then code_points "254" ++ slice_from_1 (code_points c1)
                else if negb (utils.startswith c1 "254")
                     then code_points "254" ++ code_points c1
                     else code_points c1)
               = code_points (if utils.startswith c1 "0"
                              then "254" +:+ utils.slice_from_1 c1
                              else if negb (utils.startswith c1 "254")
                                   then "254" +:+ c1 else c1)).
  { destruct (utils.startswith c1 "0").
    - rewrite slice_from_1_agrees, <- code_points_app. reflexivity.
    - destruct (negb (utils.startswith c1 "254"));
        [rewrite <- code_points_app|]; reflexivity. }
  rewrite H2, re_match_agrees.
  destruct (negb (utils.re_match_254_9_digits _)); reflexivity.
Qed.

(** The decimal digits of [s], in order. *)
Fixpoint decimals_of (s : str) : str :=
  match s with
  | [] => []
  | c :: rest => if decimal c then c :: decimals_of rest else decimals_of rest
  end.

Lemma decimals_of_re_sub s :
  decimals_of (re_sub_not_digit_plus s) = decimals_of s.
Proof.
  induction s as [|c s IH]; [reflexivity|].
  cbn [re_sub_not_digit_plus decimals_of].
  destruct (decimal c) eqn:Hd; cbn [orb].
  - cbn [decimals_of]. rewrite Hd, IH. reflexivity.
  - destruct (c =? 43); [|exact IH].
    cbn [decimals_of]. rewrite Hd. exact IH.
Qed.

Lemma decimals_of_decimal s : forallb decimal s = true -> decimals_of s = s.
Proof.
  induction s as [|c s IH]; [reflexivity|].
  cbn [forallb decimals_of]. intros H. apply andb_true_iff in H.
  destruct H as [Hc Hs]. rewrite Hc, (IH Hs). reflexivity.
Qed.

Lemma decimals_of_strip_plus s :
  decimals_of (if startswith s (code_points "+") then slice_from_1 s else s)
  = decimals_of s.
Proof.
  destruct s as [|c s]; [reflexivity|].
  change (startswith (c :: s) (code_points "+")) with ((43 =? c) && true)%bool.
  destruct (43 =? c) eqn:E; [|reflexivity].
  apply Z.eqb_eq in E. subst c. cbn [andb slice_from_1 decimals_of].
  rewrite plus_not_decimal. reflexivity.
Qed.

Lemma decimals_of_app s t : decimals_of (s ++ t) = decimals_of s ++ decimals_of t.
Proof.
  induction s as [|c s IH]; [reflexivity|].
  cbn [app decimals_of]. destruct (decimal c); cbn [app]; rewrite IH; reflexivity.
Qed.

(** [str.isdigit] counts every decimal digit, and more. *)
Lemma decimals_counted s :
  (length (decimals_of s)
   <= length (stk_schemas.STKPushRequest.filter_isdigit s))%nat.
Proof.
  induction s as [|c s IH]; [reflexivity|].
  cbn [decimals_of stk_schemas.STKPushRequest.filter_isdigit].
  destruct (decimal c) eqn:Hd.
  - rewrite (decimal_isdigit _ Hd). cbn [length]. lia.
  - destruct (unicodedata.isdigit c); cbn [length]; lia.
Qed.

Lemma filter_isdigit_plain s :
  (forall c, In c s -> unicodedata.isdigit c = true -> decimal c = true) ->
  stk_schemas.STKPushRequest.filter_isdigit s = decimals_of s.
Proof.
  induction s as [|c s IH]; [reflexivity|]. intros Hplain.
  cbn [decimals_of stk_schemas.STKPushRequest.filter_isdigit].
  rewrite IH by (intros x Hx; apply Hplain; right; exact Hx).
  destruct (unicodedata.isdigit c) eqn:Hi.
  - rewrite (Hplain c (or_introl eq_refl) Hi). reflexivity.
  - destruct (decimal c) eqn:Hd; [|reflexivity].
    rewrite (decimal_isdigit _ Hd) in Hi. discriminate Hi.
Qed.

(** A number [format_phone_number] accepts has nine, ten or twelve decimal
    digits. *)
Lemma format_accepts_decimals v r :
  format_phone_number v = Return r ->
  (9 <= length (decimals_of v) <= 12)%nat.
Proof.
  unfold format_phone_number.
  set (c0 := re_sub_not_digit_plus v).
  set (c1 := if startswith c0 (code_points "+") then slice_from_1 c0 else c0).
  assert (H1 : forallb decimal_or_plus c1 = true).
  { subst c1. pose proof (re_sub_kept v) as H0. fold c0 in H0.
    destruct (startswith c0 (code_points "+"));
      [apply slice_from_1_forallb|]; exact H0. }
  pose proof (cleaned_kept _ H1) as H2.
  assert (Hcount : decimals_of v = decimals_of c1).
  { subst c1 c0. rewrite decimals_of_strip_plus, decimals_of_re_sub.
    reflexivity. }
  destruct (re_match_254_9_digits _) eqn:Hm; cbn [negb]; [|discriminate].
  intros _. destruct (wide_re_match_shape _ H2 Hm) as (d & Hshape & Hl & Hd).
  rewrite Hcount. clear Hm H2 Hcount.
  assert (H254 : decimals_of (code_points "254") = code_points "254")
    by (vm_compute; reflexivity).
  assert (Hlen : forall t, length (code_points "254" ++ t) = (3 + length t)%nat)
    by (intros t; rewrite length_app; reflexivity).
  apply (f_equal decimals_of) in Hshape.
  rewrite (decimals_of_app _ d), H254, (decimals_of_decimal _ Hd) in Hshape.
  apply (f_equal (@length Z)) in Hshape. rewrite (Hlen d), Hl in Hshape.
  destruct (startswith c1 (code_points "0")) eqn:H0.
  - rewrite decimals_of_app, H254, Hlen in Hshape.
    destruct c1 as [|c c1']; [discriminate H0|].
    change (startswith (c :: c1') (code_points "0"))
      with ((48 =? c) && true)%bool in H0.
    apply andb_true_iff in H0. destruct H0 as [Hc _].
    apply Z.eqb_eq in Hc. subst c.
    cbn [slice_from_1] in Hshape. cbn [decimals_of].
    change (decimal 48) with true. cbn [length]. lia.
  - destruct (startswith c1 (code_points "254")); cbn [negb] in Hshape.
    + lia.
    + rewrite decimals_of_app, H254, Hlen in Hshape. lia.
Qed.

(** X21.  The push request's validator and [format_phone_number] do not
    count the same digits.  The validator returns its argument as it is.
    For a number [format_phone_number] accepts, the validator accepts it
    exactly when it holds at most twelve characters that [str.isdigit]
    counts: so it passes when every such character is a decimal digit, and
    is refused when digits that are not decimal (a circled digit, a
    superscript) bring the count above twelve.  Any string of nine to twelve
    of the digits 0-9 passes the validator, whether or not
    [format_phone_number] accepts it. *)
Theorem validation_of_formattable_numbers :
  (forall v r : str,
      stk_schemas.STKPushRequest.validate_phone_number v = Return r -> r = v)
  /\ (forall v r : str,
         format_phone_number v = Return r ->
         (stk_schemas.STKPushRequest.validate_phone_number v = Return v
          <-> (length (stk_schemas.STKPushRequest.filter_isdigit v) <= 12)%nat)
         /\ ((forall c, In c v -> unicodedata.isdigit c = true ->
                        decimal c = true) ->
             stk_schemas.STKPushRequest.validate_phone_number v = Return v))
  /\ (forall s : str,
         forallb ascii_digit s = true ->
         (9 <= length s <= 12)%nat ->
         stk_schemas.STKPushRequest.validate_phone_number s = Return s).
Proof.
  assert (Hrun : forall v,
             stk_schemas.STKPushRequest.validate_phone_number v
             = if ((length (stk_schemas.STKPushRequest.filter_isdigit v) <? 9)%nat
                   || (12 <? length (stk_schemas.STKPushRequest.filter_isdigit v))%nat)
               then Raise ValueError else Return v) by reflexivity.
  split; [|split].
  - intros v r. rewrite Hrun. destruct (_ || _)%bool; [discriminate|].
    intros [= <-]. reflexivity.
  - intros v r Hf.
    pose proof (format_accepts_decimals _ _ Hf) as [Hlo Hhi].
    pose proof (decimals_counted v) as Hcount.
    assert (H9 : (length (stk_schemas.STKPushRequest.filter_isdigit v) <? 9)%nat
                 = false) by (apply Nat.ltb_ge; lia).
    split.
    + rewrite Hrun, H9. cbn [orb]. split.
      * destruct (12 <? _)%nat eqn:E; [discriminate|].
        intros _. apply Nat.ltb_ge in E. exact E.
      * intros Hle. apply Nat.ltb_ge in Hle. rewrite Hle. reflexivity.
    + intros Hplain. rewrite Hrun, (filter_isdigit_plain _ Hplain).
      assert (H1 : (length (decimals_of v) <? 9)%nat = false)
        by (apply Nat.ltb_ge; exact Hlo).
      assert (H2 : (12 <? length (decimals_of v))%nat = false)
        by (apply Nat.ltb_ge; exact Hhi).
      rewrite H1, H2. reflexivity.
  - intros s Hs [Hlo Hhi]. rewrite Hrun.
    assert (Hd : forallb decimal s = true).
    { apply forallb_forall. intros c Hc. rewrite forallb_forall in Hs.
      apply ascii_digit_decimal, Hs, Hc. }
    rewrite (filter_isdigit_decimal _ Hd).
    assert (H1 : (length s <? 9)%nat = false) by (apply Nat.ltb_ge; exact Hlo).
    assert (H2 : (12 <? length s)%nat = false) by (apply Nat.ltb_ge; exact Hhi).
    rewrite H1, H2. reflexivity.
Qed.

(** A number written with spaces passes both; a number followed by a
    circled one (U+2460) is accepted by [format_phone_number] and refused by
    the validator; eleven digits pass the validator and are refused by
    [format_phone_number]. *)
Lemma validation_of_formattable_numbers_witness :
  stk_schemas.STKPushRequest.validate_phone_number
    (code_points "+254 712 345 678")
  = Return (code_points "+254 712 345 678")
  /\ format_phone_number (code_points "254712345678" ++ [9312])
     = Return (code_points "254712345678")
  /\ stk_schemas.STKPushRequest.validate_phone_number
       (code_points "254712345678" ++ [9312])
     = Raise ValueError
  /\ stk_schemas.STKPushRequest.validate_phone_number (code_points "25471234567")
     = Return (code_points "25471234567")
  /\ format_phone_number (code_points "25471234567") = Raise ValueError.
Proof.
  destruct validation_of_formattable_numbers as (_ & Hformat & Hdigits).
  split; [|split; [|split; [|split]]].
  - apply (proj1 (Hformat (code_points "+254 712 345 678")
                    (code_points "254712345678") eq_refl)).
    vm_compute. lia.
  - vm_compute. reflexivity.
  - vm_compute. reflexivity.
  - apply (Hdigits (code_points "25471234567") eq_refl). cbn. lia.
  - vm_compute. reflexivity.
Defined.

(** ** [B2CPaymentRequest.validate_phone] (api/models/b2c_schemas.py) *)

Definition no_plus (c : Z) : bool := negb (c =? 43).

Lemma wide_remove_char_absent x s :
  forallb (fun c => negb (c =? x))
    (b2c_schemas.B2CPaymentRequest.wide.remove_char x s) = true.
Proof.
  induction s as [|c s IH]; [reflexivity|].
  cbn [b2c_schemas.B2CPaymentRequest.wide.remove_char].
  destruct (c =? x) eqn:E; [exact IH|].
  cbn [forallb]. rewrite E, IH. reflexivity.
Qed.

(** What [validate_phone] returns: twelve characters that begin with 254,
    none of them a ['+']. *)
Lemma wide_validate_phone_shape v r :
  b2c_schemas.B2CPaymentRequest.wide.validate_phone v = Return r ->
  length r = 12%nat
  /\ startswith r (code_points "254") = true
  /\ forallb no_plus r = true.
Proof.
  unfold b2c_schemas.B2CPaymentRequest.wide.validate_phone.
  set (w := b2c_schemas.B2CPaymentRequest.wide.remove_char 43 _).
  assert (Hw : forallb no_plus w = true) by apply wide_remove_char_absent.
  set (w' := if startswith w (code_points "0")
             then code_points "254" ++ slice_from_1 w else w).
  assert (Hw' : forallb no_plus w' = true).
  { subst w'. destruct (startswith w (code_points "0")); [|exact Hw].
    rewrite forallb_app, (slice_from_1_forallb _ _ Hw). reflexivity. }
  destruct (startswith w' (code_points "254")) eqn:Hp; cbn [negb]; [|discriminate].
  destruct (Nat.eqb (length w') 12) eqn:Hl; cbn [negb]; [|discriminate].
  intros Hret. assert (Heq : w' = r) by congruence. rewrite <- Heq.
  apply Nat.eqb_eq in Hl. auto.
Qed.

Lemma re_sub_no_plus s :
  forallb no_plus s = true ->
  re_sub_not_digit_plus s = decimals_of s.
Proof.
  induction s as [|c s IH]; [reflexivity|].
  cbn [forallb re_sub_not_digit_plus decimals_of]. intros H.
  apply andb_true_iff in H. destruct H as [Hc Hs].
  unfold no_plus in Hc. apply negb_true_iff in Hc.
  rewrite Hc, orb_false_r, (IH Hs). reflexivity.
Qed.

Lemma decimals_of_kept s : forallb decimal (decimals_of s) = true.
Proof.
  induction s as [|c s IH]; [reflexivity|]. cbn [decimals_of].
  destruct (decimal c) eqn:E; [|exact IH]. cbn [forallb]. rewrite E. exact IH.
Qed.

Lemma decimals_of_shorter s :
  forallb decimal s = false -> (length (decimals_of s) < length s)%nat.
Proof.
  induction s as [|c s IH]; [discriminate|].
  cbn [forallb decimals_of]. intros H.
  assert (Hle : (length (decimals_of s) <= length s)%nat).
  { clear. induction s as [|c s IH]; [reflexivity|]. cbn [decimals_of].
    destruct (decimal c); cbn [length]; lia. }
  destruct (decimal c) eqn:E; cbn [length].
  - cbn [andb] in H. specialize (IH H). lia.
  - lia.
Qed.

(** Twelve decimal digits that begin with 254 are returned as they are. *)
Lemma wide_format_canonical r :
  length r = 12%nat ->
  startswith r (code_points "254") = true ->
  forallb decimal r = true ->
  format_phone_number r = Return r.
Proof.
  intros Hl Hp Hd. unfold format_phone_number.
  rewrite (re_sub_decimal _ (decimal_is_decimal_or_plus _ Hd)).
  destruct (wide_startswith_split _ _ Hp) as [d ->].
  assert (Hplus : startswith (code_points "254" ++ d) (code_points "+") = false)
    by reflexivity.
  assert (H0 : startswith (code_points "254" ++ d) (code_points "0") = false)
    by reflexivity.
  rewrite Hplus, H0, Hp. cbn [negb].
  rewrite forallb_app in Hd. apply andb_true_iff in Hd. destruct Hd as [_ Hd].
  rewrite length_app in Hl. change (length (code_points "254")) with 3%nat in Hl.
  rewrite wide_re_match_digits; [reflexivity|lia|exact Hd].
Qed.

(** X19.  What the disbursement request's validator lets through, and what
    [format_phone_number] then does with it in [initiate_b2c_payment].
    Every value [validate_phone] returns has twelve characters, begins with
    254 and holds no ['+']; the validator does not ask for digits.  A value
    made of decimal digits (of any script) is left as it is by
    [format_phone_number]; any other validated value makes it raise
    [ValueError]. *)
Theorem validated_phone_formats_to_itself :
  forall v r : str,
    b2c_schemas.B2CPaymentRequest.wide.validate_phone v = Return r ->
    length r = 12%nat
    /\ startswith r (code_points "254") = true
    /\ forallb no_plus r = true
    /\ format_phone_number r
       = if forallb decimal r then Return r else Raise ValueError.
Proof.
  intros v r Hv.
  destruct (wide_validate_phone_shape _ _ Hv) as (Hl & Hp & Hn).
  split; [exact Hl|]. split; [exact Hp|]. split; [exact Hn|].
  destruct (forallb decimal r) eqn:Hd.
  - apply wide_format_canonical; assumption.
  - pose proof (decimals_of_shorter _ Hd) as Hshort. rewrite Hl in Hshort.
    pose proof (wide_format_shape r) as Hshape.
    destruct (format_phone_number r) as [r'|e] eqn:Hf; [|rewrite Hshape; reflexivity].
    exfalso.
    destruct Hshape as (d & Hr' & Hld & Hdd).
    revert Hf. unfold format_phone_number.
    rewrite (re_sub_no_plus _ Hn).
    destruct (wide_startswith_split _ _ Hp) as [t Ht].
    assert (Hc0 : decimals_of r = code_points "254" ++ decimals_of t).
    { rewrite Ht, decimals_of_app. reflexivity. }
    rewrite Hc0.
    assert (Hplus : startswith (code_points "254" ++ decimals_of t)
                      (code_points "+") = false) by reflexivity.
    assert (H0 : startswith (code_points "254" ++ decimals_of t)
                   (code_points "0") = false) by reflexivity.
    rewrite Hplus, H0, wide_startswith_app. cbn [negb].
    destruct (re_match_254_9_digits _) eqn:Hm; cbn [negb]; [|discriminate].
    intros _.
    assert (Hkept : forallb decimal_or_plus (code_points "254" ++ decimals_of t)
                    = true).
    { rewrite <- Hc0. apply decimal_is_decimal_or_plus, decimals_of_kept. }
    destruct (wide_re_match_shape _ Hkept Hm) as (d' & Hd' & Hld' & _).
    apply (f_equal (@length Z)) in Hd'. rewrite <- Hc0 in Hd'.
    rewrite length_app, Hld' in Hd'.
    change (length (code_points "254")) with 3%nat in Hd'. lia.
Qed.

(** A number written with spaces, dashes and a ['+']; and 254 followed by
    nine Arabic-Indic digits, which the validator lets through and
    [format_phone_number] returns unchanged. *)
Lemma validated_phone_formats_to_itself_witness :
  b2c_schemas.B2CPaymentRequest.wide.validate_phone
    (code_points " +254 708-374-149 ")
  = Return (code_points "254708374149")
  /\ format_phone_number (code_points "254708374149")
     = Return (code_points "254708374149")
  /\ b2c_schemas.B2CPaymentRequest.wide.validate_phone
       (code_points "254" ++ arabic_indic_712345678)
     = Return (code_points "254" ++ arabic_indic_712345678)
  /\ format_phone_number (code_points "254" ++ arabic_indic_712345678)
     = Return (code_points "254" ++ arabic_indic_712345678).
Proof.
  destruct (validated_phone_formats_to_itself
              (code_points " +254 708-374-149 ") (code_points "254708374149"))
    as (_ & _ & _ & Hf1); [vm_compute; reflexivity|].
  destruct (validated_phone_formats_to_itself
              (code_points "254" ++ arabic_indic_712345678)
              (code_points "254" ++ arabic_indic_712345678))
    as (_ & _ & _ & Hf2); [vm_compute; reflexivity|].
  split; [vm_compute; reflexivity|]. split; [exact Hf1|].
  split; [vm_compute; reflexivity|exact Hf2].
Defined.

(** *** The two models of [validate_phone] agree on the code points 0..255 *)

Lemma isspace_code_point c :
  unicodedata.isspace (code_point c) = b2c_schemas.B2CPaymentRequest.isspace c.
Proof. destruct c as [[] [] [] [] [] [] [] []]; vm_compute; reflexivity. Qed.

Lemma lstrip_agrees s :
  b2c_schemas.B2CPaymentRequest.wide.lstrip (code_points s)
  = code_points (b2c_schemas.B2CPaymentRequest.lstrip s).
Proof.
  induction s as [|c s IH]; [reflexivity|].
  rewrite code_points_cons.
  cbn [b2c_schemas.B2CPaymentRequest.wide.lstrip
         b2c_schemas.B2CPaymentRequest.lstrip].
  rewrite isspace_code_point.
  destruct (b2c_schemas.B2CPaymentRequest.isspace c); [exact IH|reflexivity].
Qed.

Lemma rstrip_agrees s :
  b2c_schemas.B2CPaymentRequest.wide.rstrip (code_points s)
  = code_points (b2c_schemas.B2CPaymentRequest.rstrip s).
Proof.
  induction s as [|c s IH]; [reflexivity|].
  rewrite code_points_cons.
  cbn [b2c_schemas.B2CPaymentRequest.wide.rstrip
         b2c_schemas.B2CPaymentRequest.rstrip].
  rewrite IH, isspace_code_point.
  destruct (b2c_schemas.B2CPaymentRequest.rstrip s) as [|c' kept];
    [destruct (b2c_schemas.B2CPaymentRequest.isspace c)|]; reflexivity.
Qed.

Lemma remove_char_agrees x s :
  b2c_schemas.B2CPaymentRequest.wide.remove_char (code_point x) (code_points s)
  = code_points (b2c_schemas.B2CPaymentRequest.remove_char x s).
Proof.
  induction s as [|c s IH]; [reflexivity|].
  rewrite code_points_cons.
  cbn [b2c_schemas.B2CPaymentRequest.wide.remove_char
         b2c_schemas.B2CPaymentRequest.remove_char].
  rewrite code_point_eqb, IH. destruct (Ascii.eqb c x); reflexivity.
Qed.

Lemma code_points_length s : length (code_points s) = String.length s.
Proof. induction s as [|c s IH]; [reflexivity|]. cbn. rewrite IH. reflexivity. Qed.

Lemma validate_phone_agrees s :
  b2c_schemas.B2CPaymentRequest.wide.validate_phone (code_points s)
  = as_code_points (b2c_schemas.B2CPaymentRequest.validate_phone s).
Proof.
  unfold b2c_schemas.B2CPaymentRequest.wide.validate_phone,
    b2c_schemas.B2CPaymentRequest.validate_phone,
    b2c_schemas.B2CPaymentRequest.wide.strip,
    b2c_schemas.B2CPaymentRequest.strip.
  rewrite lstrip_agrees, rstrip_agrees.
  change 32 with (code_point " "). rewrite remove_char_agrees.
  change 45 with (code_point "-"). rewrite remove_char_agrees.
  change 43 with (code_point "+"). rewrite remove_char_agrees.
  set (w := b2c_schemas.B2CPaymentRequest.remove_char "+" _).
  rewrite startswith_agrees.
  assert (H1 : (if utils.startswith w "0"
                then code_points "254" ++ slice_from_1 (code_points w)
                else code_points w)
               = code_points (if utils.startswith w "0"
                              then "254" +:+ utils.slice_from_1 w else w)).
  { destruct (utils.startswith w "0"); [|reflexivity].
    rewrite slice_from_1_agrees, <- code_points_app. reflexivity. }
  rewrite H1, startswith_agrees, code_points_length.
  destruct (negb (utils.startswith _ "254")); [reflexivity|].
  destruct (negb (Nat.eqb _ 12)); reflexivity.
Qed.

End WidePhoneNumbers.
